(** * Dataset validation and temporal canonicalization (Capitulo 5)

    A shallow embedding of the scripts under [scripts/capitulo_5]:

    - [Resultados_Cap5.p1_5_ordenacao_temporal.py]      (module [P15])
    - [Resultados_Cap5.p1_6_persistencia_dataset_mestre.py] (module [P16])
    - [Resultados_Cap5.p1_1b_confirmar_dataset_meteorologico.py] (module [P11b])
    - [Resultados_Cap5.xiv_validacao_estrutural_estatistica_gpu.py]
      (modules [XIV] and [Env])

    and of [scripts/classificar_projeto_tese_v4.py] (module [Classificar]).

    The scripts drive a columnar engine (cuDF / pandas).  Primitives whose
    result is fixed by the API (column selection, [isna], [min], [max],
    [duplicated], [shift], [fillna], [all]) are written out as functions.
    Primitives whose result the API leaves to the engine (datetime parsing,
    the order the sort gives to equal keys, [describe], [quantile]) are fields
    of an [Engine] record; what the API promises about them is the class
    [Lawful].  Files and the order of engine calls are explicit state. *)

From Stdlib Require Import ZArith QArith Qround List String Ascii Bool Arith Lia.
From Stdlib Require Import Permutation Sorted Lqa DecimalString.
Import ListNotations.

Close Scope Q_scope.
Open Scope string_scope.
Open Scope list_scope.
Open Scope nat_scope.

Set Implicit Arguments.

(* ================================================================== *)
(** ** Tables *)

(** A cell of a table.  [Datetime ns] is a [datetime64[ns]] value
    (nanoseconds since the epoch), [Num] a floating point or decimal value
    read as the rational it denotes, [Null] the missing value (NA/NaT). *)
Inductive cell : Type :=
| Null
| Flag (b : bool)
| Int (z : Z)
| Num (q : Q)
| Str (s : string)
| Datetime (ns : Z).

Definition Row := list cell.

(** A data frame: column labels, the string rendering [str(dtype)] of each
    column's dtype, and the rows in index order. *)
Record DataFrame : Type := mkDF {
  columns : list string;
  dtypes : list string;
  rows : list Row
}.

(** [cudf.DataFrame()] *)
Definition empty_frame : DataFrame := mkDF [] [] [].

(** [len(df)] *)
Definition len (df : DataFrame) : nat := List.length (rows df).

(** [df.shape] *)
Definition shape (df : DataFrame) : nat * nat :=
  (List.length (rows df), List.length (columns df)).

(** [c in df.columns] *)
Definition has_column (c : string) (df : DataFrame) : bool :=
  existsb (String.eqb c) (columns df).

(** Position of the first column labelled [c]. *)
Fixpoint index_of (c : string) (cols : list string) : option nat :=
  match cols with
  | [] => None
  | c' :: cols' =>
      if String.eqb c c' then Some 0
      else option_map S (index_of c cols')
  end.

(** [df[c]] as the list of its cells, for the column at position [i]. *)
Definition column_at (i : nat) (rs : list Row) : list cell :=
  map (fun r => nth i r Null) rs.

Fixpoint set_nth {A : Type} (i : nat) (v : A) (l : list A) : list A :=
  match l, i with
  | [], _ => []
  | _ :: l', O => v :: l'
  | x :: l', S i' => x :: set_nth i' v l'
  end.

(** [df[c] = values]: the assignment fails when the lengths differ. *)
Fixpoint assign_column (i : nat) (vals : list cell) (rs : list Row)
  : option (list Row) :=
  match rs, vals with
  | [], [] => Some []
  | r :: rs', v :: vals' =>
      option_map (cons (set_nth i v r)) (assign_column i vals' rs')
  | _, _ => None
  end.

(* ================================================================== *)
(** ** Temporal series *)

(** A [datetime64[ns]] series: [None] is NaT. *)
Definition series := list (option Z).

Definition ts_of_cell (c : cell) : option Z :=
  match c with
  | Datetime ns => Some ns
  | _ => None
  end.

Definition cell_of_ts (t : option Z) : cell :=
  match t with
  | Some ns => Datetime ns
  | None => Null
  end.

(** The sort key of a row: its timestamp in column [i]. *)
Definition key (i : nat) (r : Row) : option Z := ts_of_cell (nth i r Null).

(** [df[c]] read as a temporal series. *)
Definition date_series (i : nat) (rs : list Row) : series := map (key i) rs.

(** [s.isna()] *)
Definition isna (s : series) : list bool :=
  map (fun t => match t with None => true | Some _ => false end) s.

(** [int(b.sum())] for a boolean series. *)
Definition sum_bool (b : list bool) : nat := List.length (filter (fun x => x) b).

(** [s.min()] and [s.max()]: nulls are skipped, NaT on an empty series. *)
Definition pick (choose : Z -> Z -> Z) (acc t : option Z) : option Z :=
  match acc, t with
  | Some a, Some b => Some (choose a b)
  | None, _ => t
  | _, None => acc
  end.

Definition series_min (s : series) : option Z := fold_left (pick Z.min) s None.
Definition series_max (s : series) : option Z := fold_left (pick Z.max) s None.

Definition ts_eqb (a b : option Z) : bool :=
  match a, b with
  | Some x, Some y => Z.eqb x y
  | None, None => true
  | _, _ => false
  end.

(** [df.duplicated(subset=[c])] with the default [keep='first']: a row is
    marked when its key occurred in an earlier row. *)
Fixpoint duplicated_from (seen : list (option Z)) (s : series) : list bool :=
  match s with
  | [] => []
  | t :: s' =>
      if existsb (ts_eqb t) seen then true :: duplicated_from seen s'
      else false :: duplicated_from (t :: seen) s'
  end.

Definition duplicated (s : series) : list bool := duplicated_from [] s.

(** [s.shift(-1)]: every value moves one position up, the last is null. *)
Definition shift_neg1 (s : series) : series :=
  match s with
  | [] => []
  | _ :: s' => s' ++ [None]
  end.

(** [a >= b], element-wise; a null operand gives a null result. *)
Fixpoint series_ge (a b : series) : list (option bool) :=
  match a, b with
  | x :: a', y :: b' =>
      match x, y with
      | Some u, Some v => Some (Z.geb u v)
      | _, _ => None
      end :: series_ge a' b'
  | _, _ => []
  end.

(** [m.fillna(d)] *)
Definition fillna (d : bool) (m : list (option bool)) : list bool :=
  map (fun o => match o with Some b => b | None => d end) m.

(** [b.all()] *)
Definition all (b : list bool) : bool := forallb (fun x => x) b.

(** Line 84 of P1.5: [(s.shift(-1) >= s).fillna(True).all()]. *)
Definition adjacent_check (s : series) : bool :=
  all (fillna true (series_ge (shift_neg1 s) s)).

(** [s.is_monotonic_increasing]: false as soon as a null is present. *)
Fixpoint nondecreasingb (s : list Z) : bool :=
  match s with
  | x :: (y :: _) as s' => Z.leb x y && nondecreasingb s'
  | _ => true
  end.

Fixpoint values_of (s : series) : option (list Z) :=
  match s with
  | [] => Some []
  | Some x :: s' => option_map (cons x) (values_of s')
  | None :: _ => None
  end.

Definition is_monotonic_increasing (s : series) : bool :=
  match values_of s with
  | Some v => nondecreasingb v
  | None => false
  end.

(* ================================================================== *)
(** ** The columnar engine *)

(** The [kind] argument of [sort_values]; the API's default is
    [quicksort], and only [mergesort] and [stable] are documented stable. *)
Inductive sort_kind : Type := quicksort | mergesort | heapsort | stable.

Definition default_kind : sort_kind := quicksort.

Definition is_stable_kind (k : sort_kind) : bool :=
  match k with
  | mergesort | stable => true
  | quicksort | heapsort => false
  end.

Record Engine : Type := mkEngine {
  (** [cudf.to_datetime(col)]: [None] when the conversion raises. *)
  to_datetime : list cell -> option series;
  (** [df.sort_values(by=c, ascending=True, kind=k)] on the rows, [c] being
      the column at the given position; nulls go last. *)
  sort_values : sort_kind -> nat -> list Row -> list Row
}.

(** Ascending order of keys with [na_position='last']. *)
Definition key_le (a b : option Z) : Prop :=
  match a, b with
  | Some x, Some y => (x <= y)%Z
  | _, None => True
  | None, Some _ => False
  end.

Definition same_key (i : nat) (t : option Z) (r : Row) : bool :=
  ts_eqb (key i r) t.

(** What the API promises about the engine. *)
Class Lawful (E : Engine) : Prop := {
  sort_permutes : forall k i rs, Permutation (sort_values E k i rs) rs;
  sort_ascending : forall k i rs,
      Sorted (fun r1 r2 => key_le (key i r1) (key i r2)) (sort_values E k i rs);
  sort_stable_kinds : forall k i rs t,
      is_stable_kind k = true ->
      filter (same_key i t) (sort_values E k i rs) = filter (same_key i t) rs;
  to_datetime_temporal : forall s, to_datetime E (map cell_of_ts s) = Some s
}.

(* ================================================================== *)
(** ** Errors, files and the run monad *)

(** The text of the exceptions the scripts raise, with the values
    interpolated into it. *)
Inductive message : Type :=
| InputNotFound (path : string)
| ColumnNotFound (col : string)
| ConversionFailed (col : string)
| NullsAfterConversion (nulls : nat) (col : string)
| NotMonotonicAfterSort
| P15OutputNotFound (candidates : list string)
| DateTimeAbsent
| NotIncreasingAfterSort
| ParquetNotFound (path : string)
| EngineFailure (what : string).

Inductive exn : Type :=
| FileNotFoundError (m : message)
| KeyError (m : message)
| RuntimeError (m : message)
| ValueError (m : message)
| OtherError (m : message).

Inductive result (A : Type) : Type :=
| Ok (a : A)
| Raise (e : exn).

Arguments Ok {A} a.
Arguments Raise {A} e.

(** [file_info(path)] of P1.1b. *)
Record FileInfo : Type := mkInfo {
  info_path : string;
  info_exists : bool;
  size_bytes : nat;
  mtime_iso : string;
  sha256 : string
}.

(** The summary text of P1.1b, field by field in the order of its lines. *)
Record Summary : Type := mkSummary {
  sum_timestamp : string;
  sum_csv : FileInfo;
  sum_parquet : FileInfo;
  sum_shape_csv : nat * nat;
  sum_shape_parquet : nat * nat;
  sum_same_shape : bool;
  sum_same_cols : bool;
  sum_columns : list string;
  sum_head : string;
  sum_tail : string;
  sum_schema_file : string
}.

(** The lines item xiv appends to its log. *)
Inductive log_line : Type :=
| LogStart (run_id : string)
| LogPaths (parquet csv outdir : string)
| LogLoaded (n_rows n_cols : nat)
| LogProfile (n_rows n_cols : nat)
| LogGenerated (path : string)
| LogNoNumericDescribe
| LogNoNumericQuantiles
| LogNoNumericRanges
| LogNoNumericFigures
| LogPlotFailed (what : string)
| LogFigures (names : list string)
| LogMetadata (path : string).

(** [env_info["outputs"]] of item xiv. *)
Record Outputs : Type := mkOutputs {
  schema_csv : string;
  duplicatas_json : string;
  describe_csv : option string;
  quantis_csv : option string;
  ranges_csv : option string;
  figuras : list string;
  log_file_path : string
}.

Record Metadata : Type := mkMetadata {
  meta_run_id : string;
  meta_parquet_sha256 : option string;
  meta_csv_sha256 : option string;
  meta_n_linhas : nat;
  meta_n_colunas : nat;
  meta_outputs : Outputs
}.

(** What a file holds. *)
Inductive artifact : Type :=
| Parquet (df : DataFrame)
| Csv (df : DataFrame)
| SummaryText (s : Summary)
| DupJson (linhas_duplicadas : nat)
| LogText (lines : list log_line)
| MetaJson (m : Metadata)
| Png (title : string).

(** Calls that matter for the order of a run. *)
Inductive event : Type :=
| EvToDatetime (col : string)
| EvSortValues (by_col : string) (k : sort_kind)
| EvWrite (path : string).

(** The file system, newest write first, and the calls made so far,
    oldest first. *)
Record world : Type := mkWorld {
  files : list (string * artifact);
  trace : list event
}.

Fixpoint lookup (p : string) (fs : list (string * artifact)) : option artifact :=
  match fs with
  | [] => None
  | (p', a) :: fs' => if String.eqb p p' then Some a else lookup p fs'
  end.

Definition M (A : Type) : Type := world -> result A * world.

Definition ret {A : Type} (a : A) : M A := fun w => (Ok a, w).

Definition raise {A : Type} (e : exn) : M A := fun w => (Raise e, w).

Definition bind {A B : Type} (c : M A) (k : A -> M B) : M B :=
  fun w =>
    match c w with
    | (Ok a, w') => k a w'
    | (Raise e, w') => (Raise e, w')
    end.

Declare Scope run_scope.
Delimit Scope run_scope with run.
Notation "x <- c ;; k" := (bind c (fun x => k))
  (at level 61, c at next level, right associativity) : run_scope.
Notation "c ;; k" := (bind c (fun _ => k))
  (at level 61, right associativity) : run_scope.
Open Scope run_scope.

Definition emit (e : event) : M unit :=
  fun w => (Ok tt, mkWorld (files w) (trace w ++ [e])).

(** [os.path.exists(p)] / [Path.exists()] *)
Definition path_exists (p : string) : M bool :=
  fun w => (Ok (match lookup p (files w) with Some _ => true | None => false end), w).

(** [read_parquet(p)]; anything that is not a Parquet file fails in the
    reader. *)
Definition read_parquet (p : string) : M DataFrame :=
  fun w =>
    match lookup p (files w) with
    | Some (Parquet df) => (Ok df, w)
    | _ => (Raise (OtherError (EngineFailure "read_parquet")), w)
    end.

(** [pd.read_csv(p)] *)
Definition read_csv (p : string) : M DataFrame :=
  fun w =>
    match lookup p (files w) with
    | Some (Csv df) => (Ok df, w)
    | _ => (Raise (OtherError (EngineFailure "read_csv")), w)
    end.

(** Any of [to_parquet], [to_csv], [write_text], [savefig]. *)
Definition write_file (p : string) (a : artifact) : M unit :=
  fun w => (Ok tt, mkWorld ((p, a) :: files w) (trace w ++ [EvWrite p])).

(** The paths a run wrote, in order. *)
Fixpoint written (t : list event) : list string :=
  match t with
  | [] => []
  | EvWrite p :: t' => p :: written t'
  | _ :: t' => written t'
  end.

(* ================================================================== *)
(** ** P1.5: temporal ordering *)

Module P15.

(** [parse_args()] *)
Record Args : Type := mkArgs {
  input : string;
  output : string;
  date_col : string
}.

(** The evidence the run prints, before and after the sort; the prints
    themselves and the creation of the output directory are left out. *)
Record Evidence : Type := mkEvidence {
  dt_min : option Z;
  dt_max : option Z;
  dup_count : nat;
  dt_min2 : option Z;
  dt_max2 : option Z;
  dup_count2 : nat
}.

(** Lines 56-62: the conversion and the assignment are inside the [try];
    [None] when either raises. *)
Definition converted (E : Engine) (i : nat) (df : DataFrame)
  : option DataFrame :=
  match to_datetime E (column_at i (rows df)) with
  | None => None
  | Some s =>
      match assign_column i (map cell_of_ts s) (rows df) with
      | None => None
      | Some rs =>
          Some (mkDF (columns df) (set_nth i "datetime64[ns]" (dtypes df)) rs)
      end
  end.

Definition convert (E : Engine) (col : string) (i : nat) (df : DataFrame)
  : M DataFrame :=
  emit (EvToDatetime col) ;;
  match converted E i df with
  | None => raise (RuntimeError (ConversionFailed col))
  | Some df' => ret df'
  end.

(** Line 80: [df.sort_values(by=args.date_col, ascending=True)]. *)
Definition sorted (E : Engine) (i : nat) (df : DataFrame) : DataFrame :=
  mkDF (columns df) (dtypes df) (sort_values E default_kind i (rows df)).

Definition sort_by (E : Engine) (col : string) (i : nat) (df : DataFrame)
  : M DataFrame :=
  emit (EvSortValues col default_kind) ;;
  ret (sorted E i df).

Definition main (E : Engine) (args : Args) : M Evidence :=
  present <- path_exists (input args) ;;
  if negb present then raise (FileNotFoundError (InputNotFound (input args)))
  else
  df <- read_parquet (input args) ;;
  match index_of (date_col args) (columns df) with
  | None => raise (KeyError (ColumnNotFound (date_col args)))
  | Some i =>
      df <- convert E (date_col args) i df ;;
      let nulls := sum_bool (isna (date_series i (rows df))) in
      if 0 <? nulls
      then raise (ValueError (NullsAfterConversion nulls (date_col args)))
      else
      let dt_min := series_min (date_series i (rows df)) in
      let dt_max := series_max (date_series i (rows df)) in
      let dup_count := sum_bool (duplicated (date_series i (rows df))) in
      df_sorted <- sort_by E (date_col args) i df ;;
      let s := date_series i (rows df_sorted) in
      let is_mono := adjacent_check s in
      if negb is_mono then raise (RuntimeError NotMonotonicAfterSort)
      else
      let dt_min2 := series_min s in
      let dt_max2 := series_max s in
      let dup_count2 := sum_bool (duplicated s) in
      write_file (output args) (Parquet df_sorted) ;;
      ret (mkEvidence dt_min dt_max dup_count dt_min2 dt_max2 dup_count2)
  end.

(** The [__main__] guard: any exception becomes exit status 1. *)
Definition script (E : Engine) (args : Args) (w : world) : nat * world :=
  match main E args w with
  | (Ok _, w') => (0, w')
  | (Raise _, w') => (1, w')
  end.

End P15.

(* ================================================================== *)
(** ** Paths and the clock *)

(** [a / b] of [pathlib], for a relative [b]. *)
Definition joinpath (a b : string) : string := (a ++ "/" ++ b)%string.

Notation "a // b" := (joinpath a b) (at level 40, left associativity).

(** A reading of [datetime.now()]. *)
Record datetime : Type := mkDatetime {
  year : nat;
  month : nat;
  day : nat;
  hour : nat;
  minute : nat;
  second : nat;
  microsecond : nat
}.

Definition digit (n : nat) : ascii := ascii_of_nat (48 + n mod 10).

(** Decimal rendering, zero-padded to [width] digits. *)
Fixpoint pad (width n : nat) : string :=
  match width with
  | O => ""
  | S w => (pad w (n / 10) ++ String (digit n) "")%string
  end.

(** [now.strftime("%Y%m%d_%H%M%S")] *)
Definition strftime_run_id (now : datetime) : string :=
  (pad 4 (year now) ++ pad 2 (month now) ++ pad 2 (day now) ++ "_"
   ++ pad 2 (hour now) ++ pad 2 (minute now) ++ pad 2 (second now))%string.

(** What the scripts ask of the host besides the tables. *)
Record Host : Type := mkHost {
  (** [file_info(path)]: size, mtime and SHA-256 of the file *)
  file_info : string -> FileInfo;
  (** [sha256_file(path)] *)
  sha256_file : string -> string;
  (** [df.to_string(index=False)] *)
  to_string : DataFrame -> string;
  (** whether drawing and saving the named figure succeeds *)
  plot_ok : string -> bool
}.

(* ================================================================== *)
(** ** P1.6: persistence of the master dataset *)

Module P16.

Definition BASE_DIR : string := "/mnt/c/PROJETO_2025_TESE".
Definition DATA_DIR : string := BASE_DIR // "data" // "meteorologia".

Definition CANDIDATOS_INPUT : list string :=
  [ DATA_DIR // "dataset_meteorologico_p1_5_ordenado.parquet";
    DATA_DIR // "dataset_meteorologico_p1_5.parquet";
    DATA_DIR // "dataset_meteorologico_ordenado.parquet";
    DATA_DIR // "dataset_p1_5_ordenado.parquet" ].

Definition OUTPUT_PARQUET : string :=
  DATA_DIR // "dataset_mestre_meteorologico.parquet".

(** Lines 24-28: the first candidate that exists. *)
Fixpoint first_existing (ps : list string) : M (option string) :=
  match ps with
  | [] => ret None
  | p :: ps' =>
      present <- path_exists p ;;
      if present then ret (Some p) else first_existing ps'
  end.

(** The module body.  The input is the file P1.5 wrote, so [date_time] is
    read as a temporal series; [reset_index(drop=True)] renumbers the index
    and leaves the rows as they are. *)
Definition script (E : Engine) : M unit :=
  INPUT_PARQUET <- first_existing CANDIDATOS_INPUT ;;
  match INPUT_PARQUET with
  | None => raise (FileNotFoundError (P15OutputNotFound CANDIDATOS_INPUT))
  | Some p =>
      df <- read_parquet p ;;
      match index_of "date_time" (columns df) with
      | None => raise (KeyError DateTimeAbsent)
      | Some i =>
          emit (EvSortValues "date_time" default_kind) ;;
          let df := P15.sorted E i df in
          if negb (is_monotonic_increasing (date_series i (rows df)))
          then raise (ValueError NotIncreasingAfterSort)
          else write_file OUTPUT_PARQUET (Parquet df)
      end
  end.

End P16.

(* ================================================================== *)
(** ** P1.1b: confirmation of the two encodings *)

Module P11b.

Definition ROOT : string := "C:\PROJETO_2025_TESE".
Definition EVIDENCIAS : string := ROOT // "resultados" // "capitulo_5" // "evidencias".
Definition CSV_PATH : string := EVIDENCIAS // "meteo_bruta_PVH_2017_full.csv".
Definition PARQUET_PATH : string := EVIDENCIAS // "meteo_bruta_PVH_2017_full.parquet".
Definition OUT_DIR : string := EVIDENCIAS // "confirmacao_p1_1b".
Definition OUT_TXT : string := OUT_DIR // "confirmacao_resumo.txt".
Definition OUT_SCHEMA : string := OUT_DIR // "confirmacao_schema.csv".

(** [str(df[c].dtype)] *)
Definition dtype_of (c : string) (df : DataFrame) : string :=
  match index_of c (columns df) with
  | Some i => nth i (dtypes df) ""
  | None => ""
  end.

Definition list_eqb (a b : list string) : bool :=
  if list_eq_dec string_dec a b then true else false.

Definition shape_eqb (a b : nat * nat) : bool :=
  Nat.eqb (fst a) (fst b) && Nat.eqb (snd a) (snd b).

(** Lines 87-94. *)
Definition schema_rows (df_csv df_pq : DataFrame) : list Row :=
  map (fun c =>
         [ Str c;
           Str (dtype_of c df_pq);
           Str (if has_column c df_csv then dtype_of c df_csv else "") ])
      (columns df_pq).

(** [pd.DataFrame(schema_rows)] *)
Definition schema_frame (rs : list Row) : DataFrame :=
  match rs with
  | [] => empty_frame
  | _ => mkDF ["coluna"; "dtype_parquet"; "dtype_csv"]
              ["object"; "object"; "object"] rs
  end.

Definition head (n : nat) (df : DataFrame) : DataFrame :=
  mkDF (columns df) (dtypes df) (firstn n (rows df)).

Definition tail (n : nat) (df : DataFrame) : DataFrame :=
  mkDF (columns df) (dtypes df) (skipn (List.length (rows df) - n) (rows df)).

(** [main()]; the value is the exit status.  [ts] is
    [datetime.now().isoformat(timespec="seconds")]. *)
Definition main (H : Host) (ts : string) : M nat :=
  csv_present <- path_exists CSV_PATH ;;
  if negb csv_present then ret 2 else
  pq_present <- path_exists PARQUET_PATH ;;
  if negb pq_present then ret 2 else
  let csv_info := file_info H CSV_PATH in
  let pq_info := file_info H PARQUET_PATH in
  df_csv <- read_csv CSV_PATH ;;
  df_pq <- read_parquet PARQUET_PATH ;;
  let same_shape := shape_eqb (shape df_csv) (shape df_pq) in
  let same_cols := list_eqb (columns df_csv) (columns df_pq) in
  let schema_df := schema_frame (schema_rows df_csv df_pq) in
  write_file OUT_SCHEMA (Csv schema_df) ;;
  write_file OUT_TXT
    (SummaryText
       (mkSummary ts csv_info pq_info (shape df_csv) (shape df_pq)
                  same_shape same_cols (columns df_pq)
                  (to_string H (head 5 df_pq)) (to_string H (tail 5 df_pq))
                  OUT_SCHEMA)) ;;
  ret 0.

End P11b.

(* ================================================================== *)
(** ** Item xiv: structural and statistical validation *)

(** A frame together with its index labels, as [describe] and [quantile]
    return it. *)
Record Indexed : Type := mkIndexed {
  index : list cell;
  frame : DataFrame
}.

(** The statistical primitives of the engine; [None] when the call raises. *)
Record Stats : Type := mkStats {
  (** [df.describe()] *)
  describe : DataFrame -> option Indexed;
  (** [df.quantile(qs, interpolation="linear")] *)
  quantile : list Q -> DataFrame -> option Indexed;
  (** [float(s.quantile(q))]: [Some None] is NaN *)
  series_quantile : Q -> list (option Q) -> option (option Q);
  (** [str(x)] of an index label *)
  render : cell -> string
}.

Module XIV.

(** [t in s] for strings. *)
Fixpoint contains (t s : string) : bool :=
  if String.prefix t s then true
  else match s with
       | EmptyString => false
       | String _ s' => contains t s'
       end.

(** Lines 89-91; [s] is [str(dtype)]. *)
Definition is_numeric_dtype (s : string) : bool :=
  existsb (fun t => contains t s) ["int"; "float"; "uint"; "decimal"].

Definition dtype_of (c : string) (df : DataFrame) : string :=
  match index_of c (columns df) with
  | Some i => nth i (dtypes df) ""
  | None => ""
  end.

(** [[c for c in df.columns if is_numeric_dtype(df[c].dtype)]] *)
Definition num_cols (df : DataFrame) : list string :=
  filter (fun c => is_numeric_dtype (dtype_of c df)) (columns df).

Definition column_of (c : string) (df : DataFrame) : list cell :=
  match index_of c (columns df) with
  | Some i => column_at i (rows df)
  | None => []
  end.

(** [df[cols]] *)
Definition select (cols : list string) (df : DataFrame) : DataFrame :=
  mkDF cols
       (map (fun c => dtype_of c df) cols)
       (map (fun r => map (fun c => match index_of c (columns df) with
                                    | Some i => nth i r Null
                                    | None => Null
                                    end) cols)
            (rows df)).

(** [x.reset_index().rename(columns={"index": name})] *)
Definition reset_index (name dtype : string) (x : Indexed) : DataFrame :=
  mkDF (name :: columns (frame x))
       (dtype :: dtypes (frame x))
       (map (fun p => fst p :: snd p) (combine (index x) (rows (frame x)))).

Definition cell_isna (c : cell) : bool :=
  match c with
  | Null => true
  | _ => false
  end.

(** Lines 94-101. *)
Definition schema_table (df : DataFrame) : DataFrame :=
  mkDF ["coluna"; "dtype"; "nulos"]
       ["object"; "object"; "int64"]
       (map (fun c =>
               [ Str c;
                 Str (dtype_of c df);
                 Int (Z.of_nat (List.length (filter cell_isna (column_of c df)))) ])
            (columns df)).

Definition cell_eqb (a b : cell) : bool :=
  match a, b with
  | Null, Null => true
  | Flag x, Flag y => Bool.eqb x y
  | Int x, Int y => Z.eqb x y
  | Num x, Num y => Qeq_bool x y
  | Str x, Str y => String.eqb x y
  | Datetime x, Datetime y => Z.eqb x y
  | _, _ => false
  end.

Fixpoint row_eqb (a b : Row) : bool :=
  match a, b with
  | [], [] => true
  | x :: a', y :: b' => cell_eqb x y && row_eqb a' b'
  | _, _ => false
  end.

(** [df.duplicated()] over whole rows, [keep='first']. *)
Fixpoint duplicated_rows (seen : list Row) (rs : list Row) : list bool :=
  match rs with
  | [] => []
  | r :: rs' =>
      if existsb (row_eqb r) seen then true :: duplicated_rows seen rs'
      else false :: duplicated_rows (r :: seen) rs'
  end.

(** Lines 112-116, without the elapsed time. *)
Definition duplicates_info (df : DataFrame) : nat :=
  sum_bool (duplicated_rows [] (rows df)).

(** Lines 119-124. *)
Definition numeric_describe (S : Stats) (df : DataFrame) : result DataFrame :=
  let num_cols := num_cols df in
  match num_cols with
  | [] => Ok empty_frame
  | _ =>
      match describe S (select num_cols df) with
      | None => Raise (OtherError (EngineFailure "describe"))
      | Some desc => Ok (reset_index "estatistica" "object" desc)
      end
  end.

Definition default_qs : list Q := [1 # 100; 5 # 100; 95 # 100; 99 # 100]%Q.

(** Lines 127-134. *)
Definition numeric_quantiles (S : Stats) (df : DataFrame) (qs : list Q)
  : result DataFrame :=
  let num_cols := num_cols df in
  match num_cols with
  | [] => Ok empty_frame
  | _ =>
      match quantile S qs (select num_cols df) with
      | None => Raise (OtherError (EngineFailure "quantile"))
      | Some qdf =>
          Ok (reset_index "quantil" "object"
                (mkIndexed (map (fun c => Str (render S c)) (index qdf))
                           (frame qdf)))
      end
  end.

(** The number a cell of a numeric column denotes. *)
Definition num_of_cell (c : cell) : option Q :=
  match c with
  | Int z => Some (inject_Z z)
  | Num q => Some q
  | _ => None
  end.

Definition Qltb (a b : Q) : bool := negb (Qle_bool b a).

Definition pickQ (choose : Q -> Q -> Q) (acc t : option Q) : option Q :=
  match acc, t with
  | Some a, Some b => Some (choose a b)
  | None, _ => t
  | _, None => acc
  end.

Definition Qlower (a b : Q) : Q := if Qle_bool a b then a else b.
Definition Qupper (a b : Q) : Q := if Qle_bool a b then b else a.

(** [df[c].min()] and [df[c].max()], nulls skipped. *)
Definition col_min (c : string) (df : DataFrame) : option Q :=
  fold_left (pickQ Qlower) (map num_of_cell (column_of c df)) None.

Definition col_max (c : string) (df : DataFrame) : option Q :=
  fold_left (pickQ Qupper) (map num_of_cell (column_of c df)) None.

(** One row of the range-flags table. *)
Record RangeRow : Type := mkRangeRow {
  coluna : string;
  min : option Q;
  max : option Q;
  range : option Q;
  flag_invertido : option bool;
  flag_range_muito_alto : option bool
}.

(** Line 144: [out["max"] - out["min"]] *)
Definition sub_opt (a b : option Q) : option Q :=
  match a, b with
  | Some x, Some y => Some (x - y)%Q
  | _, _ => None
  end.

(** Line 145: [out["max"] < out["min"]] *)
Definition lt_opt (a b : option Q) : option bool :=
  match a, b with
  | Some x, Some y => Some (Qltb x y)
  | _, _ => None
  end.

(** Lines 146-150: the threshold, then the comparison; any exception in
    the [try] gives [False] on every row. *)
Definition high_flag (thr : option (option Q)) (r : option Q) : option bool :=
  match thr with
  | None => Some false
  | Some None => option_map (fun _ => false) r
  | Some (Some t) => lt_opt (Some t) r
  end.

Definition range_rows (S : Stats) (df : DataFrame) : list RangeRow :=
  let num_cols := num_cols df in
  let base := map (fun c => (c, col_min c df, col_max c df)) num_cols in
  let ranges := map (fun x => sub_opt (snd x) (snd (fst x))) base in
  let thr := series_quantile S (95 # 100)%Q ranges in
  map (fun x =>
         let mn := snd (fst x) in
         let mx := snd x in
         mkRangeRow (fst (fst x)) mn mx (sub_opt mx mn) (lt_opt mx mn)
                    (high_flag thr (sub_opt mx mn)))
      base.

Definition cell_of_num (q : option Q) : cell :=
  match q with
  | Some x => Num x
  | None => Null
  end.

Definition cell_of_flag (b : option bool) : cell :=
  match b with
  | Some x => Flag x
  | None => Null
  end.

Definition row_of (r : RangeRow) : Row :=
  [ Str (coluna r); cell_of_num (min r); cell_of_num (max r);
    cell_of_num (range r); cell_of_flag (flag_invertido r);
    cell_of_flag (flag_range_muito_alto r) ].

(** Lines 137-151. *)
Definition range_flags (S : Stats) (df : DataFrame) : DataFrame :=
  match num_cols df with
  | [] => empty_frame
  | _ =>
      mkDF ["coluna"; "min"; "max"; "range"; "flag_invertido";
            "flag_range_muito_alto"]
           ["object"; "float64"; "float64"; "float64"; "bool"; "bool"]
           (map row_of (range_rows S df))
  end.

(** The histogram loop of [save_figures], lines 165-178. *)
Fixpoint histograms (H : Host) (out_fig : string) (cols : list string)
  : M (list string * list log_line) :=
  match cols with
  | [] => ret ([], [])
  | c :: cols' =>
      let name := ("hist_" ++ c ++ ".png")%string in
      if plot_ok H name
      then
        write_file (out_fig // name) (Png c) ;;
        rest <- histograms H out_fig cols' ;;
        ret (name :: fst rest, snd rest)
      else
        rest <- histograms H out_fig cols' ;;
        ret (fst rest, LogPlotFailed c :: snd rest)
  end.

(** Lines 154-194; the value is the saved names and the lines added to
    the caller's log.  Sampling the frame for the plots is left out; whether
    a plot succeeds is asked of the host. *)
Definition save_figures (H : Host) (df : DataFrame) (out_fig : string)
  : M (list string * list log_line) :=
  match num_cols df with
  | [] => ret ([], [LogNoNumericFigures])
  | num_cols =>
      hs <- histograms H out_fig (firstn 4 num_cols) ;;
      let name := "boxplot_primeiras_colunas.png" in
      if plot_ok H name
      then
        write_file (out_fig // name) (Png "boxplot") ;;
        ret (fst hs ++ [name], snd hs)
      else ret (fst hs, snd hs ++ [LogPlotFailed "boxplot"])
  end.

(** The three paths of [configs/cap5_paths.env]. *)
Record Config : Type := mkConfig {
  parquet_path : string;
  csv_path : string;
  outdir : string
}.

Definition lift {A : Type} (r : result A) : M A := fun w => (r, w).

(** Writes a table when it has rows; the value is the path written and
    the log line. *)
Definition write_if_rows (t : DataFrame) (p : string) (absent : log_line)
  : M (option string * log_line) :=
  if 0 <? len t
  then write_file p (Csv t) ;; ret (Some p, LogGenerated p)
  else ret (None, absent).

(** [main()], lines 197-326; [now] is the reading of [datetime.now()] at
    line 214 and [cfg] what [read_env_file] gave.  The value is the exit
    status.  The creation of the directories, the environment probes of
    [env_info] and the memory estimate of [basic_profile] are left out. *)
Definition main (S : Stats) (H : Host) (cfg : Config) (now : datetime) : M nat :=
  let out_logs := outdir cfg // "logs" in
  let out_tabs := outdir cfg // "tabelas" in
  let out_figs := outdir cfg // "figuras" in
  let out_meta := outdir cfg // "metadata" in
  let run_id := strftime_run_id now in
  let log_file := out_logs // ("run_" ++ run_id ++ ".log")%string in
  let meta_file := out_meta // ("run_" ++ run_id ++ ".json")%string in
  let log0 := [LogStart run_id;
               LogPaths (parquet_path cfg) (csv_path cfg) (outdir cfg)] in
  pq_present <- path_exists (parquet_path cfg) ;;
  csv_present <- path_exists (csv_path cfg) ;;
  let parquet_sha := if pq_present then Some (sha256_file H (parquet_path cfg))
                     else None in
  let csv_sha := if csv_present then Some (sha256_file H (csv_path cfg))
                 else None in
  if negb pq_present
  then raise (FileNotFoundError (ParquetNotFound (parquet_path cfg)))
  else
  df <- read_parquet (parquet_path cfg) ;;
  let log1 := log0 ++ [LogLoaded (len df) (snd (shape df));
                       LogProfile (len df) (snd (shape df))] in
  let sch_out := out_tabs // ("schema_nulos_" ++ run_id ++ ".csv")%string in
  write_file sch_out (Csv (schema_table df)) ;;
  let dup_out := out_tabs // ("duplicatas_" ++ run_id ++ ".json")%string in
  write_file dup_out (DupJson (duplicates_info df)) ;;
  desc <- lift (numeric_describe S df) ;;
  d <- write_if_rows desc
         (out_tabs // ("describe_numerico_" ++ run_id ++ ".csv")%string)
         LogNoNumericDescribe ;;
  qdf <- lift (numeric_quantiles S df default_qs) ;;
  q <- write_if_rows qdf
         (out_tabs // ("quantis_numericos_" ++ run_id ++ ".csv")%string)
         LogNoNumericQuantiles ;;
  r <- write_if_rows (range_flags S df)
         (out_tabs // ("ranges_flags_" ++ run_id ++ ".csv")%string)
         LogNoNumericRanges ;;
  figs <- save_figures H df out_figs ;;
  let log2 := log1 ++ [LogGenerated sch_out; LogGenerated dup_out;
                       snd d; snd q; snd r]
                   ++ snd figs ++ [LogFigures (fst figs)] in
  write_file meta_file
    (MetaJson (mkMetadata run_id parquet_sha csv_sha (len df) (snd (shape df))
                 (mkOutputs sch_out dup_out (fst d) (fst q) (fst r)
                            (fst figs) log_file))) ;;
  write_file log_file (LogText (log2 ++ [LogMetadata meta_file])) ;;
  ret 0.

End XIV.

(* ================================================================== *)
(** ** Engines to run the scripts on *)

Definition key_leb (a b : option Z) : bool :=
  match a, b with
  | Some x, Some y => Z.leb x y
  | _, None => true
  | None, Some _ => false
  end.

Fixpoint insert_row (i : nat) (r : Row) (rs : list Row) : list Row :=
  match rs with
  | [] => [r]
  | r' :: rs' =>
      if key_leb (key i r) (key i r') then r :: rs
      else r' :: insert_row i r rs'
  end.

(** Insertion sort; a row goes before the rows already placed that have an
    equal key, so equal keys keep their order. *)
Fixpoint stable_sort (i : nat) (rs : list Row) : list Row :=
  match rs with
  | [] => []
  | r :: rs' => insert_row i r (stable_sort i rs')
  end.

Definition parse_cell (c : cell) : option (option Z) :=
  match c with
  | Datetime ns => Some (Some ns)
  | Int ns => Some (Some ns)
  | Null => Some None
  | _ => None
  end.

Fixpoint parse_column (col : list cell) : option series :=
  match col with
  | [] => Some []
  | c :: col' =>
      match parse_cell c, parse_column col' with
      | Some t, Some s => Some (t :: s)
      | _, _ => None
      end
  end.

(** An engine whose sort is stable for every kind. *)
Definition stable_engine : Engine :=
  mkEngine parse_column (fun _ i rs => stable_sort i rs).

(** An engine whose sort is stable only for the kinds documented stable:
    for the others it sorts the rows taken from the last to the first, so
    equal keys come out in reverse. *)
Definition reversing_engine : Engine :=
  mkEngine parse_column
           (fun k i rs => if is_stable_kind k then stable_sort i rs
                          else stable_sort i (rev rs)).

(** An engine whose sort returns the rows as they are. *)
Definition idle_engine : Engine :=
  mkEngine parse_column (fun _ _ rs => rs).

Fixpoint insertQ (x : Q) (l : list Q) : list Q :=
  match l with
  | [] => [x]
  | y :: l' => if Qle_bool x y then x :: l else y :: insertQ x l'
  end.

Definition sortQ (l : list Q) : list Q := fold_right insertQ [] l.

Fixpoint somes {A : Type} (l : list (option A)) : list A :=
  match l with
  | [] => []
  | Some x :: l' => x :: somes l'
  | None :: l' => somes l'
  end.

(** The quantile at [q] by linear interpolation between order statistics,
    nulls skipped; NaN when no value is left. *)
Definition quantile_linear (q : Q) (s : list (option Q)) : option Q :=
  match sortQ (somes s) with
  | [] => None
  | (x0 :: _) as v =>
      let pos := (q * inject_Z (Z.of_nat (List.length v - 1)))%Q in
      let lo := Z.to_nat (Qfloor pos) in
      let frac := (pos - inject_Z (Qfloor pos))%Q in
      let x_lo := nth lo v x0 in
      let x_hi := nth (S lo) v x_lo in
      Some (Qred (x_lo + frac * (x_hi - x_lo)))%Q
  end.

Definition numbers_of (c : string) (df : DataFrame) : list (option Q) :=
  map XIV.num_of_cell (XIV.column_of c df).

(** The statistics that are exact in the rationals: the count, the
    minimum and the maximum of each column. *)
Definition describe_exact (df : DataFrame) : option Indexed :=
  Some (mkIndexed
          [Str "count"; Str "min"; Str "max"]
          (mkDF (columns df) (map (fun _ => "float64") (columns df))
                [ map (fun c => Int (Z.of_nat (List.length (somes (numbers_of c df)))))
                      (columns df);
                  map (fun c => XIV.cell_of_num (XIV.col_min c df)) (columns df);
                  map (fun c => XIV.cell_of_num (XIV.col_max c df)) (columns df) ])).

Definition quantile_exact (qs : list Q) (df : DataFrame) : option Indexed :=
  Some (mkIndexed
          (map Num qs)
          (mkDF (columns df) (map (fun _ => "float64") (columns df))
                (map (fun q =>
                        map (fun c => XIV.cell_of_num
                                        (quantile_linear q (numbers_of c df)))
                            (columns df))
                     qs))).

(** An engine that computes in the rationals. *)
Definition exact_stats : Stats :=
  mkStats describe_exact quantile_exact
          (fun q s => Some (quantile_linear q s))
          (fun _ => "q").

(** An engine in which every statistical call raises. *)
Definition raising_stats : Stats :=
  mkStats (fun _ => None) (fun _ _ => None) (fun _ _ => None) (fun _ => "").

Definition quiet_host : Host :=
  mkHost (fun p => mkInfo p true 0 "" "") (fun _ => "") (fun _ => "")
         (fun _ => true).

(* ================================================================== *)
(** ** Vocabulary of the properties *)

(** Every adjacent pair of known timestamps is in order. *)
Definition adjacent_ordered (s : series) : Prop :=
  forall j a b,
    nth_error s j = Some (Some a) ->
    nth_error s (S j) = Some (Some b) ->
    (a <= b)%Z.


(** No timestamp of the series is null. *)
Definition no_nulls (s : series) : Prop := Forall (fun t => t <> None) s.

(** Rows that share a timestamp are in the same relative order in [out]
    as in [inp]. *)
Definition keeps_ties (i : nat) (inp out : list Row) : Prop :=
  forall t, filter (same_key i t) out = filter (same_key i t) inp.

(** Timestamps strictly increase along the series. *)
Definition key_lt (a b : option Z) : Prop :=
  match a, b with
  | Some x, Some y => (x < y)%Z
  | _, _ => False
  end.

Definition strictly_increasing (s : series) : Prop := Sorted key_lt s.


(** The run of P1.5 wrote no file and made no sort call. *)
Definition untouched (w w' : world) : Prop :=
  files w' = files w /\
  written (trace w') = written (trace w) /\
  forall c k, In (EvSortValues c k) (trace w') -> In (EvSortValues c k) (trace w).

(** The world after the conversion call, after the sort call, and after
    the output is written. *)
Definition after_convert (col : string) (w : world) : world :=
  mkWorld (files w) (trace w ++ [EvToDatetime col]).

Definition after_sort (col : string) (w : world) : world :=
  mkWorld (files w)
          ((trace w ++ [EvToDatetime col]) ++ [EvSortValues col default_kind]).

Definition after_write (col out_path : string) (out : DataFrame) (w : world) : world :=
  mkWorld ((out_path, Parquet out) :: files w)
          (((trace w ++ [EvToDatetime col]) ++ [EvSortValues col default_kind])
             ++ [EvWrite out_path]).

Definition evidence_of (i : nat) (df out : DataFrame) : P15.Evidence :=
  P15.mkEvidence
    (series_min (date_series i (rows df)))
    (series_max (date_series i (rows df)))
    (sum_bool (duplicated (date_series i (rows df))))
    (series_min (date_series i (rows out)))
    (series_max (date_series i (rows out)))
    (sum_bool (duplicated (date_series i (rows out)))).

(** [Path.exists()] in the world [w]. *)
Definition present (w : world) (p : string) : bool :=
  match lookup p (files w) with
  | Some _ => true
  | None => false
  end.

(* ================================================================== *)
(** ** Sample inputs *)

(** Four rows timestamped 3, 1, 2, 1, the timestamps still integers. *)
Definition sample_frame : DataFrame :=
  mkDF ["date_time"; "station"] ["int64"; "object"]
       [ [Int 3; Str "a"]; [Int 1; Str "b"]; [Int 2; Str "c"]; [Int 1; Str "d"] ].

Definition sample_args : P15.Args :=
  P15.mkArgs "in.parquet" "out.parquet" "date_time".

Definition sample_world : world :=
  mkWorld [("in.parquet", Parquet sample_frame)] [].

(** The same rows with a missing timestamp in the third. *)
Definition null_frame : DataFrame :=
  mkDF ["date_time"; "station"] ["int64"; "object"]
       [ [Int 3; Str "a"]; [Int 1; Str "b"]; [Null; Str "c"]; [Int 1; Str "d"] ].

Definition null_world : world :=
  mkWorld [("in.parquet", Parquet null_frame)] [].





(** The number of rows whose timestamp is null. *)
Definition null_rows (i : nat) (rs : list Row) : nat :=
  List.length (filter (fun r => match key i r with None => true | Some _ => false end) rs).

(** Two encodings with the same shape, one column renamed. *)
Definition csv_frame : DataFrame :=
  mkDF ["date_time"; "temp"] ["object"; "float64"]
       [ [Str "2017-01-01"; Num (251 # 10)]; [Str "2017-01-02"; Num (248 # 10)] ].

Definition pq_frame : DataFrame :=
  mkDF ["date_time"; "temperature"] ["datetime64[ns]"; "float64"]
       [ [Datetime 1; Num (251 # 10)]; [Datetime 2; Num (248 # 10)] ].

Definition encodings_world : world :=
  mkWorld [ (P11b.CSV_PATH, Csv csv_frame); (P11b.PARQUET_PATH, Parquet pq_frame) ] [].

(** The world P1.1b leaves when both inputs load. *)
Definition confirmed (H : Host) (ts : string) (df_csv df_pq : DataFrame)
           (w : world) : Summary * world :=
  let s := mkSummary ts (file_info H P11b.CSV_PATH) (file_info H P11b.PARQUET_PATH)
                     (shape df_csv) (shape df_pq)
                     (P11b.shape_eqb (shape df_csv) (shape df_pq))
                     (P11b.list_eqb (columns df_csv) (columns df_pq))
                     (columns df_pq)
                     (to_string H (P11b.head 5 df_pq))
                     (to_string H (P11b.tail 5 df_pq))
                     P11b.OUT_SCHEMA in
  (s,
   mkWorld ((P11b.OUT_TXT, SummaryText s)
              :: (P11b.OUT_SCHEMA,
                  Csv (P11b.schema_frame (P11b.schema_rows df_csv df_pq)))
              :: files w)
           ((trace w ++ [EvWrite P11b.OUT_SCHEMA]) ++ [EvWrite P11b.OUT_TXT])).

(** Three numeric columns and a text column. *)
Definition stations_frame : DataFrame :=
  mkDF ["temp"; "rain"; "station"; "wind"]
       ["float64"; "float64"; "object"; "int64"]
       [ [Num (1 # 2); Num 0; Str "a"; Int 3];
         [Num (5 # 2); Num 40; Str "b"; Int 1];
         [Null; Num 12; Str "c"; Int 2] ].

(** A table without numeric columns. *)
Definition labels_frame : DataFrame :=
  mkDF ["station"; "date_time"] ["object"; "datetime64[ns]"]
       [ [Str "a"; Datetime 1]; [Str "b"; Datetime 2] ].

(* ================================================================== *)
(** ** The paths item xiv writes *)

Definition log_path (outdir run_id : string) : string :=
  outdir // "logs" // ("run_" ++ run_id ++ ".log")%string.

Definition meta_path (outdir run_id : string) : string :=
  outdir // "metadata" // ("run_" ++ run_id ++ ".json")%string.

Definition schema_path (outdir run_id : string) : string :=
  outdir // "tabelas" // ("schema_nulos_" ++ run_id ++ ".csv")%string.

Definition dup_path (outdir run_id : string) : string :=
  outdir // "tabelas" // ("duplicatas_" ++ run_id ++ ".json")%string.

Definition describe_path (outdir run_id : string) : string :=
  outdir // "tabelas" // ("describe_numerico_" ++ run_id ++ ".csv")%string.

Definition quantis_path (outdir run_id : string) : string :=
  outdir // "tabelas" // ("quantis_numericos_" ++ run_id ++ ".csv")%string.

Definition ranges_path (outdir run_id : string) : string :=
  outdir // "tabelas" // ("ranges_flags_" ++ run_id ++ ".csv")%string.

Definition figure_path (outdir name : string) : string :=
  outdir // "figuras" // name.

(** The paths whose name carries the run identifier. *)
Definition keyed_paths (outdir run_id : string) : list string :=
  [ log_path outdir run_id; meta_path outdir run_id;
    schema_path outdir run_id; dup_path outdir run_id;
    describe_path outdir run_id; quantis_path outdir run_id;
    ranges_path outdir run_id ].

Definition if_rows (t : DataFrame) (p : string) : list string :=
  if 0 <? len t then [p] else [].

Definition hist_names (H : Host) (cols : list string) : list string :=
  filter (plot_ok H) (map (fun c => ("hist_" ++ c ++ ".png")%string) cols).

(** The names [save_figures] returns. *)
Definition figure_names (H : Host) (df : DataFrame) : list string :=
  match XIV.num_cols df with
  | [] => []
  | cols =>
      hist_names H (firstn 4 cols)
      ++ (if plot_ok H "boxplot_primeiras_colunas.png"
          then ["boxplot_primeiras_colunas.png"] else [])
  end.

(** The paths a run of item xiv writes, in order. *)
Definition run_paths (S : Stats) (H : Host) (outdir run_id : string)
           (df desc qdf : DataFrame) : list string :=
  [ schema_path outdir run_id; dup_path outdir run_id ]
  ++ if_rows desc (describe_path outdir run_id)
  ++ if_rows qdf (quantis_path outdir run_id)
  ++ if_rows (XIV.range_flags S df) (ranges_path outdir run_id)
  ++ map (figure_path outdir) (figure_names H df)
  ++ [ meta_path outdir run_id; log_path outdir run_id ].

Definition absent_or (t : DataFrame) (p : string) (absent : log_line) : log_line :=
  if 0 <? len t then LogGenerated p else absent.

(** The log of a run of item xiv; [flog] are the lines of [save_figures]. *)
Definition run_log (S : Stats) (H : Host) (cfg : XIV.Config) (run_id : string)
           (df desc qdf : DataFrame) (flog : list log_line) : list log_line :=
  ((([ LogStart run_id;
       LogPaths (XIV.parquet_path cfg) (XIV.csv_path cfg) (XIV.outdir cfg) ]
     ++ [ LogLoaded (len df) (snd (shape df));
          LogProfile (len df) (snd (shape df)) ])
    ++ [ LogGenerated (schema_path (XIV.outdir cfg) run_id);
         LogGenerated (dup_path (XIV.outdir cfg) run_id);
         absent_or desc (describe_path (XIV.outdir cfg) run_id) LogNoNumericDescribe;
         absent_or qdf (quantis_path (XIV.outdir cfg) run_id) LogNoNumericQuantiles;
         absent_or (XIV.range_flags S df) (ranges_path (XIV.outdir cfg) run_id)
                   LogNoNumericRanges ]
    ++ flog ++ [ LogFigures (figure_names H df) ])
   ++ [ LogMetadata (meta_path (XIV.outdir cfg) run_id) ]).

(** [t] occurs in [s]. *)
Definition substring_of (t s : string) : Prop :=
  exists pre post, s = (pre ++ t ++ post)%string.

Definition labels_config : XIV.Config :=
  XIV.mkConfig "meteo.parquet" "meteo.csv" "xiv".

Definition labels_world : world :=
  mkWorld [("meteo.parquet", Parquet labels_frame)] [].

Definition stations_world : world :=
  mkWorld [("meteo.parquet", Parquet stations_frame)] [].

(** The minimum and the maximum are both absent or in order. *)
Definition bounds_ordered (a b : option Q) : Prop :=
  match a, b with
  | Some x, Some y => (x <= y)%Q
  | None, None => True
  | _, _ => False
  end.

(** Two clock readings in the same second. *)
Definition same_second (a b : datetime) : Prop :=
  year a = year b /\ month a = month b /\ day a = day b /\
  hour a = hour b /\ minute a = minute b /\ second a = second b.

(** The fields of a reading are in the range of the calendar. *)
Definition calendar (a : datetime) : Prop :=
  year a < 100 * 100 /\ month a < 100 /\ day a < 100 /\
  hour a < 100 /\ minute a < 100 /\ second a < 100.

(** A table with the timestamp column and no row. *)
Definition empty_table : DataFrame :=
  mkDF ["date_time"; "station"] ["datetime64[ns]"; "object"] [].

Definition empty_world : world :=
  mkWorld [("in.parquet", Parquet empty_table)] [].

Definition ts_dec (a b : option Z) : {a = b} + {a <> b}.
Proof. decide equality. apply Z.eq_dec. Defined.

(** The number of distinct timestamps of a series. *)
Definition distinct (s : series) : nat := List.length (nodup ts_dec s).

(** The arguments with which P1.5 writes the first file P1.6 looks for. *)
Definition chained_args : P15.Args :=
  P15.mkArgs "in.parquet"
             (P16.DATA_DIR // "dataset_meteorologico_p1_5_ordenado.parquet")
             "date_time".


Definition opt_rows (t : DataFrame) (p : string) : option string :=
  if 0 <? len t then Some p else None.

(** What the metadata of a run of item xiv says was written. *)
Definition listed (outdir : string) (m : Metadata) : list string :=
  [ schema_csv (meta_outputs m); duplicatas_json (meta_outputs m) ]
  ++ match describe_csv (meta_outputs m) with Some p => [p] | None => [] end
  ++ match quantis_csv (meta_outputs m) with Some p => [p] | None => [] end
  ++ match ranges_csv (meta_outputs m) with Some p => [p] | None => [] end
  ++ map (figure_path outdir) (figuras (meta_outputs m))
  ++ [ meta_path outdir (meta_run_id m); log_file_path (meta_outputs m) ].

(** A host on which no plot succeeds. *)
Definition plotless_host : Host :=
  mkHost (fun p => mkInfo p true 0 "" "") (fun _ => "") (fun _ => "")
         (fun _ => false).

(** The metadata record of a run of item xiv. *)
Definition run_metadata (S : Stats) (H : Host) (cfg : XIV.Config)
           (run_id : string) (w : world) (df desc qdf : DataFrame) : Metadata :=
  mkMetadata run_id
    (if present w (XIV.parquet_path cfg)
     then Some (sha256_file H (XIV.parquet_path cfg)) else None)
    (if present w (XIV.csv_path cfg)
     then Some (sha256_file H (XIV.csv_path cfg)) else None)
    (len df) (snd (shape df))
    (mkOutputs (schema_path (XIV.outdir cfg) run_id)
               (dup_path (XIV.outdir cfg) run_id)
               (opt_rows desc (describe_path (XIV.outdir cfg) run_id))
               (opt_rows qdf (quantis_path (XIV.outdir cfg) run_id))
               (opt_rows (XIV.range_flags S df)
                         (ranges_path (XIV.outdir cfg) run_id))
               (figure_names H df)
               (log_path (XIV.outdir cfg) run_id)).

(** An engine whose [describe] raises and whose other calls compute. *)
Definition describeless_stats : Stats :=
  mkStats (fun _ => None) quantile_exact
          (fun q s => Some (quantile_linear q s))
          (fun _ => "q").

(* ================================================================== *)
(** ** Item xiv: the paths file *)

(** [read_env_file] and the three lookups at the head of [main] of item
    xiv.  A text is the sequence of its code points, each below 256. *)
Module Env.

Definition code (c : ascii) : nat := nat_of_ascii c.

(** [c.isspace()] *)
Definition is_space (c : ascii) : bool :=
  existsb (Nat.eqb (code c)) [9; 10; 11; 12; 13; 28; 29; 30; 31; 32; 133; 160].

(** The line boundaries of [str.splitlines]. *)
Definition is_linebreak (c : ascii) : bool :=
  existsb (Nat.eqb (code c)) [10; 11; 12; 13; 28; 29; 30; 133].

Definition is_empty (s : string) : bool :=
  match s with
  | EmptyString => true
  | String _ _ => false
  end.

(** [text.splitlines()]: [cur] is the line being read.  A carriage return
    followed by a line feed is one boundary; a text that ends with a
    boundary has no empty last line. *)
Fixpoint splitlines_from (cur s : string) : list string :=
  match s with
  | EmptyString => if is_empty cur then [] else [cur]
  | String c s' =>
      if is_linebreak c
      then cur :: match s' with
                  | String c2 s'' =>
                      if Nat.eqb (code c) 13 && Nat.eqb (code c2) 10
                      then splitlines_from "" s''
                      else splitlines_from "" s'
                  | EmptyString => splitlines_from "" s'
                  end
      else splitlines_from (cur ++ String c "") s'
  end.

Definition splitlines (s : string) : list string := splitlines_from "" s.

(** [s.lstrip()], [s.rstrip()], [s.strip()] *)
Fixpoint lstrip (s : string) : string :=
  match s with
  | EmptyString => ""
  | String c s' => if is_space c then lstrip s' else s
  end.

Fixpoint rstrip (s : string) : string :=
  match s with
  | EmptyString => ""
  | String c s' =>
      if is_space c && is_empty (rstrip s') then ""
      else String c (rstrip s')
  end.

Definition strip (s : string) : string := rstrip (lstrip s).

(** [line.startswith("#")] *)
Definition startswith_hash (line : string) : bool :=
  match line with
  | String c _ => Ascii.eqb c "#"
  | EmptyString => false
  end.

(** [line.split("=", 1)] when ["=" in line], [None] otherwise. *)
Fixpoint split_eq (line : string) : option (string * string) :=
  match line with
  | EmptyString => None
  | String c s' =>
      if Ascii.eqb c "="
      then Some ("", s')
      else match split_eq s' with
           | Some (k, v) => Some (String c k, v)
           | None => None
           end
  end.

(** A [dict] with text keys, in insertion order. *)
Definition dict := list (string * string).

(** [d[k] = v]: a key already present keeps its place. *)
Fixpoint dict_set (k v : string) (d : dict) : dict :=
  match d with
  | [] => [(k, v)]
  | (k', v') :: d' =>
      if String.eqb k k' then (k', v) :: d' else (k', v') :: dict_set k v d'
  end.

(** [d.get(k)] *)
Fixpoint dict_get (k : string) (d : dict) : option string :=
  match d with
  | [] => None
  | (k', v') :: d' => if String.eqb k k' then Some v' else dict_get k d'
  end.

(** The body of the loop of [read_env_file], lines 51-57. *)
Definition read_line (out : dict) (line : string) : dict :=
  let line := strip line in
  if is_empty line || startswith_hash line then out
  else match split_eq line with
       | None => out
       | Some (k, v) => dict_set (strip k) (strip v) out
       end.

Inductive error : Type :=
| EnvFileNotFound (path : string)
| EnvKeyError (key : string).

(** [read_env_file(env_path)], lines 46-58; [text] is the content of the
    file, [None] when it does not exist. *)
Definition read_env_file (env_path : string) (text : option string)
  : error + dict :=
  match text with
  | None => inl (EnvFileNotFound env_path)
  | Some t => inr (fold_left read_line (splitlines t) [])
  end.

(** [env[k]] *)
Definition item (env : dict) (k : string) : error + string :=
  match dict_get k env with
  | Some v => inr v
  | None => inl (EnvKeyError k)
  end.

(** Lines 200-204 of [main]: the three paths. *)
Definition load_config (env_path : string) (text : option string)
  : error + XIV.Config :=
  match read_env_file env_path text with
  | inl e => inl e
  | inr env =>
      match item env "CAP5_METEO_PARQUET" with
      | inl e => inl e
      | inr parquet_path =>
          match item env "CAP5_METEO_CSV" with
          | inl e => inl e
          | inr csv_path =>
              match item env "CAP5_XIV_OUTDIR" with
              | inl e => inl e
              | inr outdir => inr (XIV.mkConfig parquet_path csv_path outdir)
              end
          end
      end
  end.

(** [main()] of item xiv from its first line. *)
Definition main (S : Stats) (H : Host) (env_path : string)
           (text : option string) (now : datetime) (w : world)
  : error + (result nat * world) :=
  match load_config env_path text with
  | inl e => inl e
  | inr cfg => inr (XIV.main S H cfg now w)
  end.

End Env.

(** A paths file: one [KEY=value] line per entry. *)
Fixpoint render_env (kvs : list (string * string)) : string :=
  match kvs with
  | [] => ""
  | (k, v) :: kvs' => (k ++ "=" ++ v ++ String (ascii_of_nat 10) (render_env kvs'))%string
  end.

(** No line boundary inside, no white space at either end. *)
Definition one_line (s : string) : Prop :=
  Forall (fun c => Env.is_linebreak c = false) (list_ascii_of_string s).

Definition trimmed (s : string) : Prop :=
  Env.lstrip s = s /\ Env.rstrip s = s.

(** A key as [read_env_file] can give it back. *)
Definition plain_key (k : string) : Prop :=
  one_line k /\ trimmed k /\ Env.split_eq k = None /\
  Env.startswith_hash k = false.

Definition plain_value (v : string) : Prop := one_line v /\ trimmed v.

Definition line_feed : ascii := ascii_of_nat 10.

(** A paths file with the three entries item xiv reads. *)
Definition paths_text : string :=
  render_env [ ("CAP5_METEO_PARQUET", "data/meteo.parquet");
               ("CAP5_METEO_CSV", "data/meteo.csv");
               ("CAP5_XIV_OUTDIR", "resultados/xiv") ].

(* ================================================================== *)
(** ** The preliminary classification of the project files

    [scripts/classificar_projeto_tese_v4.py].  The script reads the
    inventory of the project files and gives each one a category and a
    reason; it moves nothing.  Python's [str.lower] is Unicode's and is left
    to the host: it is the argument [lower] below.  Text is kept as its
    UTF-8 bytes; the tests of the rules ([startswith], [in], [==]) are made
    against ASCII text, for which bytes and characters agree. *)

Module Classificar.

Definition ROOT : string := "C:\PROJETO_2025_TESE".
Definition INVENTORY : string :=
  ROOT // "resultados" // "diagnostico" // "files_inventory.csv".
Definition OUT_CSV : string :=
  ROOT // "resultados" // "diagnostico" // "classificacao_preliminar_v4.csv".
Definition OUT_SUMMARY : string :=
  ROOT // "resultados" // "diagnostico" // "classificacao_resumo_v4.txt".

(** Lines 30-40. *)
Definition DATA_HEAVY_EXT : list string :=
  [ ".tif"; ".tiff"; ".zip"; ".nc"; ".hdf5"; ".he5"; ".h5";
    ".shp"; ".shx"; ".dbf"; ".prj"; ".cpg"; ".geojson"; ".qgz"; ".qml";
    ".pt"; ".pth"; ".state"; ".gz"; ".xml"; ".fix"; ".exe"; ".com" ].
Definition CODE_EXT : list string := [".py"; ".ipynb"; ".js"; ".cpp"].
Definition DOC_EXT : list string :=
  [".pdf"; ".docx"; ".md"; ".bib"; ".txt"; ".html"].
Definition TABULAR_EXT : list string := [".csv"; ".parquet"; ".xlsx"; ".xls"].
Definition MEDIA_EXT : list string := [".jpg"; ".jpeg"; ".png"; ".wav"; ".mp4"].
Definition OTHER_EXT : list string := [".unknown"; ".t"].

(** [e in S] for a set of strings. *)
Definition mem (e : string) (l : list string) : bool :=
  existsb (String.eqb e) l.

(** [any(tag in p for tag in tags)] *)
Definition any_in (tags : list string) (p : string) : bool :=
  existsb (fun tag => XIV.contains tag p) tags.

(** [s.replace("\\", "/")] *)
Fixpoint replace_backslash (s : string) : string :=
  match s with
  | EmptyString => EmptyString
  | String c s' =>
      String (if Ascii.eqb c "\"%char then "/"%char else c)
             (replace_backslash s')
  end.

(** [s or ""]; [None] is Python's [None]. *)
Definition or_empty (s : option string) : string :=
  match s with
  | Some x => x
  | None => ""
  end.

(** Lines 43-44. *)
Definition norm (lower : string -> string) (s : option string) : string :=
  lower (replace_backslash (or_empty s)).

Definition TESE_PROVAVEL : string := "TESE_PROVAVEL".
Definition DADOS_EXTERNOS : string := "DADOS_EXTERNOS".
Definition ACERVO_LIVROS : string := "ACERVO_LIVROS".
Definition INDETERMINADO : string := "INDETERMINADO".

(** Lines 47-125.  [None] is the [return None] of rule 0; otherwise the
    category and the reason.  [e] is never [None] after line 49, so the test
    of line 94 is [e == ""]. *)
Definition classify (lower : string -> string) (path_rel ext : option string)
  : option (string * string) :=
  let p := norm lower path_rel in
  let e := lower (or_empty ext) in
  if String.prefix ".git/" p || XIV.contains "/.git/" p then None
  else if String.eqb p "readme.md" then
    Some (TESE_PROVAVEL, "README do projeto")
  else if String.prefix "resultados/capitulo_5/" p then
    Some (TESE_PROVAVEL,
          "Evidência/resultado do Capítulo 5 (resultados/capitulo_5)")
  else if XIV.contains "/03_modelagem/resultados_cap5/" p then
    Some (TESE_PROVAVEL,
          "Script/artefato do Capítulo 5 (núcleo metodológico)")
  else if String.prefix "scripts/capitulo_5/" p then
    Some (TESE_PROVAVEL, "Script do Capítulo 5 (organizado)")
  else if XIV.contains "/11_livros/" p || XIV.contains "z-lib" p
          || XIV.contains "/dlwpt-code-master/" p then
    Some (ACERVO_LIVROS,
          "Acervo de livros/código/datasets de terceiros (11_Livros)")
  else if any_in ["/prisma"; "/mapbioma"; "/mapbiomas"; "/attos"] p then
    Some (DADOS_EXTERNOS,
          "PRISMA/MapBiomas/ATTOS (pré-processamento/dados externos)")
  else if any_in ["inventario"; "scan_"; "excluir_"; "criar_subpastas"] p then
    Some (ACERVO_LIVROS, "Utilitário genérico / inventário")
  else if mem e TABULAR_EXT then
    if String.prefix "resultados/" p then
      Some (TESE_PROVAVEL, "Tabela/resultado em resultados/")
    else
      Some (DADOS_EXTERNOS,
            "Tabela/dado tabular fora de resultados/ (provável insumo externo)")
  else if mem e DATA_HEAVY_EXT then
    Some (DADOS_EXTERNOS, ("Arquivo pesado/auxiliar (" ++ e ++ ")")%string)
  else if String.eqb e "" then
    if any_in ["/05_dados_"; "/06_resultados/"; "/dados_"; "/10_shape_";
               "/03_modelagem/"] p then
      Some (DADOS_EXTERNOS, "Arquivo sem extensão em pasta de dados/resultados")
    else
      Some (INDETERMINADO, "Arquivo sem extensão (revisão manual mínima)")
  else if String.eqb e ".qmd" then
    if String.prefix "tese/" p then
      Some (TESE_PROVAVEL, "Documento de escrita em tese/")
    else
      Some (DADOS_EXTERNOS, "QMD fora de tese/ (relatório/script auxiliar)")
  else if mem e CODE_EXT then
    if String.prefix "scripts/" p then
      Some (INDETERMINADO, "Código em scripts/ fora do núcleo (revisão mínima)")
    else
      Some (DADOS_EXTERNOS, "Código auxiliar fora do núcleo metodológico")
  else if mem e DOC_EXT then
    if String.prefix "tese/" p || String.prefix "resultados/" p then
      Some (TESE_PROVAVEL, "Documento em tese/ ou resultados/")
    else
      Some (ACERVO_LIVROS, "Documento de apoio / acervo")
  else if mem e MEDIA_EXT then
    Some (ACERVO_LIVROS, "Mídia/imagem/áudio de apoio")
  else if mem e OTHER_EXT then
    Some (ACERVO_LIVROS,
          "Arquivo com extensão incomum (provável acervo/dataset de apoio)")
  else
    Some (INDETERMINADO, "Caso residual (revisão manual mínima)").

(** A row of [csv.DictReader]: the header names with the fields of the
    line; a field the line is too short for is [None]. *)
Definition row : Type := list (string * option string).

(** [r.get(k, default)] *)
Fixpoint get (r : row) (k default : string) : option string :=
  match r with
  | [] => Some default
  | (k', v) :: r' => if String.eqb k' k then v else get r' k default
  end.

(** The dictionary [counts]. *)
Definition tally : Type := list (string * nat).

(** [counts[cat]]; [None] is the KeyError. *)
Fixpoint count_of (cat : string) (c : tally) : option nat :=
  match c with
  | [] => None
  | (k, n) :: c' => if String.eqb k cat then Some n else count_of cat c'
  end.

(** [counts[cat] += 1]; [None] is the KeyError. *)
Fixpoint bump (cat : string) (c : tally) : option tally :=
  match c with
  | [] => None
  | (k, n) :: c' =>
      if String.eqb k cat then Some ((k, S n) :: c')
      else match bump cat c' with
           | Some c'' => Some ((k, n) :: c'')
           | None => None
           end
  end.

(** [sum(counts.values())] *)
Definition total (c : tally) : nat :=
  fold_left Nat.add (map snd c) 0.

(** A row of the output table (lines 151-158). *)
Record OutRow : Type := mkOutRow {
  out_path : option string;
  out_name : option string;
  out_extension : option string;
  out_size_kb : option string;
  categoria : string;
  justificativa : string
}.

(** The state of the loop of lines 138-158. *)
Record Acc : Type := mkAcc {
  rows_out : list OutRow;
  counts : tally;
  ignored : nat
}.

Inductive error : Type :=
| InventoryNotFound (path : string)
| CountsKeyError (key : string).

(** Lines 132-134. *)
Definition start : Acc :=
  mkAcc [] [(TESE_PROVAVEL, 0); (DADOS_EXTERNOS, 0); (ACERVO_LIVROS, 0);
            (INDETERMINADO, 0)] 0.

(** One turn of the loop, lines 139-158. *)
Definition step (lower : string -> string) (a : Acc) (r : row) : error + Acc :=
  let path_rel := get r "path" "" in
  let ext := get r "extension" "" in
  let size_kb := get r "size_kb" "" in
  match classify lower path_rel ext with
  | None => inr (mkAcc (rows_out a) (counts a) (S (ignored a)))
  | Some (cat, why) =>
      match bump cat (counts a) with
      | None => inl (CountsKeyError cat)
      | Some c =>
          inr (mkAcc (rows_out a
                      ++ [mkOutRow path_rel (get r "name" "") ext size_kb
                                   cat why])
                     c (ignored a))
      end
  end.

Fixpoint loop (lower : string -> string) (a : Acc) (rs : list row)
  : error + Acc :=
  match rs with
  | [] => inr a
  | r :: rs' =>
      match step lower a r with
      | inl e => inl e
      | inr a' => loop lower a' rs'
      end
  end.

(** [str(n)] for a count. *)
Definition str_nat (n : nat) : string :=
  NilEmpty.string_of_uint (Nat.to_uint n).

(** [now.isoformat(timespec="seconds")] *)
Definition isoformat_seconds (now : datetime) : string :=
  (pad 4 (year now) ++ "-" ++ pad 2 (month now) ++ "-" ++ pad 2 (day now)
   ++ "T" ++ pad 2 (hour now) ++ ":" ++ pad 2 (minute now) ++ ":"
   ++ pad 2 (second now))%string.

(** ["\n".join(lines) + "\n"] *)
Fixpoint join_lines (lines : list string) : string :=
  match lines with
  | [] => String (ascii_of_nat 10) ""
  | [l] => (l ++ String (ascii_of_nat 10) "")%string
  | l :: ls => (l ++ String (ascii_of_nat 10) (join_lines ls))%string
  end.

(** Lines 170-187; a count missing from [counts] is the KeyError. *)
Definition summary_lines (now : datetime) (a : Acc) : error + list string :=
  match count_of TESE_PROVAVEL (counts a) with
  | None => inl (CountsKeyError TESE_PROVAVEL)
  | Some tese =>
  match count_of DADOS_EXTERNOS (counts a) with
  | None => inl (CountsKeyError DADOS_EXTERNOS)
  | Some dados =>
  match count_of ACERVO_LIVROS (counts a) with
  | None => inl (CountsKeyError ACERVO_LIVROS)
  | Some acervo =>
  match count_of INDETERMINADO (counts a) with
  | None => inl (CountsKeyError INDETERMINADO)
  | Some indet =>
      inr [ "CLASSIFICACAO PRELIMINAR v4 — PROJETO TESE (A2.3)";
            ("Timestamp: " ++ isoformat_seconds now)%string;
            ("Inventário: " ++ INVENTORY)%string;
            ("Saída CSV:  " ++ OUT_CSV)%string;
            "";
            ("Total considerados: " ++ str_nat (total (counts a)))%string;
            ("Ignorados (.git/*): " ++ str_nat (ignored a))%string;
            "";
            "Contagem por categoria:";
            ("  TESE_PROVAVEL: " ++ str_nat tese)%string;
            ("  DADOS_EXTERNOS: " ++ str_nat dados)%string;
            ("  ACERVO_LIVROS: " ++ str_nat acervo)%string;
            ("  INDETERMINADO: " ++ str_nat indet)%string ]
  end end end end.

(** What a run leaves: the table at [OUT_CSV] and the text at
    [OUT_SUMMARY]. *)
Record Output : Type := mkOutput {
  out_csv : list OutRow;
  out_summary : string
}.

(** Lines 128-189.  [inventory] is the content of the inventory file, read
    as the rows of [csv.DictReader], or [None] when the file does not exist.
    Both files are written after the loop, so a run that raises leaves
    none. *)
Definition main (lower : string -> string) (inventory : option (list row))
           (now : datetime) : error + Output :=
  match inventory with
  | None => inl (InventoryNotFound INVENTORY)
  | Some rs =>
      match loop lower start rs with
      | inl e => inl e
      | inr a =>
          match summary_lines now a with
          | inl e => inl e
          | inr lines => inr (mkOutput (rows_out a) (join_lines lines))
          end
      end
  end.

End Classificar.

(** A [lower] for the examples: ASCII letters to lower case, every other
    byte as it is.  On ASCII text it is Python's [str.lower]. *)
Definition ascii_lower_char (c : ascii) : ascii :=
  let n := nat_of_ascii c in
  if (65 <=? n) && (n <=? 90) then ascii_of_nat (n + 32) else c.

Fixpoint ascii_lower (s : string) : string :=
  match s with
  | EmptyString => EmptyString
  | String c s' => String (ascii_lower_char c) (ascii_lower s')
  end.

(** The normalized path and extension the rules look at. *)
Definition rule_path (lower : string -> string) (path_rel : option string)
  : string :=
  Classificar.norm lower path_rel.

Definition rule_ext (lower : string -> string) (ext : option string) : string :=
  lower (Classificar.or_empty ext).

(** The extensions the rules know. *)
Definition known_ext : list string :=
  Classificar.TABULAR_EXT ++ Classificar.DATA_HEAVY_EXT ++ [".qmd"]
  ++ Classificar.CODE_EXT ++ Classificar.DOC_EXT ++ Classificar.MEDIA_EXT
  ++ Classificar.OTHER_EXT.

(** The rows of the inventory that rule 0 does not ignore. *)
Definition considered (lower : string -> string) (r : Classificar.row) : bool :=
  match Classificar.classify lower (Classificar.get r "path" "")
                             (Classificar.get r "extension" "") with
  | Some _ => true
  | None => false
  end.

(** The number of output rows of a category. *)
Definition rows_of (cat : string) (rows : list Classificar.OutRow) : nat :=
  List.length (filter (fun o => String.eqb (Classificar.categoria o) cat) rows).

(** A small inventory. *)
Definition sample_inventory : list Classificar.row :=
  [ [("path", Some "README.md"); ("name", Some "README.md");
     ("extension", Some ".md"); ("size_kb", Some "2")];
    [("path", Some ".git\config"); ("name", Some "config");
     ("extension", Some ""); ("size_kb", Some "1")];
    [("path", Some "Resultados\Capitulo_5\tabela.CSV"); ("name", Some "tabela.CSV");
     ("extension", Some ".CSV"); ("size_kb", Some "10")];
    [("path", Some "scripts\util.py"); ("name", Some "util.py");
     ("extension", Some ".py"); ("size_kb", Some "3")];
    [("path", Some "dados\mapa.tif"); ("name", None);
     ("extension", None); ("size_kb", None)] ].

(** The output row of an inventory row: none for a row rule 0 ignores. *)
Definition out_row (lower : string -> string) (r : Classificar.row)
  : list Classificar.OutRow :=
  match Classificar.classify lower (Classificar.get r "path" "")
                             (Classificar.get r "extension" "") with
  | None => []
  | Some (cat, why) =>
      [Classificar.mkOutRow (Classificar.get r "path" "")
                            (Classificar.get r "name" "")
                            (Classificar.get r "extension" "")
                            (Classificar.get r "size_kb" "") cat why]
  end.

(** The four categories. *)
Definition categories : list string :=
  [ Classificar.TESE_PROVAVEL; Classificar.DADOS_EXTERNOS;
    Classificar.ACERVO_LIVROS; Classificar.INDETERMINADO ].

(** The folders in which a file without extension is taken for data. *)
Definition data_folders : list string :=
  ["/05_dados_"; "/06_resultados/"; "/dados_"; "/10_shape_"; "/03_modelagem/"].

(* ================================================================== *)
(** ** The adjacency check *)

Lemma adjacent_check_nil : adjacent_check [] = true.
Proof. reflexivity. Qed.

Lemma adjacent_check_one (x : option Z) : adjacent_check [x] = true.
Proof. reflexivity. Qed.

Lemma adjacent_check_cons (x y : option Z) (s : series) :
  adjacent_check (x :: y :: s) =
  match y, x with
  | Some u, Some v => Z.geb u v
  | _, _ => true
  end && adjacent_check (y :: s).
Proof.
  unfold adjacent_check, all. simpl.
  destruct y as [u|], x as [v|]; reflexivity.
Qed.

Lemma adjacent_ordered_cons (x y : option Z) (s : series) :
  adjacent_ordered (x :: y :: s) <->
  (forall a b, x = Some a -> y = Some b -> (a <= b)%Z) /\
  adjacent_ordered (y :: s).
Proof.
  unfold adjacent_ordered. split.
  - intros H. split.
    + intros a b -> ->. apply (H 0); reflexivity.
    + intros j a b Ha Hb. apply (H (S j)); assumption.
  - intros [H0 H] [|j] a b Ha Hb.
    + simpl in Ha, Hb. apply H0; congruence.
    + apply (H j); assumption.
Qed.

Lemma adjacent_check_spec (s : series) :
  adjacent_check s = true <-> adjacent_ordered s.
Proof.
  induction s as [|x [|y s] IH].
  - split; [intros _ [|j] a b Ha; discriminate Ha | reflexivity].
  - split; [|reflexivity].
    intros _ [|[|j]] a b Ha Hb; discriminate Hb.
  - rewrite adjacent_check_cons, andb_true_iff, IH, adjacent_ordered_cons.
    apply and_iff_compat_r. split.
    + intros H a b -> ->. now apply Z.geb_le in H.
    + intros H. destruct y as [u|], x as [v|]; try reflexivity.
      apply Z.geb_le. now apply H.
Qed.



(* ================================================================== *)
(** ** The runs of P1.5 and P1.6, case by case *)

Lemma lookup_head (p : string) (a : artifact) (fs : list (string * artifact)) :
  lookup p ((p, a) :: fs) = Some a.
Proof. simpl. now rewrite String.eqb_refl. Qed.

Lemma main_cases (E : Engine) (args : P15.Args) (w : world) :
  P15.main E args w =
  match lookup (P15.input args) (files w) with
  | None => (Raise (FileNotFoundError (InputNotFound (P15.input args))), w)
  | Some (Parquet df) =>
      match index_of (P15.date_col args) (columns df) with
      | None => (Raise (KeyError (ColumnNotFound (P15.date_col args))), w)
      | Some i =>
          match P15.converted E i df with
          | None => (Raise (RuntimeError (ConversionFailed (P15.date_col args))),
                     after_convert (P15.date_col args) w)
          | Some df' =>
              let nulls := sum_bool (isna (date_series i (rows df'))) in
              if 0 <? nulls
              then (Raise (ValueError (NullsAfterConversion nulls (P15.date_col args))),
                    after_convert (P15.date_col args) w)
              else
                let out := P15.sorted E i df' in
                if adjacent_check (date_series i (rows out))
                then (Ok (evidence_of i df' out),
                      after_write (P15.date_col args) (P15.output args) out w)
                else (Raise (RuntimeError NotMonotonicAfterSort),
                      after_sort (P15.date_col args) w)
          end
      end
  | Some _ => (Raise (OtherError (EngineFailure "read_parquet")), w)
  end.
Proof.
  unfold P15.main, bind, path_exists, read_parquet, raise, ret.
  destruct (lookup (P15.input args) (files w)) as [a|] eqn:Hf; simpl;
    [|reflexivity].
  rewrite Hf.
  destruct a; try reflexivity.
  destruct (index_of (P15.date_col args) (columns df)) as [i|]; [|reflexivity].
  unfold P15.convert, bind, emit, raise, ret.
  destruct (P15.converted E i df) as [df'|]; [|reflexivity].
  simpl.
  destruct (0 <? sum_bool (isna (date_series i (rows df')))); [reflexivity|].
  unfold P15.sort_by, bind, emit, ret, write_file. simpl.
  destruct (adjacent_check _); reflexivity.
Qed.

Lemma first_existing_find (ps : list string) (w : world) :
  P16.first_existing ps w = (Ok (find (present w) ps), w).
Proof.
  induction ps as [|p ps IH]; [reflexivity|].
  simpl. unfold bind, path_exists, present.
  destruct (lookup p (files w)); [reflexivity|exact IH].
Qed.

Lemma script_cases (E : Engine) (w : world) :
  P16.script E w =
  match find (present w) P16.CANDIDATOS_INPUT with
  | None => (Raise (FileNotFoundError (P15OutputNotFound P16.CANDIDATOS_INPUT)), w)
  | Some p =>
      match lookup p (files w) with
      | Some (Parquet df) =>
          match index_of "date_time" (columns df) with
          | None => (Raise (KeyError DateTimeAbsent), w)
          | Some i =>
              let out := P15.sorted E i df in
              let w1 := mkWorld (files w)
                                (trace w ++ [EvSortValues "date_time" default_kind]) in
              if is_monotonic_increasing (date_series i (rows out))
              then (Ok tt,
                    mkWorld ((P16.OUTPUT_PARQUET, Parquet out) :: files w)
                            (trace w1 ++ [EvWrite P16.OUTPUT_PARQUET]))
              else (Raise (ValueError NotIncreasingAfterSort), w1)
          end
      | _ => (Raise (OtherError (EngineFailure "read_parquet")), w)
      end
  end.
Proof.
  unfold P16.script, bind. rewrite first_existing_find.
  destruct (find (present w) P16.CANDIDATOS_INPUT) as [p|]; [|reflexivity].
  unfold read_parquet.
  destruct (lookup p (files w)) as [[df| | | | | |]|]; try reflexivity.
  destruct (index_of "date_time" (columns df)) as [i|]; [|reflexivity].
  unfold emit, raise, write_file. simpl.
  destruct (is_monotonic_increasing _); reflexivity.
Qed.

Lemma values_of_some (s : series) (v : list Z) :
  values_of s = Some v <-> s = map Some v.
Proof.
  revert v. induction s as [|[x|] s IH]; intros v; simpl.
  - split; [intros [= <-]; reflexivity | destruct v; [reflexivity|discriminate]].
  - destruct (values_of s) as [v'|] eqn:Hv; simpl.
    + split.
      * intros [= <-]. simpl. f_equal. now apply IH.
      * destruct v as [|y v]; [discriminate|]. intros [= -> Hs].
        apply IH in Hs. congruence.
    + split; [discriminate|].
      destruct v as [|y v]; [discriminate|]. intros [= -> Hs].
      apply IH in Hs. discriminate.
  - split; [discriminate | destruct v; discriminate].
Qed.

Lemma nondecreasingb_adjacent (v : list Z) :
  nondecreasingb v = true <-> adjacent_ordered (map Some v).
Proof.
  induction v as [|x [|y v] IH].
  - split; [intros _ [|j] a b Ha; discriminate Ha | reflexivity].
  - split; [|reflexivity].
    intros _ [|[|j]] a b Ha Hb; discriminate Hb.
  - change (nondecreasingb (x :: y :: v))
      with (Z.leb x y && nondecreasingb (y :: v)).
    change (map Some (x :: y :: v)) with (Some x :: Some y :: map Some v).
    rewrite andb_true_iff, IH, adjacent_ordered_cons.
    apply and_iff_compat_r. rewrite Z.leb_le. split.
    + intros H a b [= <-] [= <-]. exact H.
    + intros H. now apply H.
Qed.

(** [is_monotonic_increasing] holds exactly on null-free series whose
    adjacent pairs are in order. *)
Lemma is_monotonic_increasing_spec (s : series) :
  is_monotonic_increasing s = true <-> no_nulls s /\ adjacent_ordered s.
Proof.
  unfold is_monotonic_increasing.
  destruct (values_of s) as [v|] eqn:Hv.
  - apply values_of_some in Hv. subst s. rewrite nondecreasingb_adjacent.
    split; [|tauto]. intros H. split; [|exact H].
    apply Forall_forall. intros t Ht. apply in_map_iff in Ht.
    destruct Ht as (x & <- & _). discriminate.
  - split; [discriminate|]. intros [Hn _]. exfalso.
    induction s as [|[x|] s IH]; simpl in Hv.
    + discriminate.
    + inversion Hn; subst. destruct (values_of s); [discriminate|].
      now apply IH.
    + inversion Hn; subst. congruence.
Qed.

Lemma isna_count_zero (s : series) :
  sum_bool (isna s) = 0 <-> no_nulls s.
Proof.
  unfold sum_bool, isna, no_nulls.
  induction s as [|[x|] s IH]; simpl.
  - split; [constructor|reflexivity].
  - rewrite IH. split.
    + intros H. constructor; [discriminate|exact H].
    + intros H. now inversion H.
  - split; [discriminate|]. intros H. inversion H; subst. congruence.
Qed.

Lemma null_gate (s : series) :
  (0 <? sum_bool (isna s)) = false <-> no_nulls s.
Proof.
  rewrite Nat.ltb_ge, Nat.le_0_r. apply isna_count_zero.
Qed.

Lemma converted_columns (E : Engine) (i : nat) (df df' : DataFrame) :
  P15.converted E i df = Some df' -> columns df' = columns df.
Proof.
  unfold P15.converted.
  destruct (to_datetime E _) as [s|]; [|discriminate].
  destruct (assign_column _ _ _) as [rs|]; [|discriminate].
  now intros [= <-].
Qed.

(** What a successful run of P1.5 went through. *)
Lemma main_ok_inv (E : Engine) (args : P15.Args) (w w' : world)
      (ev : P15.Evidence) :
  P15.main E args w = (Ok ev, w') ->
  exists df i df',
    lookup (P15.input args) (files w) = Some (Parquet df) /\
    index_of (P15.date_col args) (columns df) = Some i /\
    P15.converted E i df = Some df' /\
    no_nulls (date_series i (rows df')) /\
    adjacent_check (date_series i (rows (P15.sorted E i df'))) = true /\
    ev = evidence_of i df' (P15.sorted E i df') /\
    w' = after_write (P15.date_col args) (P15.output args) (P15.sorted E i df') w.
Proof.
  rewrite main_cases.
  destruct (lookup (P15.input args) (files w)) as [[df| | | | | |]|];
    try discriminate.
  destruct (index_of (P15.date_col args) (columns df)) as [i|] eqn:Hi;
    [|discriminate].
  destruct (P15.converted E i df) as [df'|] eqn:Hc; [|discriminate].
  cbv zeta.
  destruct (0 <? sum_bool (isna (date_series i (rows df')))) eqn:Hn;
    [discriminate|].
  destruct (adjacent_check _) eqn:Hm; [|discriminate].
  intros [= <- <-]. exists df, i, df'.
  apply null_gate in Hn. repeat split; auto.
Qed.

(** The run of P1.5 on an input that converts without nulls. *)
Lemma main_after_gate (E : Engine) (args : P15.Args) (w : world)
      (df df' : DataFrame) (i : nat) :
  lookup (P15.input args) (files w) = Some (Parquet df) ->
  index_of (P15.date_col args) (columns df) = Some i ->
  P15.converted E i df = Some df' ->
  no_nulls (date_series i (rows df')) ->
  P15.main E args w =
  if adjacent_check (date_series i (rows (P15.sorted E i df')))
  then (Ok (evidence_of i df' (P15.sorted E i df')),
        after_write (P15.date_col args) (P15.output args) (P15.sorted E i df') w)
  else (Raise (RuntimeError NotMonotonicAfterSort),
        after_sort (P15.date_col args) w).
Proof.
  intros Hf Hi Hc Hn. rewrite main_cases, Hf, Hi, Hc. cbv zeta.
  apply null_gate in Hn. now rewrite Hn.
Qed.

Lemma permuted_no_nulls (i : nat) (rs out : list Row) :
  Permutation out rs ->
  no_nulls (date_series i rs) -> no_nulls (date_series i out).
Proof.
  intros Hp Hn. unfold no_nulls, date_series in *.
  eapply Permutation_Forall; [|exact Hn].
  apply Permutation_map. now apply Permutation_sym.
Qed.


(* ================================================================== *)
(** ** The engines are lawful *)

Lemma key_leb_le (a b : option Z) : key_leb a b = true <-> key_le a b.
Proof.
  destruct a as [x|], b as [y|]; simpl; try tauto.
  - apply Z.leb_le.
  - split; [discriminate|contradiction].
Qed.

Lemma key_leb_total (a b : option Z) : key_leb a b = false -> key_le b a.
Proof.
  destruct a as [x|], b as [y|]; simpl; try discriminate; try tauto.
  intros H. apply Z.leb_gt in H. lia.
Qed.

Lemma key_leb_refl (a : option Z) : key_leb a a = true.
Proof. destruct a; simpl; [apply Z.leb_refl|reflexivity]. Qed.

Lemma ts_eqb_eq (a b : option Z) : ts_eqb a b = true <-> a = b.
Proof.
  destruct a as [x|], b as [y|]; simpl.
  - rewrite Z.eqb_eq. split; congruence.
  - split; discriminate.
  - split; discriminate.
  - tauto.
Qed.

Lemma insert_row_perm (i : nat) (r : Row) (rs : list Row) :
  Permutation (insert_row i r rs) (r :: rs).
Proof.
  induction rs as [|r' rs IH]; simpl; [reflexivity|].
  destruct (key_leb (key i r) (key i r')); [reflexivity|].
  rewrite IH. apply perm_swap.
Qed.

Lemma stable_sort_perm (i : nat) (rs : list Row) :
  Permutation (stable_sort i rs) rs.
Proof.
  induction rs as [|r rs IH]; simpl; [reflexivity|].
  rewrite insert_row_perm. now constructor.
Qed.

Lemma insert_row_sorted (i : nat) (r : Row) (rs : list Row) :
  Sorted (fun r1 r2 => key_le (key i r1) (key i r2)) rs ->
  Sorted (fun r1 r2 => key_le (key i r1) (key i r2)) (insert_row i r rs).
Proof.
  induction rs as [|r' rs IH]; intros Hs; simpl.
  - repeat constructor.
  - destruct (key_leb (key i r) (key i r')) eqn:Hle.
    + constructor; [exact Hs|]. constructor. now apply key_leb_le.
    + inversion Hs as [|? ? Hs' Hhd]; subst.
      constructor; [now apply IH|].
      destruct rs as [|r'' rs]; simpl.
      * constructor. now apply key_leb_total.
      * destruct (key_leb (key i r) (key i r'')).
        -- constructor. now apply key_leb_total.
        -- constructor. now inversion Hhd.
Qed.

Lemma stable_sort_sorted (i : nat) (rs : list Row) :
  Sorted (fun r1 r2 => key_le (key i r1) (key i r2)) (stable_sort i rs).
Proof.
  induction rs as [|r rs IH]; simpl; [constructor|].
  now apply insert_row_sorted.
Qed.

Lemma insert_row_filter (i : nat) (t : option Z) (r : Row) (rs : list Row) :
  filter (same_key i t) (insert_row i r rs) = filter (same_key i t) (r :: rs).
Proof.
  induction rs as [|r' rs IH]; [reflexivity|].
  simpl insert_row.
  destruct (key_leb (key i r) (key i r')) eqn:Hle; [reflexivity|].
  simpl in *. rewrite IH.
  destruct (same_key i t r') eqn:H1, (same_key i t r) eqn:H2; try reflexivity.
  unfold same_key in H1, H2. apply ts_eqb_eq in H1, H2.
  rewrite H1, H2, key_leb_refl in Hle. discriminate.
Qed.

Lemma stable_sort_keeps_ties (i : nat) (rs : list Row) :
  keeps_ties i rs (stable_sort i rs).
Proof.
  intros t. induction rs as [|r rs IH]; [reflexivity|].
  simpl stable_sort. rewrite insert_row_filter. simpl. now rewrite IH.
Qed.

Lemma parse_column_temporal (s : series) :
  parse_column (map cell_of_ts s) = Some s.
Proof.
  induction s as [|[x|] s IH]; simpl; [reflexivity| |]; now rewrite IH.
Qed.

Lemma stable_engine_lawful : Lawful stable_engine.
Proof.
  constructor; simpl.
  - intros _ i rs. apply stable_sort_perm.
  - intros _ i rs. apply stable_sort_sorted.
  - intros _ i rs t _. apply stable_sort_keeps_ties.
  - apply parse_column_temporal.
Qed.

Lemma reversing_engine_lawful : Lawful reversing_engine.
Proof.
  constructor; simpl.
  - intros k i rs. destruct (is_stable_kind k).
    + apply stable_sort_perm.
    + rewrite stable_sort_perm. symmetry. apply Permutation_rev.
  - intros k i rs. destruct (is_stable_kind k); apply stable_sort_sorted.
  - intros k i rs t ->. apply stable_sort_keeps_ties.
  - apply parse_column_temporal.
Qed.

(* ================================================================== *)
(** ** C1: the output is in temporal order *)





Example idle_engine_is_caught :
  P15.main idle_engine sample_args sample_world =
  (Raise (RuntimeError NotMonotonicAfterSort),
   after_sort "date_time" sample_world).
Proof. vm_compute. reflexivity. Qed.

(* ================================================================== *)
(** ** C2: null timestamps are fatal before the sort *)

Lemma written_app (t1 t2 : list event) :
  written (t1 ++ t2) = written t1 ++ written t2.
Proof.
  induction t1 as [|[c|c k|p] t1 IH]; simpl; auto. now rewrite IH.
Qed.

Lemma after_convert_untouched (col : string) (w : world) :
  untouched w (after_convert col w).
Proof.
  unfold untouched, after_convert. simpl. split; [reflexivity|]. split.
  - rewrite written_app. simpl. apply app_nil_r.
  - intros c k Hin. apply in_app_or in Hin. destruct Hin as [Hin|[Hin|[]]].
    + exact Hin.
    + discriminate Hin.
Qed.

Lemma isna_count_rows (i : nat) (rs : list Row) :
  sum_bool (isna (date_series i rs)) = null_rows i rs.
Proof.
  unfold sum_bool, isna, date_series, null_rows.
  induction rs as [|r rs IH]; [reflexivity|].
  simpl. destruct (key i r); simpl; now rewrite IH.
Qed.

Lemma null_rows_positive (i : nat) (rs : list Row) :
  In None (date_series i rs) -> 0 < null_rows i rs.
Proof.
  unfold date_series, null_rows. induction rs as [|r rs IH]; [intros []|].
  simpl. destruct (key i r) eqn:Hk; simpl.
  - intros [H|H]; [discriminate|now apply IH].
  - intros _. lia.
Qed.

(** C2.  When the timestamp column converts but some row has a null
    timestamp afterwards, P1.5 raises the fatal ValueError that carries the
    number of such rows; the world it leaves has the files it found, no new
    write and no sort call, and the script exits with status 1. *)
Theorem C2_null_timestamps_abort_before_sort :
  forall (E : Engine) (args : P15.Args) (w : world)
         (df df' : DataFrame) (i : nat),
    lookup (P15.input args) (files w) = Some (Parquet df) ->
    index_of (P15.date_col args) (columns df) = Some i ->
    P15.converted E i df = Some df' ->
    In None (date_series i (rows df')) ->
    exists w',
      P15.main E args w =
      (Raise (ValueError (NullsAfterConversion (null_rows i (rows df'))
                                               (P15.date_col args))), w') /\
      0 < null_rows i (rows df') /\
      untouched w w' /\
      lookup (P15.output args) (files w') = lookup (P15.output args) (files w) /\
      fst (P15.script E args w) = 1.
Proof.
  intros E args w df df' i Hf Hi Hc Hnull.
  pose proof (null_rows_positive _ _ Hnull) as Hpos.
  assert (Hrun : P15.main E args w =
                 (Raise (ValueError (NullsAfterConversion
                                       (null_rows i (rows df'))
                                       (P15.date_col args))),
                  after_convert (P15.date_col args) w)).
  { rewrite main_cases, Hf, Hi, Hc. cbv zeta. rewrite isna_count_rows.
    apply Nat.ltb_lt in Hpos. now rewrite Hpos. }
  exists (after_convert (P15.date_col args) w).
  split; [exact Hrun|]. split; [exact Hpos|].
  split; [apply after_convert_untouched|]. split; [reflexivity|].
  unfold P15.script. now rewrite Hrun.
Qed.

(** The sample table with a missing timestamp in its third row: one null
    is reported and nothing is written. *)
Lemma C2_witness :
  exists w',
    P15.main stable_engine sample_args null_world =
    (Raise (ValueError (NullsAfterConversion 1 "date_time")), w') /\
    untouched null_world w'.
Proof.
  destruct (C2_null_timestamps_abort_before_sort
              stable_engine sample_args null_world
              (df := null_frame)
              (df' := mkDF ["date_time"; "station"] ["datetime64[ns]"; "object"]
                           [ [Datetime 3; Str "a"]; [Datetime 1; Str "b"];
                             [Null; Str "c"]; [Datetime 1; Str "d"] ])
              (i := 0) eq_refl eq_refl eq_refl
              (or_intror (or_intror (or_introl eq_refl))))
    as (w' & Hrun & _ & Hu & _).
  exists w'. split; [exact Hrun|exact Hu].
Defined.

(* ================================================================== *)
(** ** C5: the sort changes only the order of the rows *)







Lemma ts_eqb_subst (a b c : option Z) :
  ts_eqb a b = true -> ts_eqb a c = ts_eqb b c.
Proof. intros H. apply ts_eqb_eq in H. now subst. Qed.





(** The scenario of the rows timestamped 3, 1, 2, 1. *)
Example scenario_3_1_2_1 :
  exists w',
    P15.main stable_engine sample_args sample_world =
    (Ok (P15.mkEvidence (Some 1%Z) (Some 3%Z) 1 (Some 1%Z) (Some 3%Z) 1), w') /\
    option_map (fun a => match a with
                         | Parquet out => date_series 0 (rows out)
                         | _ => []
                         end)
               (lookup "out.parquet" (files w')) =
    Some [Some 1%Z; Some 1%Z; Some 2%Z; Some 3%Z].
Proof. eexists. split; vm_compute; reflexivity. Qed.

(* ================================================================== *)
(** ** C3: rows that share a timestamp *)





(* ================================================================== *)
(** ** C4: canonicalizing a table that is already in order *)






Lemma key_le_trans (a b c : option Z) : key_le a b -> key_le b c -> key_le a c.
Proof.
  destruct a as [x|], b as [y|], c as [z|]; simpl; try tauto. lia.
Qed.

Lemma key_le_antisym (a b : option Z) : key_le a b -> key_le b a -> a = b.
Proof.
  destruct a as [x|], b as [y|]; simpl; try tauto.
  intros H1 H2. f_equal. lia.
Qed.

Lemma strongly_sorted_keys (s : series) :
  Sorted key_le s -> StronglySorted key_le s.
Proof.
  apply Sorted_StronglySorted. intros a b c. apply key_le_trans.
Qed.

(** Two ascending arrangements of the same keys are the same list. *)
Lemma sorted_keys_unique (s s' : series) :
  Sorted key_le s -> Sorted key_le s' -> Permutation s s' -> s = s'.
Proof.
  intros Hs Hs'. apply strongly_sorted_keys in Hs, Hs'.
  revert s' Hs'. induction Hs as [|x s Hs IH Hx]; intros s' Hs' Hp.
  - now apply Permutation_nil in Hp.
  - destruct Hs' as [|y s' Hs' Hy].
    + apply Permutation_sym, Permutation_nil in Hp. discriminate.
    + assert (Hxy : x = y).
      { assert (H1 : In y (x :: s))
          by (eapply Permutation_in; [apply Permutation_sym; exact Hp|now left]).
        assert (H2 : In x (y :: s'))
          by (eapply Permutation_in; [exact Hp|now left]).
        destruct H1 as [H1|H1]; [exact H1|].
        destruct H2 as [H2|H2]; [now symmetry|].
        rewrite Forall_forall in Hx, Hy.
        apply key_le_antisym; auto. }
      subst y. f_equal. apply IH; [exact Hs'|].
      now apply Permutation_cons_inv in Hp.
Qed.

Lemma adjacent_ordered_sorted (s : series) :
  no_nulls s -> adjacent_ordered s -> Sorted key_le s.
Proof.
  induction s as [|x [|y s] IH]; intros Hn Ho.
  - constructor.
  - repeat constructor.
  - apply adjacent_ordered_cons in Ho. destruct Ho as [Hxy Ho].
    inversion Hn as [|? ? Hx Hn']; subst.
    constructor; [now apply IH|]. constructor.
    inversion Hn' as [|? ? Hy _]; subst.
    destruct x as [a|], y as [b|]; try congruence. simpl. now apply Hxy.
Qed.

Lemma sorted_rows_keys (i : nat) (rs : list Row) :
  Sorted (fun r1 r2 => key_le (key i r1) (key i r2)) rs ->
  Sorted key_le (date_series i rs).
Proof.
  induction 1 as [|r rs _ IH Hhd]; simpl; constructor; [exact IH|].
  destruct Hhd; simpl; constructor. assumption.
Qed.

Lemma key_lt_trans (a b c : option Z) : key_lt a b -> key_lt b c -> key_lt a c.
Proof.
  destruct a as [x|], b as [y|], c as [z|]; simpl; try tauto. lia.
Qed.

Lemma strictly_increasing_nodup (s : series) :
  strictly_increasing s -> NoDup s.
Proof.
  intros Hs. apply Sorted_StronglySorted in Hs;
    [|intros a b c; apply key_lt_trans].
  induction Hs as [|x s _ IH Hx]; constructor; [|exact IH].
  intros Hin. rewrite Forall_forall in Hx. specialize (Hx x Hin).
  destruct x as [a|]; simpl in Hx; [lia|exact Hx].
Qed.

(** A permutation that leaves a duplicate-free key sequence in place moves
    no row. *)
Lemma permutation_same_keys {A B : Type} (f : A -> B) (l l' : list A) :
  NoDup (map f l) -> map f l' = map f l -> Permutation l' l -> l' = l.
Proof.
  revert l'. induction l as [|x l IH]; intros l' Hnd Hk Hp.
  - now apply Permutation_sym, Permutation_nil in Hp.
  - destruct l' as [|y l']; [discriminate|].
    simpl in Hk. injection Hk as Hxy Hk.
    inversion Hnd as [|? ? Hnotin Hnd']; subst.
    assert (Hin : In y (x :: l)) by (eapply Permutation_in; [exact Hp|now left]).
    destruct Hin as [->|Hin].
    + f_equal. apply IH; auto. now apply Permutation_cons_inv in Hp.
    + exfalso. apply Hnotin. rewrite <- Hxy. now apply in_map.
Qed.

(** A lawful sort of a table whose keys are known and in order returns the
    same key sequence, and the same rows when no key repeats. *)
Lemma sorted_of_ordered (E : Engine) (L : Lawful E) (i : nat) (df : DataFrame) :
  no_nulls (date_series i (rows df)) ->
  adjacent_ordered (date_series i (rows df)) ->
  date_series i (rows (P15.sorted E i df)) = date_series i (rows df) /\
  (strictly_increasing (date_series i (rows df)) ->
   rows (P15.sorted E i df) = rows df).
Proof.
  intros Hn Ho.
  assert (Hk : date_series i (rows (P15.sorted E i df)) = date_series i (rows df)).
  { apply sorted_keys_unique.
    - apply sorted_rows_keys. simpl. apply sort_ascending.
    - now apply adjacent_ordered_sorted.
    - apply Permutation_map. simpl. apply sort_permutes. }
  split; [exact Hk|].
  intros Hs. apply permutation_same_keys with (f := key i).
  - now apply strictly_increasing_nodup.
  - exact Hk.
  - simpl. apply sort_permutes.
Qed.







(* ================================================================== *)
(** ** C6: the verdicts of the schema comparison *)

Lemma list_eqb_eq (a b : list string) : P11b.list_eqb a b = true <-> a = b.
Proof.
  unfold P11b.list_eqb. destruct (list_eq_dec string_dec a b); split;
    auto; discriminate.
Qed.

Lemma shape_eqb_eq (a b : nat * nat) :
  P11b.shape_eqb a b = true <-> fst a = fst b /\ snd a = snd b.
Proof.
  unfold P11b.shape_eqb. now rewrite andb_true_iff, !Nat.eqb_eq.
Qed.

Lemma confirm_cases (H : Host) (ts : string) (w : world)
      (df_csv df_pq : DataFrame) :
  lookup P11b.CSV_PATH (files w) = Some (Csv df_csv) ->
  lookup P11b.PARQUET_PATH (files w) = Some (Parquet df_pq) ->
  P11b.main H ts w = (Ok 0, snd (confirmed H ts df_csv df_pq w)).
Proof.
  intros Hc Hp.
  unfold P11b.main, bind, path_exists, read_csv, read_parquet, write_file, ret.
  rewrite Hc. cbn [negb fst snd files trace]. rewrite Hp.
  cbn [negb fst snd files trace]. rewrite Hc, Hp. reflexivity.
Qed.

(** C6.  When both encodings load, P1.1b ends with exit status 0 and the
    summary it writes records the two verdicts: [same_shape] is true exactly
    when the row counts and the column counts both agree, [same_columns]
    exactly when the column labels are the same list in the same order.  A
    false verdict changes neither the exit status nor the files written. *)
Theorem C6_schema_verdicts :
  forall (H : Host) (ts : string) (w : world) (df_csv df_pq : DataFrame),
    lookup P11b.CSV_PATH (files w) = Some (Csv df_csv) ->
    lookup P11b.PARQUET_PATH (files w) = Some (Parquet df_pq) ->
    exists s w',
      P11b.main H ts w = (Ok 0, w') /\
      lookup P11b.OUT_TXT (files w') = Some (SummaryText s) /\
      written (trace w') =
        written (trace w) ++ [P11b.OUT_SCHEMA; P11b.OUT_TXT] /\
      (sum_same_shape s = true <->
       List.length (rows df_csv) = List.length (rows df_pq) /\
       List.length (columns df_csv) = List.length (columns df_pq)) /\
      (sum_same_cols s = true <-> columns df_csv = columns df_pq).
Proof.
  intros H ts w df_csv df_pq Hc Hp.
  exists (fst (confirmed H ts df_csv df_pq w)),
         (snd (confirmed H ts df_csv df_pq w)).
  split; [now apply confirm_cases|].
  split; [apply lookup_head|]. split.
  - cbn [confirmed snd trace]. rewrite !written_app, <- app_assoc. reflexivity.
  - split.
    + cbn [confirmed fst sum_same_shape]. apply shape_eqb_eq.
    + cbn [confirmed fst sum_same_cols]. apply list_eqb_eq.
Qed.

(** Two encodings of equal shape with one column renamed: exit status 0,
    [same_shape] true and [same_columns] false in the summary. *)
Lemma C6_witness :
  exists s w',
    P11b.main quiet_host "2025-01-01T00:00:00" encodings_world = (Ok 0, w') /\
    lookup P11b.OUT_TXT (files w') = Some (SummaryText s) /\
    sum_same_shape s = true /\
    sum_same_cols s = false.
Proof.
  destruct (C6_schema_verdicts quiet_host "2025-01-01T00:00:00" encodings_world
              (df_csv := csv_frame) (df_pq := pq_frame) eq_refl eq_refl)
    as (s & w' & Hrun & Hout & _ & Hshape & Hcols).
  exists s, w'. split; [exact Hrun|]. split; [exact Hout|]. split.
  - apply Hshape. split; reflexivity.
  - destruct (sum_same_cols s); [|reflexivity].
    assert (Heq : columns csv_frame = columns pq_frame) by now apply Hcols.
    discriminate Heq.
Defined.

(* ================================================================== *)
(** ** C7: the range flags *)

Lemma Qltb_lt (a b : Q) : XIV.Qltb a b = true <-> (a < b)%Q.
Proof.
  unfold XIV.Qltb. rewrite negb_true_iff. split.
  - intros H. apply Qnot_le_lt. intros Hle.
    apply Qle_bool_iff in Hle. congruence.
  - intros H. destruct (Qle_bool b a) eqn:Hle; [|reflexivity].
    apply Qle_bool_iff in Hle. exfalso. now apply (Qlt_not_le a b).
Qed.

Lemma lt_opt_true (a b : option Q) :
  XIV.lt_opt a b = Some true <->
  exists x y, a = Some x /\ b = Some y /\ (x < y)%Q.
Proof.
  destruct a as [x|], b as [y|]; simpl.
  - split.
    + intros [= H]. apply Qltb_lt in H. now exists x, y.
    + intros (x' & y' & [= <-] & [= <-] & H). f_equal. now apply Qltb_lt.
  - split; [discriminate|]. intros (? & ? & _ & [=] & _).
  - split; [discriminate|]. intros (? & ? & [=] & _).
  - split; [discriminate|]. intros (? & ? & [=] & _).
Qed.


Lemma range_rows_ranges (S : Stats) (df : DataFrame) :
  map XIV.range (XIV.range_rows S df) =
  map (fun c => XIV.sub_opt (XIV.col_max c df) (XIV.col_min c df))
      (XIV.num_cols df).
Proof.
  unfold XIV.range_rows. rewrite !map_map. reflexivity.
Qed.

Lemma range_rows_in (S : Stats) (df : DataFrame) (r : XIV.RangeRow) :
  In r (XIV.range_rows S df) ->
  In (XIV.coluna r) (XIV.num_cols df) /\
  XIV.min r = XIV.col_min (XIV.coluna r) df /\
  XIV.max r = XIV.col_max (XIV.coluna r) df /\
  XIV.range r = XIV.sub_opt (XIV.max r) (XIV.min r) /\
  XIV.flag_invertido r = XIV.lt_opt (XIV.max r) (XIV.min r) /\
  XIV.flag_range_muito_alto r =
    XIV.high_flag
      (series_quantile S (95 # 100)%Q (map XIV.range (XIV.range_rows S df)))
      (XIV.range r).
Proof.
  rewrite range_rows_ranges. unfold XIV.range_rows.
  rewrite map_map. intros Hin. apply in_map_iff in Hin.
  destruct Hin as (c & <- & Hc). cbn.
  rewrite map_map. cbn. auto 10.
Qed.

Lemma pickQ_ordered (a b t : option Q) :
  bounds_ordered a b ->
  bounds_ordered (XIV.pickQ XIV.Qlower a t) (XIV.pickQ XIV.Qupper b t).
Proof.
  destruct a as [x|], b as [y|], t as [v|]; simpl; try tauto.
  - unfold XIV.Qlower, XIV.Qupper. intros Hxy.
    destruct (Qle_bool x v) eqn:H1, (Qle_bool y v) eqn:H2;
      try apply Qle_bool_iff in H1; try apply Qle_bool_iff in H2; try lra.
    assert (H3 : ~ (x <= v)%Q)
      by (intros H; apply Qle_bool_iff in H; congruence).
    lra.
  - intros _. lra.
Qed.

Lemma folds_ordered (l : list (option Q)) (a b : option Q) :
  bounds_ordered a b ->
  bounds_ordered (fold_left (XIV.pickQ XIV.Qlower) l a)
                 (fold_left (XIV.pickQ XIV.Qupper) l b).
Proof.
  revert a b. induction l as [|t l IH]; intros a b Hab; [exact Hab|].
  simpl. apply IH. now apply pickQ_ordered.
Qed.

(** The computed maximum is never below the computed minimum, so
    [flag_invertido] is never true on a row of the table. *)
Lemma range_rows_never_inverted (S : Stats) (df : DataFrame) (r : XIV.RangeRow) :
  In r (XIV.range_rows S df) -> XIV.flag_invertido r <> Some true.
Proof.
  intros Hin. destruct (range_rows_in _ _ _ Hin) as (_ & Hmin & Hmax & _ & Hinv & _).
  rewrite Hinv. intros Hflag. apply lt_opt_true in Hflag.
  destruct Hflag as (mx & mn & Hx & Hn & Hlt).
  pose proof (@folds_ordered (map XIV.num_of_cell (XIV.column_of (XIV.coluna r) df))
                             None None I) as Hord.
  fold (XIV.col_min (XIV.coluna r) df) in Hord.
  fold (XIV.col_max (XIV.coluna r) df) in Hord.
  rewrite <- Hmin, <- Hmax, Hx, Hn in Hord. simpl in Hord. lra.
Qed.



(* ================================================================== *)
(** ** The run of item xiv *)

Lemma written_writes (ps : list string) : written (map EvWrite ps) = ps.
Proof. induction ps as [|p ps IH]; simpl; congruence. Qed.

Lemma histograms_ok (H : Host) (out : string) (cols : list string) (w : world) :
  exists logs w',
    XIV.histograms H out cols w = (Ok (hist_names H cols, logs), w') /\
    trace w' =
      trace w ++ map EvWrite (map (joinpath out) (hist_names H cols)).
Proof.
  revert w. induction cols as [|c cols IH]; intros w.
  - exists [], w. split; [reflexivity|]. simpl. now rewrite app_nil_r.
  - cbn [XIV.histograms]. unfold hist_names. cbn [map filter].
    fold (hist_names H cols).
    destruct (plot_ok H ("hist_" ++ c ++ ".png")).
    + set (p := out // ("hist_" ++ c ++ ".png")%string).
      destruct (IH (mkWorld ((p, Png c) :: files w) (trace w ++ [EvWrite p])))
        as (logs & w' & Hrun & Hw).
      exists logs, w'. unfold bind, write_file. fold p. rewrite Hrun.
      split; [reflexivity|].
      rewrite Hw. cbn [trace map]. now rewrite <- app_assoc.
    + destruct (IH w) as (logs & w' & Hrun & Hw).
      exists (LogPlotFailed c :: logs), w'. unfold bind. rewrite Hrun.
      split; [reflexivity|exact Hw].
Qed.

Lemma save_figures_ok (H : Host) (df : DataFrame) (out : string) (w : world) :
  exists logs w',
    XIV.save_figures H df out w = (Ok (figure_names H df, logs), w') /\
    trace w' =
      trace w ++ map EvWrite (map (joinpath out) (figure_names H df)) /\
    (XIV.num_cols df = [] -> logs = [LogNoNumericFigures] /\ w' = w).
Proof.
  unfold XIV.save_figures, figure_names.
  destruct (XIV.num_cols df) as [|c cols] eqn:Hn.
  - exists [LogNoNumericFigures], w. split; [reflexivity|].
    split; [simpl; now rewrite app_nil_r|now split].
  - destruct (histograms_ok H out (firstn 4 (c :: cols)) w)
      as (logs & w1 & Hrun & Hw).
    unfold bind at 1. rewrite Hrun. cbn [fst snd].
    destruct (plot_ok H "boxplot_primeiras_colunas.png").
    + eexists logs, _. split; [reflexivity|]. split; [|discriminate].
      cbn [trace]. rewrite Hw, !map_app. cbn [map].
      now rewrite <- app_assoc.
    + rewrite app_nil_r. eexists _, w1. split; [reflexivity|].
      split; [exact Hw|discriminate].
Qed.

Lemma bind_path_exists {B : Type} (p : string) (k : bool -> M B) (w : world) :
  (b <- path_exists p ;; k b) w = k (present w p) w.
Proof. reflexivity. Qed.

Lemma bind_read_parquet {B : Type} (p : string) (k : DataFrame -> M B)
      (w : world) (df : DataFrame) :
  lookup p (files w) = Some (Parquet df) ->
  (x <- read_parquet p ;; k x) w = k df w.
Proof. intros Hf. unfold bind, read_parquet. now rewrite Hf. Qed.

Lemma bind_write_file {B : Type} (p : string) (a : artifact) (k : M B)
      (w : world) :
  (write_file p a ;; k) w =
  k (mkWorld ((p, a) :: files w) (trace w ++ [EvWrite p])).
Proof. reflexivity. Qed.

Lemma bind_lift_ok {A B : Type} (v : A) (k : A -> M B) (w : world) :
  (x <- XIV.lift (Ok v) ;; k x) w = k v w.
Proof. reflexivity. Qed.

Lemma bind_write_if_rows {B : Type} (t : DataFrame) (p : string)
      (absent : log_line) (k : option string * log_line -> M B) (w : world) :
  (x <- XIV.write_if_rows t p absent ;; k x) w =
  if 0 <? len t
  then k (Some p, LogGenerated p)
         (mkWorld ((p, Csv t) :: files w) (trace w ++ [EvWrite p]))
  else k (None, absent) w.
Proof.
  unfold XIV.write_if_rows. destruct (0 <? len t); reflexivity.
Qed.

(** A run of item xiv whose input loads and whose statistical calls do not
    raise: exit status, trace, and the two files written last. *)
Lemma xiv_main_ok (S : Stats) (H : Host) (cfg : XIV.Config) (now : datetime)
      (w : world) (df desc qdf : DataFrame) :
  lookup (XIV.parquet_path cfg) (files w) = Some (Parquet df) ->
  XIV.numeric_describe S df = Ok desc ->
  XIV.numeric_quantiles S df XIV.default_qs = Ok qdf ->
  exists flog m fs w',
    XIV.main S H cfg now w = (Ok 0, w') /\
    trace w' =
      trace w ++ map EvWrite (run_paths S H (XIV.outdir cfg)
                                        (strftime_run_id now) df desc qdf) /\
    files w' =
      (log_path (XIV.outdir cfg) (strftime_run_id now),
       LogText (run_log S H cfg (strftime_run_id now) df desc qdf flog))
        :: (meta_path (XIV.outdir cfg) (strftime_run_id now), MetaJson m)
        :: fs /\
    describe_csv (meta_outputs m) =
      (if 0 <? len desc
       then Some (describe_path (XIV.outdir cfg) (strftime_run_id now))
       else None) /\
    quantis_csv (meta_outputs m) =
      (if 0 <? len qdf
       then Some (quantis_path (XIV.outdir cfg) (strftime_run_id now))
       else None) /\
    ranges_csv (meta_outputs m) =
      (if 0 <? len (XIV.range_flags S df)
       then Some (ranges_path (XIV.outdir cfg) (strftime_run_id now))
       else None) /\
    (XIV.num_cols df = [] -> flog = [LogNoNumericFigures]).
Proof.
  intros Hf Hd Hq.
  destruct (XIV.main S H cfg now w) as [r w'] eqn:Hmain.
  unfold XIV.main in Hmain. cbv zeta in Hmain.
  rewrite !bind_path_exists in Hmain.
  assert (Hp : present w (XIV.parquet_path cfg) = true)
    by (unfold present; now rewrite Hf).
  rewrite Hp in Hmain. cbn [negb] in Hmain.
  rewrite (bind_read_parquet _ _ _ Hf) in Hmain.
  rewrite !bind_write_file in Hmain.
  rewrite Hd, bind_lift_ok, bind_write_if_rows in Hmain.
  unfold run_paths, run_log, if_rows, absent_or.
  fold (describe_path (XIV.outdir cfg) (strftime_run_id now)) in Hmain.
  fold (quantis_path (XIV.outdir cfg) (strftime_run_id now)) in Hmain.
  fold (ranges_path (XIV.outdir cfg) (strftime_run_id now)) in Hmain.
  fold (schema_path (XIV.outdir cfg) (strftime_run_id now)) in Hmain.
  fold (dup_path (XIV.outdir cfg) (strftime_run_id now)) in Hmain.
  fold (meta_path (XIV.outdir cfg) (strftime_run_id now)) in Hmain.
  fold (log_path (XIV.outdir cfg) (strftime_run_id now)) in Hmain.
  destruct (0 <? len desc);
    rewrite Hq, bind_lift_ok, bind_write_if_rows in Hmain;
    destruct (0 <? len qdf);
    rewrite bind_write_if_rows in Hmain;
    destruct (0 <? len (XIV.range_flags S df));
    unfold bind at 1 in Hmain;
    match type of Hmain with
    | context [XIV.save_figures H df ?o ?W] =>
        destruct (save_figures_ok H df o W) as (flog & w1 & Hsf & Ht & Hl);
        rewrite Hsf in Hmain
    end;
    rewrite !bind_write_file in Hmain;
    unfold ret in Hmain; injection Hmain as <- <-;
    exists flog; eexists; eexists; eexists;
    (split; [reflexivity|]);
    (split; [cbn [trace fst snd]; rewrite Ht; cbn [trace];
             fold (figure_path (XIV.outdir cfg));
             rewrite ?map_app; cbn [map app];
             rewrite <- ?app_assoc; cbn [app]; reflexivity|]);
    (split; [cbn [files fst snd]; reflexivity|]);
    cbn [meta_outputs describe_csv quantis_csv ranges_csv fst snd];
    repeat (split; [reflexivity|]);
    intros Hn; now apply Hl.
Qed.

(* ================================================================== *)
(** ** C9: a table without numeric columns *)

Ltac find_in :=
  match goal with
  | |- _ \/ _ => (left; find_in) || (right; find_in)
  | |- _ = _ => reflexivity
  end.

(** C9.  When no column of the table is numeric, the descriptive
    statistics, the quantile table and the range flags are each the empty
    frame, whatever the engine would do when called (none of them reaches
    it); a run of item xiv on such a table ends with exit status 0, writes
    only the schema, the duplicates report, the metadata and the log, records
    no path for the three profiling tables, and logs their absence. *)
Theorem C9_no_numeric_columns :
  forall (S : Stats) (df : DataFrame),
    XIV.num_cols df = [] ->
    XIV.numeric_describe S df = Ok empty_frame /\
    (forall qs, XIV.numeric_quantiles S df qs = Ok empty_frame) /\
    XIV.range_flags S df = empty_frame /\
    forall (H : Host) (cfg : XIV.Config) (now : datetime) (w : world),
      lookup (XIV.parquet_path cfg) (files w) = Some (Parquet df) ->
      exists m fs w',
        XIV.main S H cfg now w = (Ok 0, w') /\
        written (trace w') =
          written (trace w) ++
          [ schema_path (XIV.outdir cfg) (strftime_run_id now);
            dup_path (XIV.outdir cfg) (strftime_run_id now);
            meta_path (XIV.outdir cfg) (strftime_run_id now);
            log_path (XIV.outdir cfg) (strftime_run_id now) ] /\
        files w' =
          (log_path (XIV.outdir cfg) (strftime_run_id now),
           LogText (run_log S H cfg (strftime_run_id now) df
                            empty_frame empty_frame [LogNoNumericFigures]))
            :: (meta_path (XIV.outdir cfg) (strftime_run_id now), MetaJson m)
            :: fs /\
        In LogNoNumericDescribe
           (run_log S H cfg (strftime_run_id now) df
                    empty_frame empty_frame [LogNoNumericFigures]) /\
        In LogNoNumericQuantiles
           (run_log S H cfg (strftime_run_id now) df
                    empty_frame empty_frame [LogNoNumericFigures]) /\
        In LogNoNumericRanges
           (run_log S H cfg (strftime_run_id now) df
                    empty_frame empty_frame [LogNoNumericFigures]) /\
        describe_csv (meta_outputs m) = None /\
        quantis_csv (meta_outputs m) = None /\
        ranges_csv (meta_outputs m) = None.
Proof.
  intros S df Hn.
  assert (Hd : XIV.numeric_describe S df = Ok empty_frame)
    by (unfold XIV.numeric_describe; now rewrite Hn).
  assert (Hq : forall qs, XIV.numeric_quantiles S df qs = Ok empty_frame)
    by (intros qs; unfold XIV.numeric_quantiles; now rewrite Hn).
  assert (Hr : XIV.range_flags S df = empty_frame)
    by (unfold XIV.range_flags; now rewrite Hn).
  split; [exact Hd|]. split; [exact Hq|]. split; [exact Hr|].
  intros H cfg now w Hf.
  destruct (xiv_main_ok S H cfg now w Hf Hd (Hq XIV.default_qs))
    as (flog & m & fs & w' & Hrun & Ht & Hfiles & Hdc & Hqc & Hrc & Hl).
  rewrite (Hl Hn) in Hfiles. rewrite Hr in Hrc.
  exists m, fs, w'. split; [exact Hrun|]. split.
  - rewrite Ht, written_app, written_writes. f_equal.
    unfold run_paths, figure_names, if_rows. rewrite Hn, Hr. reflexivity.
  - split; [exact Hfiles|].
    change (0 <? len empty_frame) with false in Hdc, Hqc, Hrc.
    unfold run_log, absent_or. rewrite Hr.
    change (0 <? len empty_frame) with false. cbv iota.
    repeat split; try assumption;
      rewrite !in_app_iff; cbn [In]; find_in.
Qed.

(** A table of labels and timestamps on an engine where every statistical
    call raises: the profile is empty and the run ends with status 0. *)
Lemma C9_witness :
  XIV.numeric_describe raising_stats labels_frame = Ok empty_frame /\
  XIV.numeric_quantiles raising_stats labels_frame XIV.default_qs
  = Ok empty_frame /\
  XIV.range_flags raising_stats labels_frame = empty_frame /\
  fst (XIV.main raising_stats quiet_host labels_config
                (mkDatetime 2025 3 9 14 5 7 120) labels_world) = Ok 0.
Proof.
  assert (Hn : XIV.num_cols labels_frame = []) by reflexivity.
  destruct (@C9_no_numeric_columns raising_stats labels_frame Hn)
    as (Hd & Hq & Hr & Hmain).
  split; [exact Hd|]. split; [apply Hq|]. split; [exact Hr|].
  destruct (Hmain quiet_host labels_config (mkDatetime 2025 3 9 14 5 7 120)
                  labels_world eq_refl)
    as (m & fs & w' & Hrun & _).
  now rewrite Hrun.
Defined.

(* ================================================================== *)
(** ** C10: which columns are profiled *)

Lemma prefix_spec (t s : string) :
  String.prefix t s = true <-> exists post, s = (t ++ post)%string.
Proof.
  revert s. induction t as [|a t IH]; intros s.
  - split; [intros _; now exists s | intros _; destruct s; reflexivity].
  - destruct s as [|b s]; simpl.
    + split; [discriminate|]. intros (post & Hs). discriminate Hs.
    + destruct (ascii_dec a b) as [->|Hab].
      * rewrite IH. split.
        -- intros (post & ->). now exists post.
        -- intros (post & [= ->]). now exists post.
      * split; [discriminate|]. intros (post & [= Hb _]). congruence.
Qed.

Lemma contains_unfold (t s : string) :
  XIV.contains t s =
  if String.prefix t s then true
  else match s with
       | EmptyString => false
       | String _ s' => XIV.contains t s'
       end.
Proof. destruct s; reflexivity. Qed.

(** [contains] is Python's [t in s]. *)
Lemma contains_spec (t s : string) :
  XIV.contains t s = true <-> substring_of t s.
Proof.
  unfold substring_of. split.
  - induction s as [|c s IH]; rewrite contains_unfold;
      destruct (String.prefix t _) eqn:Hp.
    + intros _. apply prefix_spec in Hp. destruct Hp as (post & Hs).
      now exists "", post.
    + discriminate.
    + intros _. apply prefix_spec in Hp. destruct Hp as (post & Hs).
      now exists "", post.
    + intros Hc. destruct (IH Hc) as (pre & post & ->).
      now exists (String c pre), post.
  - intros (pre & post & ->). induction pre as [|c pre IH].
    + rewrite contains_unfold.
      assert (Hp : String.prefix t ("" ++ t ++ post) = true)
        by (apply prefix_spec; now exists post).
      now rewrite Hp.
    + rewrite contains_unfold.
      destruct (String.prefix t _); [reflexivity|exact IH].
Qed.

Lemma is_numeric_dtype_spec (s : string) :
  XIV.is_numeric_dtype s = true <->
  exists t, In t ["int"; "float"; "uint"; "decimal"] /\ substring_of t s.
Proof.
  unfold XIV.is_numeric_dtype. rewrite existsb_exists.
  split; intros (t & Ht & Hc); exists t; split; auto; now apply contains_spec.
Qed.

(** C10.  A column is among the numeric columns exactly when it is a column
    of the table and the rendering of its dtype has one of the substrings
    [int], [float], [uint], [decimal]; whatever else the dtype is.  The
    range-flags rows are those columns, in order, and the frames handed to
    [describe] and [quantile] have exactly those columns. *)
Theorem C10_numeric_by_dtype_substring :
  forall (S : Stats) (df : DataFrame),
    (forall c,
        In c (XIV.num_cols df) <->
        In c (columns df) /\
        exists t, In t ["int"; "float"; "uint"; "decimal"] /\
                  substring_of t (XIV.dtype_of c df))
    /\ map XIV.coluna (XIV.range_rows S df) = XIV.num_cols df
    /\ columns (XIV.select (XIV.num_cols df) df) = XIV.num_cols df
    /\ XIV.numeric_describe S df =
       match XIV.num_cols df with
       | [] => Ok empty_frame
       | _ :: _ =>
           match describe S (XIV.select (XIV.num_cols df) df) with
           | None => Raise (OtherError (EngineFailure "describe"))
           | Some desc => Ok (XIV.reset_index "estatistica" "object" desc)
           end
       end
    /\ (forall qs,
          XIV.numeric_quantiles S df qs =
          match XIV.num_cols df with
          | [] => Ok empty_frame
          | _ :: _ =>
              match quantile S qs (XIV.select (XIV.num_cols df) df) with
              | None => Raise (OtherError (EngineFailure "quantile"))
              | Some qdf =>
                  Ok (XIV.reset_index "quantil" "object"
                        (mkIndexed (map (fun c => Str (render S c)) (index qdf))
                                   (frame qdf)))
              end
          end).
Proof.
  intros S df. split; [|split; [|split; [|split]]].
  - intros c. unfold XIV.num_cols. rewrite filter_In.
    now rewrite is_numeric_dtype_spec.
  - unfold XIV.range_rows. rewrite !map_map. cbn. apply map_id.
  - reflexivity.
  - unfold XIV.numeric_describe. destruct (XIV.num_cols df); reflexivity.
  - intros qs. unfold XIV.numeric_quantiles.
    destruct (XIV.num_cols df); reflexivity.
Qed.

Example interval_dtype_is_profiled :
  XIV.is_numeric_dtype "interval[datetime64[ns], right]" = true /\
  XIV.is_numeric_dtype "uint8" = true /\
  XIV.is_numeric_dtype "datetime64[ns]" = false /\
  XIV.is_numeric_dtype "object" = false /\
  XIV.num_cols (mkDF ["span"; "station"]
                     ["interval[datetime64[ns], right]"; "object"] [])
  = ["span"].
Proof. repeat split. Qed.

(* ================================================================== *)
(** ** C8: where the evidence goes *)

Lemma append_assoc (a b c : string) :
  ((a ++ b) ++ c)%string = (a ++ (b ++ c))%string.
Proof. induction a as [|x a IH]; simpl; congruence. Qed.

Lemma append_inj_l (p a b : string) :
  (p ++ a)%string = (p ++ b)%string -> a = b.
Proof. induction p as [|x p IH]; simpl; [auto|]. intros [= H]. auto. Qed.

Lemma list_of_append (a b : string) :
  list_ascii_of_string (a ++ b) =
  (list_ascii_of_string a ++ list_ascii_of_string b)%list.
Proof. induction a as [|x a IH]; simpl; congruence. Qed.



(** Each keyed path is the output directory, a fixed text, the run
    identifier and a fixed extension. *)
Lemma keyed_paths_shape (o r : string) :
  keyed_paths o r =
  [ (o ++ "/logs/run_" ++ r ++ ".log")%string;
    (o ++ "/metadata/run_" ++ r ++ ".json")%string;
    (o ++ "/tabelas/schema_nulos_" ++ r ++ ".csv")%string;
    (o ++ "/tabelas/duplicatas_" ++ r ++ ".json")%string;
    (o ++ "/tabelas/describe_numerico_" ++ r ++ ".csv")%string;
    (o ++ "/tabelas/quantis_numericos_" ++ r ++ ".csv")%string;
    (o ++ "/tabelas/ranges_flags_" ++ r ++ ".csv")%string ].
Proof.
  unfold keyed_paths, log_path, meta_path, schema_path, dup_path,
    describe_path, quantis_path, ranges_path, joinpath.
  rewrite !append_assoc. reflexivity.
Qed.






Lemma length_append (a b : string) :
  String.length (a ++ b) = String.length a + String.length b.
Proof. induction a as [|x a IH]; simpl; congruence. Qed.

Lemma append_same_length (a a' b b' : string) :
  String.length a = String.length a' ->
  (a ++ b)%string = (a' ++ b')%string -> a = a' /\ b = b'.
Proof.
  revert a'. induction a as [|x a IH]; intros [|y a'] Hl H;
    try discriminate Hl.
  - now split.
  - simpl in Hl, H. injection Hl as Hl. injection H as -> H.
    destruct (IH a' Hl H) as [-> ->]. now split.
Qed.

Lemma digit_mod (n m : nat) : digit n = digit m -> n mod 10 = m mod 10.
Proof.
  unfold digit. intros H. apply (f_equal nat_of_ascii) in H.
  pose proof (Nat.mod_upper_bound n 10 ltac:(discriminate)).
  pose proof (Nat.mod_upper_bound m 10 ltac:(discriminate)).
  rewrite !nat_ascii_embedding in H by lia. lia.
Qed.

Lemma pad_length (w n : nat) : String.length (pad w n) = w.
Proof.
  revert n. induction w as [|w IH]; intros n; [reflexivity|].
  simpl. rewrite length_append, IH. simpl. lia.
Qed.

Lemma pad_mod (w n m : nat) : pad w n = pad w m -> n mod 10 ^ w = m mod 10 ^ w.
Proof.
  revert n m. induction w as [|w IH]; intros n m H.
  - reflexivity.
  - cbn [pad] in H. apply append_same_length in H;
      [|now rewrite !pad_length].
    destruct H as [Hhi Hlo]. injection Hlo as Hlo.
    apply IH in Hhi. apply digit_mod in Hlo.
    change (10 ^ S w) with (10 * 10 ^ w).
    rewrite !Nat.Div0.mod_mul_r, Hlo, Hhi. reflexivity.
Qed.

Lemma pad_inj (w n m : nat) :
  n < 10 ^ w -> m < 10 ^ w -> pad w n = pad w m -> n = m.
Proof.
  intros Hn Hm H. apply pad_mod in H.
  now rewrite !Nat.mod_small in H.
Qed.

(** Readings of the clock with the same run identifier are in the same
    second. *)
Lemma strftime_run_id_inj (a b : datetime) :
  calendar a -> calendar b ->
  strftime_run_id a = strftime_run_id b -> same_second a b.
Proof.
  intros (Ha1 & Ha2 & Ha3 & Ha4 & Ha5 & Ha6) (Hb1 & Hb2 & Hb3 & Hb4 & Hb5 & Hb6).
  unfold strftime_run_id. intros H.
  apply append_same_length in H; [|now rewrite !pad_length].
  destruct H as [Hy H].
  apply append_same_length in H; [|now rewrite !pad_length].
  destruct H as [Hmo H].
  apply append_same_length in H; [|now rewrite !pad_length].
  destruct H as [Hd H]. apply append_inj_l in H.
  apply append_same_length in H; [|now rewrite !pad_length].
  destruct H as [Hh H].
  apply append_same_length in H; [|now rewrite !pad_length].
  destruct H as [Hmi Hs].
  unfold same_second.
  change (100 * 100) with (10 ^ 4) in Ha1, Hb1.
  change 100 with (10 ^ 2) in Ha2, Ha3, Ha4, Ha5, Ha6, Hb2, Hb3, Hb4, Hb5, Hb6.
  repeat split; eapply pad_inj; eassumption.
Qed.

Lemma same_second_run_id (a b : datetime) :
  same_second a b -> strftime_run_id a = strftime_run_id b.
Proof.
  intros (Hy & Hmo & Hd & Hh & Hmi & Hs). unfold strftime_run_id.
  now rewrite Hy, Hmo, Hd, Hh, Hmi, Hs.
Qed.




(* ================================================================== *)
(** ** P1.5: what a run leaves behind *)

Lemma lookup_other (p q : string) (a : artifact) (fs : list (string * artifact)) :
  p <> q -> lookup p ((q, a) :: fs) = lookup p fs.
Proof.
  intros Hpq. simpl. destruct (String.eqb_spec p q); [contradiction|reflexivity].
Qed.

(** A run of P1.5 that ends well has written its output file and nothing
    else; a run that raises has written nothing.  In both cases every path
    other than the output holds what it held before. *)
Theorem P15_writes_only_on_success :
  forall (E : Engine) (args : P15.Args) (w w' : world) (r : result P15.Evidence),
    P15.main E args w = (r, w') ->
    match r with
    | Ok _ =>
        exists out,
          files w' = (P15.output args, Parquet out) :: files w /\
          written (trace w') = written (trace w) ++ [P15.output args]
    | Raise _ =>
        files w' = files w /\ written (trace w') = written (trace w)
    end /\
    forall p, p <> P15.output args -> lookup p (files w') = lookup p (files w).
Proof.
  intros E args w w' r. rewrite main_cases.
  destruct (lookup (P15.input args) (files w)) as [[df| | | | | |]|];
    try (intros [= <- <-]; split; [split|]; reflexivity).
  destruct (index_of (P15.date_col args) (columns df)) as [i|];
    [|intros [= <- <-]; split; [split|]; reflexivity].
  destruct (P15.converted E i df) as [df'|].
  - cbv zeta.
    destruct (0 <? sum_bool (isna (date_series i (rows df')))).
    + intros [= <- <-]. split; [split; [reflexivity|]|reflexivity].
      simpl. rewrite written_app. simpl. apply app_nil_r.
    + destruct (adjacent_check _).
      * intros [= <- <-]. split.
        -- eexists. split; [reflexivity|]. simpl.
           rewrite !written_app. simpl. now rewrite !app_nil_r.
        -- intros p Hp. simpl files. now apply lookup_other.
      * intros [= <- <-]. split; [split; [reflexivity|]|reflexivity].
        simpl. rewrite !written_app. simpl. now rewrite !app_nil_r.
  - intros [= <- <-]. split; [split; [reflexivity|]|reflexivity].
    simpl. rewrite written_app. simpl. apply app_nil_r.
Qed.

(** The sample table with a missing timestamp: the run raises and the
    files are those it found. *)
Lemma P15_writes_only_on_success_witness :
  files (snd (P15.main stable_engine sample_args null_world)) = files null_world.
Proof.
  destruct (P15.main stable_engine sample_args null_world) as [r w'] eqn:Hrun.
  pose proof (P15_writes_only_on_success _ _ _ Hrun) as [H _].
  destruct r as [ev|e].
  - vm_compute in Hrun. discriminate Hrun.
  - exact (proj1 H).
Defined.



(** The checks before the engine is used: a missing input file and a
    missing timestamp column are raised with the world as it was, no engine
    call made; a conversion that raises is reported after the single
    conversion call, with no sort call and no write. *)
Theorem P15_errors_before_the_sort :
  forall (E : Engine) (args : P15.Args) (w : world),
    (lookup (P15.input args) (files w) = None ->
     P15.main E args w =
     (Raise (FileNotFoundError (InputNotFound (P15.input args))), w))
    /\
    (forall df,
        lookup (P15.input args) (files w) = Some (Parquet df) ->
        has_column (P15.date_col args) df = false ->
        P15.main E args w =
        (Raise (KeyError (ColumnNotFound (P15.date_col args))), w))
    /\
    (forall df i,
        lookup (P15.input args) (files w) = Some (Parquet df) ->
        index_of (P15.date_col args) (columns df) = Some i ->
        to_datetime E (column_at i (rows df)) = None ->
        P15.main E args w =
        (Raise (RuntimeError (ConversionFailed (P15.date_col args))),
         after_convert (P15.date_col args) w)).
Proof.
  intros E args w. split; [|split].
  - intros Hf. now rewrite main_cases, Hf.
  - intros df Hf Hc. rewrite main_cases, Hf.
    assert (Hi : index_of (P15.date_col args) (columns df) = None).
    { unfold has_column in Hc. induction (columns df) as [|c cs IH];
        [reflexivity|].
      simpl in *. apply orb_false_iff in Hc. destruct Hc as [Hc1 Hc2].
      rewrite Hc1. now rewrite IH. }
    now rewrite Hi.
  - intros df i Hf Hi Hc. rewrite main_cases, Hf, Hi.
    unfold P15.converted. now rewrite Hc.
Qed.

(** A table without the timestamp column named in the arguments. *)
Lemma P15_errors_before_the_sort_witness :
  P15.main stable_engine (P15.mkArgs "in.parquet" "out.parquet" "when")
           sample_world
  = (Raise (KeyError (ColumnNotFound "when")), sample_world).
Proof.
  exact (proj1 (proj2 (P15_errors_before_the_sort
                         stable_engine
                         (P15.mkArgs "in.parquet" "out.parquet" "when")
                         sample_world))
               sample_frame eq_refl eq_refl).
Defined.

(** On a lawful engine a table with the timestamp column and no row is
    canonicalized without error: the output has no row and the evidence is
    NaT for both bounds and zero duplicates, before and after. *)
Theorem P15_empty_table :
  forall (E : Engine),
    Lawful E ->
    forall (args : P15.Args) (w : world) (df : DataFrame) (i : nat),
      lookup (P15.input args) (files w) = Some (Parquet df) ->
      index_of (P15.date_col args) (columns df) = Some i ->
      rows df = [] ->
      exists out w',
        P15.main E args w = (Ok (P15.mkEvidence None None 0 None None 0), w') /\
        lookup (P15.output args) (files w') = Some (Parquet out) /\
        columns out = columns df /\
        rows out = [].
Proof.
  intros E L args w df i Hf Hi Hr.
  assert (Hc : P15.converted E i df =
               Some (mkDF (columns df) (set_nth i "datetime64[ns]" (dtypes df)) [])).
  { unfold P15.converted. rewrite Hr.
    change (column_at i []) with (map cell_of_ts []).
    now rewrite to_datetime_temporal. }
  assert (Hs : forall d, rows d = [] -> rows (P15.sorted E i d) = []).
  { intros d Hd. simpl. rewrite Hd.
    apply Permutation_nil. apply Permutation_sym. apply sort_permutes. }
  set (df' := mkDF (columns df) (set_nth i "datetime64[ns]" (dtypes df)) []) in *.
  exists (P15.sorted E i df'), (after_write (P15.date_col args) (P15.output args)
                                            (P15.sorted E i df') w).
  split.
  - rewrite (main_after_gate _ _ _ Hf Hi Hc (Forall_nil _)).
    unfold evidence_of. rewrite (Hs df' eq_refl). reflexivity.
  - split; [apply lookup_head|]. split; [reflexivity|]. now apply Hs.
Qed.

Lemma P15_empty_table_witness :
  exists out w',
    P15.main stable_engine sample_args empty_world
    = (Ok (P15.mkEvidence None None 0 None None 0), w') /\
    lookup "out.parquet" (files w') = Some (Parquet out) /\
    rows out = [].
Proof.
  destruct (P15_empty_table stable_engine_lawful sample_args empty_world
                            (df := empty_table) (i := 0)
                            eq_refl eq_refl eq_refl)
    as (out & w' & Hrun & Hout & _ & Hrows).
  exists out, w'. auto.
Defined.

(* ================================================================== *)
(** ** The two monotonicity checks *)

(** A null timestamp cuts the series in two for the check of P1.5: the
    parts before and after it are checked on their own, and nothing relates
    the last timestamp before the null to the first one after it. *)
Theorem adjacent_check_null_splits :
  forall (s1 s2 : series),
    adjacent_check (s1 ++ None :: s2) = adjacent_check s1 && adjacent_check s2.
Proof.
  intros s1 s2. induction s1 as [|x [|y s1] IH].
  - simpl app. destruct s2 as [|z s2]; [reflexivity|].
    rewrite adjacent_check_cons. now destruct z.
  - simpl app. rewrite adjacent_check_cons. simpl in IH. rewrite IH.
    now destruct x.
  - change ((x :: y :: s1) ++ None :: s2) with (x :: y :: (s1 ++ None :: s2)).
    rewrite !adjacent_check_cons.
    change (y :: s1 ++ None :: s2) with ((y :: s1) ++ None :: s2).
    rewrite IH. now rewrite andb_assoc.
Qed.

(** The check of P1.6 is the check of P1.5 together with the absence of
    nulls. *)
Theorem is_monotonic_increasing_is_adjacent_check :
  forall (s : series),
    is_monotonic_increasing s = true <->
    adjacent_check s = true /\ sum_bool (isna s) = 0.
Proof.
  intros s. rewrite is_monotonic_increasing_spec, adjacent_check_spec,
    isna_count_zero. tauto.
Qed.

(* ================================================================== *)
(** ** P1.5: the output as a whole, and the evidence *)

Lemma no_nulls_values (s : series) :
  no_nulls s -> exists v, s = map Some v.
Proof.
  induction 1 as [|[x|] s Hx _ [v IH]].
  - now exists [].
  - exists (x :: v). simpl. now rewrite IH.
  - congruence.
Qed.

Lemma sorted_values (v : list Z) :
  Sorted key_le (map Some v) -> StronglySorted Z.le v.
Proof.
  intros Hs. apply Sorted_StronglySorted; [intros a b c; apply Z.le_trans|].
  induction v as [|x v IH]; [constructor|].
  simpl in Hs. inversion Hs as [|? ? Hs' Hhd]; subst.
  constructor; [now apply IH|].
  destruct v as [|y v]; constructor. now inversion Hhd.
Qed.

Lemma strongly_sorted_nth (v : list Z) :
  StronglySorted Z.le v ->
  forall j k a b,
    j < k -> nth_error v j = Some a -> nth_error v k = Some b -> (a <= b)%Z.
Proof.
  induction 1 as [|x v _ IH Hx]; intros j k a b Hjk Ha Hb.
  - destruct j; discriminate Ha.
  - destruct k as [|k]; [lia|]. simpl in Hb. destruct j as [|j].
    + simpl in Ha. injection Ha as <-. rewrite Forall_forall in Hx.
      apply Hx. eapply nth_error_In. exact Hb.
    + simpl in Ha. apply (IH j k); auto. lia.
Qed.

(** On a lawful engine the table P1.5 writes has no null timestamp and is
    in order as a whole: the timestamp of any row is at most that of any
    later row. *)
Theorem P15_output_sorted_throughout :
  forall (E : Engine),
    Lawful E ->
    forall (args : P15.Args) (w w' : world) (ev : P15.Evidence),
      P15.main E args w = (Ok ev, w') ->
      exists out i v,
        lookup (P15.output args) (files w') = Some (Parquet out) /\
        index_of (P15.date_col args) (columns out) = Some i /\
        date_series i (rows out) = map Some v /\
        forall j k a b,
          j < k -> nth_error v j = Some a -> nth_error v k = Some b ->
          (a <= b)%Z.
Proof.
  intros E L args w w' ev Hrun. apply main_ok_inv in Hrun.
  destruct Hrun as (df & i & df' & _ & Hi & Hc & Hn & _ & _ & ->).
  assert (Hn' : no_nulls (date_series i (rows (P15.sorted E i df')))).
  { simpl. eapply permuted_no_nulls; [apply sort_permutes|exact Hn]. }
  destruct (no_nulls_values Hn') as [v Hv].
  exists (P15.sorted E i df'), i, v.
  split; [apply lookup_head|]. split.
  - simpl. now rewrite (converted_columns _ _ _ Hc).
  - split; [exact Hv|]. apply strongly_sorted_nth, sorted_values.
    rewrite <- Hv. apply sorted_rows_keys. simpl. apply sort_ascending.
Qed.

Lemma P15_output_sorted_throughout_witness :
  exists ev w',
    P15.main reversing_engine sample_args sample_world = (Ok ev, w') /\
    exists out i v,
      lookup "out.parquet" (files w') = Some (Parquet out) /\
      index_of "date_time" (columns out) = Some i /\
      date_series i (rows out) = map Some v /\
      forall j k a b,
        j < k -> nth_error v j = Some a -> nth_error v k = Some b ->
        (a <= b)%Z.
Proof.
  destruct (P15.main reversing_engine sample_args sample_world)
    as [[ev|e] w'] eqn:Hrun.
  - exists ev, w'. split; [reflexivity|].
    exact (P15_output_sorted_throughout reversing_engine_lawful
                                        sample_args sample_world Hrun).
  - vm_compute in Hrun. discriminate Hrun.
Defined.

Lemma fold_min_spec (s : series) (acc : option Z) :
  match fold_left (pick Z.min) s acc with
  | Some m =>
      (acc = Some m \/ In (Some m) s) /\
      (forall a, acc = Some a -> (m <= a)%Z) /\
      (forall x, In (Some x) s -> (m <= x)%Z)
  | None => acc = None /\ forall t, In t s -> t = None
  end.
Proof.
  revert acc. induction s as [|t s IH]; intros acc.
  - simpl. destruct acc as [a|].
    + split; [now left|]. split; [intros ? [= <-]; lia|intros ? []].
    + split; [reflexivity|intros ? []].
  - simpl. specialize (IH (pick Z.min acc t)).
    destruct (fold_left (pick Z.min) s (pick Z.min acc t)) as [m|].
    + destruct IH as (Hin & Hacc & Hall).
      destruct acc as [a|], t as [x|]; simpl in *.
      * specialize (Hacc _ eq_refl). split; [|split].
        -- destruct Hin as [[= Hm]|Hin]; [|now right; right].
           destruct (Z.min_spec a x) as [[_ Hmin]|[_ Hmin]]; rewrite Hmin in Hm.
           ++ left. now subst.
           ++ right. left. now subst.
        -- intros a' [= <-]. lia.
        -- intros y [[= <-]|Hy]; [lia|now apply Hall].
      * split; [|split].
        -- destruct Hin as [Hin|Hin]; [now left|now right; right].
        -- exact Hacc.
        -- intros y [Hy|Hy]; [discriminate|now apply Hall].
      * specialize (Hacc _ eq_refl). split; [|split].
        -- destruct Hin as [[= ->]|Hin]; right; [now left|now right].
        -- discriminate.
        -- intros y [[= <-]|Hy]; [exact Hacc|now apply Hall].
      * split; [|split].
        -- destruct Hin as [Hin|Hin]; [discriminate|now right; right].
        -- discriminate.
        -- intros y [Hy|Hy]; [discriminate|now apply Hall].
    + destruct IH as (Hacc & Hall).
      destruct acc as [a|], t as [x|]; simpl in *; try discriminate.
      split; [reflexivity|]. intros t [<-|Ht]; [reflexivity|now apply Hall].
Qed.

Lemma fold_max_spec (s : series) (acc : option Z) :
  match fold_left (pick Z.max) s acc with
  | Some m =>
      (acc = Some m \/ In (Some m) s) /\
      (forall a, acc = Some a -> (a <= m)%Z) /\
      (forall x, In (Some x) s -> (x <= m)%Z)
  | None => acc = None /\ forall t, In t s -> t = None
  end.
Proof.
  revert acc. induction s as [|t s IH]; intros acc.
  - simpl. destruct acc as [a|].
    + split; [now left|]. split; [intros ? [= <-]; lia|intros ? []].
    + split; [reflexivity|intros ? []].
  - simpl. specialize (IH (pick Z.max acc t)).
    destruct (fold_left (pick Z.max) s (pick Z.max acc t)) as [m|].
    + destruct IH as (Hin & Hacc & Hall).
      destruct acc as [a|], t as [x|]; simpl in *.
      * specialize (Hacc _ eq_refl). split; [|split].
        -- destruct Hin as [[= Hm]|Hin]; [|now right; right].
           destruct (Z.max_spec a x) as [[_ Hmax]|[_ Hmax]]; rewrite Hmax in Hm.
           ++ right. left. now subst.
           ++ left. now subst.
        -- intros a' [= <-]. lia.
        -- intros y [[= <-]|Hy]; [lia|now apply Hall].
      * split; [|split].
        -- destruct Hin as [Hin|Hin]; [now left|now right; right].
        -- exact Hacc.
        -- intros y [Hy|Hy]; [discriminate|now apply Hall].
      * specialize (Hacc _ eq_refl). split; [|split].
        -- destruct Hin as [[= ->]|Hin]; right; [now left|now right].
        -- discriminate.
        -- intros y [[= <-]|Hy]; [exact Hacc|now apply Hall].
      * split; [|split].
        -- destruct Hin as [Hin|Hin]; [discriminate|now right; right].
        -- discriminate.
        -- intros y [Hy|Hy]; [discriminate|now apply Hall].
    + destruct IH as (Hacc & Hall).
      destruct acc as [a|], t as [x|]; simpl in *; try discriminate.
      split; [reflexivity|]. intros t [<-|Ht]; [reflexivity|now apply Hall].
Qed.

Lemma seen_In (t : option Z) (seen : list (option Z)) :
  existsb (ts_eqb t) seen = true <-> In t seen.
Proof.
  rewrite existsb_exists. split.
  - intros (x & Hx & Heq). apply ts_eqb_eq in Heq. now subst.
  - intros Hin. exists t. split; [exact Hin|]. now apply ts_eqb_eq.
Qed.

Lemma nodup_remove_length (t : option Z) (l : list (option Z)) :
  In t l ->
  List.length (nodup ts_dec l) = S (List.length (nodup ts_dec (remove ts_dec t l))).
Proof.
  induction l as [|x l IH]; [intros []|]. intros Hin.
  simpl remove. destruct (ts_dec t x) as [<-|Hne].
  - simpl nodup. destruct (in_dec ts_dec t l) as [Hl|Hl].
    + now apply IH.
    + simpl. now rewrite notin_remove.
  - destruct Hin as [->|Hin]; [congruence|]. simpl nodup.
    destruct (in_dec ts_dec x l) as [Hx|Hx];
      destruct (in_dec ts_dec x (remove ts_dec t l)) as [Hx'|Hx'].
    + now apply IH.
    + exfalso. apply Hx'. apply in_in_remove; congruence.
    + exfalso. apply Hx. now apply in_remove in Hx'.
    + simpl. f_equal. now apply IH.
Qed.

Lemma nodup_cons_length (t : option Z) (l : list (option Z)) :
  List.length (nodup ts_dec (t :: l)) =
  S (List.length (nodup ts_dec (remove ts_dec t l))).
Proof.
  simpl nodup. destruct (in_dec ts_dec t l) as [Hl|Hl].
  - now apply nodup_remove_length.
  - simpl. now rewrite notin_remove.
Qed.

Lemma filter_unseen_cons (t : option Z) (seen : list (option Z)) (s : series) :
  filter (fun u => negb (existsb (ts_eqb u) (t :: seen))) s =
  remove ts_dec t (filter (fun u => negb (existsb (ts_eqb u) seen)) s).
Proof.
  induction s as [|u s IH]; [reflexivity|].
  cbn [filter].
  change (existsb (ts_eqb u) (t :: seen))
    with (ts_eqb u t || existsb (ts_eqb u) seen).
  destruct (ts_eqb u t) eqn:Hut; cbn [orb negb].
  - apply ts_eqb_eq in Hut. subst u.
    destruct (existsb (ts_eqb t) seen); cbn [negb]; [exact IH|].
    cbn [remove]. destruct (ts_dec t t); [exact IH|congruence].
  - destruct (existsb (ts_eqb u) seen); cbn [negb]; [exact IH|].
    cbn [remove]. destruct (ts_dec t u) as [->|_].
    + rewrite (proj2 (ts_eqb_eq u u) eq_refl) in Hut. discriminate.
    + now rewrite IH.
Qed.

Lemma duplicated_from_count (s : series) (seen : list (option Z)) :
  sum_bool (duplicated_from seen s)
  + distinct (filter (fun u => negb (existsb (ts_eqb u) seen)) s)
  = List.length s.
Proof.
  unfold distinct. revert seen. induction s as [|t s IH]; intros seen;
    [reflexivity|].
  cbn [duplicated_from filter List.length].
  destruct (existsb (ts_eqb t) seen) eqn:Hseen; cbn [negb].
  - change (sum_bool (true :: duplicated_from seen s))
      with (S (sum_bool (duplicated_from seen s))).
    cbn [Nat.add]. now rewrite IH.
  - change (sum_bool (false :: duplicated_from (t :: seen) s))
      with (sum_bool (duplicated_from (t :: seen) s)).
    rewrite nodup_cons_length, <- filter_unseen_cons, Nat.add_succ_r.
    now rewrite IH.
Qed.

(** The duplicate count of [duplicated(subset=[col])] is the number of rows
    minus the number of distinct timestamps. *)
Lemma duplicated_count (s : series) :
  sum_bool (duplicated s) + distinct s = List.length s.
Proof.
  assert (Hf : filter (fun u => negb (existsb (ts_eqb u) [])) s = s).
  { induction s as [|t s IH]; [reflexivity|].
    simpl. f_equal. exact IH. }
  unfold duplicated. pose proof (duplicated_from_count s []) as H.
  now rewrite Hf in H.
Qed.

(** The evidence a successful run of P1.5 records before the sort, for any
    engine.  On a table without rows both bounds are NaT; otherwise the
    minimum and the maximum are timestamps of the table that bound every
    timestamp of it.  The duplicate count is the number of rows less the
    number of distinct timestamps. *)
Theorem P15_evidence_meaning :
  forall (E : Engine) (args : P15.Args) (w w' : world) (ev : P15.Evidence),
    P15.main E args w = (Ok ev, w') ->
    exists df i df',
      lookup (P15.input args) (files w) = Some (Parquet df) /\
      index_of (P15.date_col args) (columns df) = Some i /\
      P15.converted E i df = Some df' /\
      (rows df' = [] -> P15.dt_min ev = None /\ P15.dt_max ev = None) /\
      (rows df' <> [] ->
       exists lo hi,
         P15.dt_min ev = Some lo /\ P15.dt_max ev = Some hi /\
         In (Some lo) (date_series i (rows df')) /\
         In (Some hi) (date_series i (rows df')) /\
         forall x, In (Some x) (date_series i (rows df')) ->
                   (lo <= x <= hi)%Z) /\
      P15.dup_count ev + distinct (date_series i (rows df'))
      = List.length (rows df').
Proof.
  intros E args w w' ev Hrun. apply main_ok_inv in Hrun.
  destruct Hrun as (df & i & df' & Hf & Hi & Hc & Hn & _ & -> & _).
  exists df, i, df'. split; [exact Hf|]. split; [exact Hi|].
  split; [exact Hc|]. cbn [evidence_of P15.dt_min P15.dt_max P15.dup_count].
  split; [|split].
  - intros Hr. rewrite Hr. split; reflexivity.
  - intros Hr.
    pose proof (fold_min_spec (date_series i (rows df')) None) as Hmin.
    pose proof (fold_max_spec (date_series i (rows df')) None) as Hmax.
    fold (series_min (date_series i (rows df'))) in Hmin.
    fold (series_max (date_series i (rows df'))) in Hmax.
    assert (Hsome : exists r t, In t (date_series i (rows df')) /\ t = Some r).
    { destruct (rows df') as [|r0 rs] eqn:Hrows; [congruence|].
      simpl in Hn. inversion Hn as [|? ? Hk _]; subst.
      destruct (key i r0) as [z|] eqn:Hz; [|congruence].
      exists z, (Some z). split; [|reflexivity]. simpl. rewrite Hz. now left. }
    destruct Hsome as (z & t & Hin & ->).
    destruct (series_min (date_series i (rows df'))) as [lo|].
    2:{ destruct Hmin as [_ Hall]. specialize (Hall _ Hin). discriminate. }
    destruct (series_max (date_series i (rows df'))) as [hi|].
    2:{ destruct Hmax as [_ Hall]. specialize (Hall _ Hin). discriminate. }
    destruct Hmin as ([Hm|Hm] & _ & Hlo); [discriminate|].
    destruct Hmax as ([Hx|Hx] & _ & Hhi); [discriminate|].
    exists lo, hi. repeat split; auto.
  - rewrite duplicated_count. unfold date_series. apply length_map.
Qed.

Lemma P15_evidence_meaning_witness :
  exists ev w',
    P15.main stable_engine sample_args sample_world = (Ok ev, w') /\
    exists df i df',
      lookup "in.parquet" (files sample_world) = Some (Parquet df) /\
      index_of "date_time" (columns df) = Some i /\
      P15.converted stable_engine i df = Some df' /\
      (rows df' = [] -> P15.dt_min ev = None /\ P15.dt_max ev = None) /\
      (rows df' <> [] ->
       exists lo hi,
         P15.dt_min ev = Some lo /\ P15.dt_max ev = Some hi /\
         In (Some lo) (date_series i (rows df')) /\
         In (Some hi) (date_series i (rows df')) /\
         forall x, In (Some x) (date_series i (rows df')) ->
                   (lo <= x <= hi)%Z) /\
      P15.dup_count ev + distinct (date_series i (rows df'))
      = List.length (rows df').
Proof.
  destruct (P15.main stable_engine sample_args sample_world)
    as [[ev|e] w'] eqn:Hrun.
  - exists ev, w'. split; [reflexivity|].
    exact (P15_evidence_meaning _ _ _ Hrun).
  - vm_compute in Hrun. discriminate Hrun.
Defined.

(* ================================================================== *)
(** ** P1.6: the input it picks and what it leaves behind *)

Lemma find_first {A : Type} (f : A -> bool) (l : list A) :
  match find f l with
  | Some x =>
      exists pre post,
        l = pre ++ x :: post /\ f x = true /\ Forall (fun y => f y = false) pre
  | None => Forall (fun y => f y = false) l
  end.
Proof.
  induction l as [|a l IH]; simpl; [constructor|].
  destruct (f a) eqn:Ha.
  - exists [], l. repeat split; auto.
  - destruct (find f l) as [x|].
    + destruct IH as (pre & post & -> & Hx & Hpre).
      exists (a :: pre), post. repeat split; auto.
    + constructor; assumption.
Qed.

(** The candidate P1.6 reads is the first one, in the order of the list,
    that exists: every candidate before it is absent.  No candidate is
    chosen exactly when none exists.  Looking changes nothing. *)
Theorem first_existing_priority :
  forall (ps : list string) (w : world),
    exists r,
      P16.first_existing ps w = (Ok r, w) /\
      match r with
      | Some p =>
          exists pre post,
            ps = pre ++ p :: post /\
            present w p = true /\
            Forall (fun q => present w q = false) pre
      | None => Forall (fun q => present w q = false) ps
      end.
Proof.
  intros ps w. exists (find (present w) ps).
  split; [apply first_existing_find|apply find_first].
Qed.

Lemma candidate_is_not_output (p : string) :
  In p P16.CANDIDATOS_INPUT -> p <> P16.OUTPUT_PARQUET.
Proof.
  intros Hin Heq. subst p. vm_compute in Hin.
  repeat (destruct Hin as [Hin|Hin]; [discriminate Hin|]). exact Hin.
Qed.



(** The errors of P1.6 before the sort: when no candidate exists the run
    raises FileNotFoundError listing the candidates; when the file read has
    no [date_time] column it raises KeyError.  Neither calls the engine. *)
Theorem P16_errors_before_the_sort :
  forall (E : Engine) (w : world),
    (Forall (fun q => present w q = false) P16.CANDIDATOS_INPUT ->
     P16.script E w =
     (Raise (FileNotFoundError (P15OutputNotFound P16.CANDIDATOS_INPUT)), w))
    /\
    (forall p df,
        find (present w) P16.CANDIDATOS_INPUT = Some p ->
        lookup p (files w) = Some (Parquet df) ->
        has_column "date_time" df = false ->
        P16.script E w = (Raise (KeyError DateTimeAbsent), w)).
Proof.
  intros E w. split.
  - intros Hall. rewrite script_cases.
    destruct (find (present w) P16.CANDIDATOS_INPUT) as [p|] eqn:Hfind;
      [|reflexivity].
    apply find_some in Hfind. destruct Hfind as [Hin Hp].
    rewrite Forall_forall in Hall. rewrite (Hall _ Hin) in Hp. discriminate.
  - intros p df Hfind Hf Hc. rewrite script_cases, Hfind, Hf.
    assert (Hi : index_of "date_time" (columns df) = None).
    { unfold has_column in Hc. induction (columns df) as [|c cs IH];
        [reflexivity|].
      simpl in *. apply orb_false_iff in Hc. destruct Hc as [Hc1 Hc2].
      rewrite Hc1. now rewrite IH. }
    now rewrite Hi.
Qed.

Lemma P16_errors_before_the_sort_witness :
  P16.script stable_engine sample_world =
  (Raise (FileNotFoundError (P15OutputNotFound P16.CANDIDATOS_INPUT)),
   sample_world).
Proof.
  apply (proj1 (P16_errors_before_the_sort stable_engine sample_world)).
  repeat constructor.
Defined.



(* ================================================================== *)
(** ** P1.5 followed by P1.6 *)

(** On a lawful engine, when P1.5 is run on the column [date_time] with the
    first candidate of P1.6 as its output and ends well, P1.6 run next ends
    well too: it reads that file, and the master file it writes has the same
    columns, the same rows in some order and the same timestamp column
    position by position.  The file P1.5 wrote is still there. *)
Theorem P15_then_P16 :
  forall (E : Engine),
    Lawful E ->
    forall (args : P15.Args) (w w1 : world) (ev : P15.Evidence),
      P15.output args
      = P16.DATA_DIR // "dataset_meteorologico_p1_5_ordenado.parquet" ->
      P15.date_col args = "date_time" ->
      P15.main E args w = (Ok ev, w1) ->
      exists out master i w2,
        lookup (P15.output args) (files w1) = Some (Parquet out) /\
        index_of "date_time" (columns out) = Some i /\
        P16.script E w1 = (Ok tt, w2) /\
        lookup P16.OUTPUT_PARQUET (files w2) = Some (Parquet master) /\
        lookup (P15.output args) (files w2) = Some (Parquet out) /\
        columns master = columns out /\
        Permutation (rows master) (rows out) /\
        date_series i (rows master) = date_series i (rows out).
Proof.
  intros E L args w w1 ev Hout Hcol Hrun. apply main_ok_inv in Hrun.
  destruct Hrun as (df & i & df' & _ & Hi & Hc & Hn & Hm & _ & ->).
  set (out := P15.sorted E i df') in *.
  assert (Hn' : no_nulls (date_series i (rows out))).
  { simpl. eapply permuted_no_nulls; [apply sort_permutes|exact Hn]. }
  assert (Ho : adjacent_ordered (date_series i (rows out)))
    by now apply adjacent_check_spec.
  destruct (@sorted_of_ordered E L i out Hn' Ho) as [Hk _].
  assert (Hi' : index_of "date_time" (columns out) = Some i).
  { simpl. rewrite (converted_columns _ _ _ Hc). now rewrite <- Hcol. }
  set (w1 := after_write (P15.date_col args) (P15.output args) out w).
  assert (Hl : lookup (P15.output args) (files w1) = Some (Parquet out))
    by apply lookup_head.
  assert (Hfind : find (present w1) P16.CANDIDATOS_INPUT = Some (P15.output args)).
  { unfold P16.CANDIDATOS_INPUT. cbn [find]. rewrite <- Hout.
    unfold present at 1. now rewrite Hl. }
  assert (Hmono : is_monotonic_increasing
                    (date_series i (rows (P15.sorted E i out))) = true).
  { apply is_monotonic_increasing_spec. rewrite Hk. now split. }
  exists out, (P15.sorted E i out), i. eexists.
  split; [exact Hl|]. split; [exact Hi'|]. split.
  { rewrite script_cases, Hfind, Hl, Hi'. cbv zeta. rewrite Hmono. reflexivity. }
  split; [apply lookup_head|]. split.
  { cbn [files]. rewrite lookup_other; [exact Hl|].
    apply candidate_is_not_output. rewrite Hout. now left. }
  split; [reflexivity|]. split; [simpl; apply sort_permutes|exact Hk].
Qed.

Lemma P15_then_P16_witness :
  exists ev w1 out master i w2,
    P15.main stable_engine chained_args sample_world = (Ok ev, w1) /\
    lookup (P15.output chained_args) (files w1) = Some (Parquet out) /\
    index_of "date_time" (columns out) = Some i /\
    P16.script stable_engine w1 = (Ok tt, w2) /\
    lookup P16.OUTPUT_PARQUET (files w2) = Some (Parquet master) /\
    date_series i (rows master) = date_series i (rows out).
Proof.
  destruct (P15.main stable_engine chained_args sample_world)
    as [[ev|e] w1] eqn:Hrun.
  - destruct (P15_then_P16 stable_engine_lawful chained_args sample_world
                           eq_refl eq_refl Hrun)
      as (out & master & i & w2 & H1 & H2 & H3 & H4 & _ & _ & _ & H5).
    exists ev, w1, out, master, i, w2. auto 10.
  - vm_compute in Hrun. discriminate Hrun.
Defined.

(* ================================================================== *)
(** ** P1.1b: missing inputs, the schema file, the samples *)

(** P1.1b ends with status 2, having written nothing, exactly when the CSV
    or the Parquet input is missing. *)
Theorem P11b_missing_input :
  forall (H : Host) (ts : string) (w : world),
    P11b.main H ts w = (Ok 2, w) <->
    present w P11b.CSV_PATH = false \/ present w P11b.PARQUET_PATH = false.
Proof.
  intros H ts w.
  unfold P11b.main, bind, path_exists, read_csv, read_parquet, write_file,
    ret, present.
  destruct (lookup P11b.CSV_PATH (files w)) as [a|] eqn:Hc;
    cbn [negb]; [|split; [now left|reflexivity]].
  destruct (lookup P11b.PARQUET_PATH (files w)) as [b|] eqn:Hp;
    cbn [negb]; [|split; [now right|reflexivity]].
  rewrite Hc. split.
  - destruct a; try discriminate. rewrite Hp. destruct b; discriminate.
  - intros [Hx|Hx]; discriminate Hx.
Qed.

Lemma out_schema_is_not_out_txt : P11b.OUT_SCHEMA <> P11b.OUT_TXT.
Proof. intros Heq. vm_compute in Heq. discriminate Heq. Qed.

Lemma schema_rows_frame (rs : list Row) :
  rows (P11b.schema_frame rs) = rs.
Proof. destruct rs; reflexivity. Qed.

(** The schema file P1.1b writes has one row per column of the Parquet
    table, in the order of its columns.  A column that only the CSV has is
    not in the file; a Parquet column the CSV lacks has the empty text as
    its CSV dtype. *)
Theorem P11b_schema_file :
  forall (H : Host) (ts : string) (w : world) (df_csv df_pq : DataFrame),
    lookup P11b.CSV_PATH (files w) = Some (Csv df_csv) ->
    lookup P11b.PARQUET_PATH (files w) = Some (Parquet df_pq) ->
    exists sch w',
      P11b.main H ts w = (Ok 0, w') /\
      lookup P11b.OUT_SCHEMA (files w') = Some (Csv sch) /\
      column_at 0 (rows sch) = map Str (columns df_pq) /\
      (forall c, ~ In c (columns df_pq) -> ~ In (Str c) (column_at 0 (rows sch))) /\
      (forall c, In c (columns df_pq) ->
                 has_column c df_csv = false ->
                 In [Str c; Str (P11b.dtype_of c df_pq); Str ""] (rows sch)).
Proof.
  intros H ts w df_csv df_pq Hc Hp.
  exists (P11b.schema_frame (P11b.schema_rows df_csv df_pq)),
         (snd (confirmed H ts df_csv df_pq w)).
  split; [now apply confirm_cases|]. split.
  { cbn [confirmed snd files].
    rewrite lookup_other by exact out_schema_is_not_out_txt.
    apply lookup_head. }
  rewrite schema_rows_frame.
  assert (Hcol : column_at 0 (P11b.schema_rows df_csv df_pq)
                 = map Str (columns df_pq)).
  { unfold column_at, P11b.schema_rows. rewrite map_map. reflexivity. }
  split; [exact Hcol|]. split.
  - intros c Hnot Hin. rewrite Hcol in Hin. apply in_map_iff in Hin.
    destruct Hin as (c' & [= ->] & Hin). contradiction.
  - intros c Hin Hno. unfold P11b.schema_rows. apply in_map_iff.
    exists c. split; [|exact Hin]. now rewrite Hno.
Qed.

Lemma P11b_schema_file_witness :
  exists sch w',
    P11b.main quiet_host "2025-01-01T00:00:00" encodings_world = (Ok 0, w') /\
    lookup P11b.OUT_SCHEMA (files w') = Some (Csv sch) /\
    column_at 0 (rows sch) = [Str "date_time"; Str "temperature"] /\
    In [Str "temperature"; Str "float64"; Str ""] (rows sch).
Proof.
  destruct (P11b_schema_file quiet_host "2025-01-01T00:00:00" encodings_world
              (df_csv := csv_frame) (df_pq := pq_frame) eq_refl eq_refl)
    as (sch & w' & Hrun & Hout & Hcol & _ & Habs).
  exists sch, w'. split; [exact Hrun|]. split; [exact Hout|].
  split; [exact Hcol|].
  apply (Habs "temperature"); [right; now left|reflexivity].
Defined.

(** The samples of the summary: [head(n)] and [tail(n)] each hold
    [min n (len df)] rows, the first and the last ones of the table; on a
    table of at most [n] rows both are the whole table. *)
Theorem P11b_head_tail :
  forall (n : nat) (df : DataFrame),
    len (P11b.head n df) = Nat.min n (len df) /\
    len (P11b.tail n df) = Nat.min n (len df) /\
    (exists post, rows df = rows (P11b.head n df) ++ post) /\
    (exists pre, rows df = pre ++ rows (P11b.tail n df)) /\
    (len df <= n ->
     rows (P11b.head n df) = rows df /\ rows (P11b.tail n df) = rows df).
Proof.
  intros n df. unfold len, P11b.head, P11b.tail. cbn [rows].
  split; [apply length_firstn|]. split; [rewrite length_skipn; lia|].
  split; [exists (skipn n (rows df)); symmetry; apply firstn_skipn|].
  split.
  - exists (firstn (List.length (rows df) - n) (rows df)).
    symmetry. apply firstn_skipn.
  - intros Hle. split; [now apply firstn_all2|].
    replace (List.length (rows df) - n) with 0 by lia. reflexivity.
Qed.

(* ================================================================== *)
(** ** Item xiv: the schema table and the duplicates report *)

Lemma index_of_in (c : string) (cols : list string) :
  In c cols -> exists i, index_of c cols = Some i.
Proof.
  induction cols as [|c' cols IH]; [intros []|]. intros Hin. simpl.
  destruct (String.eqb c c') eqn:Heq; [now exists 0|].
  destruct Hin as [->|Hin]; [now rewrite String.eqb_refl in Heq|].
  destruct (IH Hin) as [i Hi]. rewrite Hi. now exists (S i).
Qed.

Lemma column_of_length (c : string) (df : DataFrame) :
  In c (columns df) -> List.length (XIV.column_of c df) = len df.
Proof.
  intros Hin. unfold XIV.column_of.
  destruct (index_of_in _ _ Hin) as [i ->].
  unfold column_at, len. apply length_map.
Qed.

(** The schema table of item xiv has one row per column of the table, in
    order, with the column's dtype; its null count is the number of null
    cells of the column, at most the number of rows, and zero exactly when
    the column has no null cell. *)
Theorem XIV_schema_table :
  forall (df : DataFrame),
    len (XIV.schema_table df) = List.length (columns df) /\
    column_at 0 (rows (XIV.schema_table df)) = map Str (columns df) /\
    forall c,
      In c (columns df) ->
      exists n,
        In [Str c; Str (XIV.dtype_of c df); Int (Z.of_nat n)]
           (rows (XIV.schema_table df)) /\
        n <= len df /\
        (n = 0 <-> ~ In Null (XIV.column_of c df)).
Proof.
  intros df. unfold XIV.schema_table, len. cbn [rows].
  split; [apply length_map|]. split.
  { unfold column_at. rewrite map_map. reflexivity. }
  intros c Hin.
  exists (List.length (filter XIV.cell_isna (XIV.column_of c df))).
  split; [apply in_map_iff; now exists c|]. split.
  - pose proof (column_of_length _ _ Hin) as Hl. unfold len in Hl.
    rewrite <- Hl. apply filter_length_le.
  - generalize (XIV.column_of c df). intros l.
    induction l as [|x l IH]; simpl.
    + split; [intros _ []|reflexivity].
    + destruct x; simpl; try (rewrite IH; split;
        [intros Hn [Hx|Hx]; [discriminate Hx|now apply Hn]
        |intros Hn Hx; apply Hn; now right]).
      split; [discriminate|]. intros Hn. exfalso. apply Hn. now left.
Qed.

Lemma XIV_schema_table_witness :
  exists n,
    In [Str "temp"; Str "float64"; Int (Z.of_nat n)]
       (rows (XIV.schema_table stations_frame)) /\
    n <= 3.
Proof.
  destruct (proj2 (proj2 (XIV_schema_table stations_frame)) "temp"
                  (or_introl eq_refl))
    as (n & Hin & Hle & _).
  exists n. split; [exact Hin|exact Hle].
Defined.

Lemma duplicated_rows_length (seen rs : list Row) :
  List.length (XIV.duplicated_rows seen rs) = List.length rs.
Proof.
  revert seen. induction rs as [|r rs IH]; intros seen; [reflexivity|].
  simpl. destruct (existsb (XIV.row_eqb r) seen); simpl; now rewrite IH.
Qed.

Lemma sum_bool_le (b : list bool) : sum_bool b <= List.length b.
Proof. apply filter_length_le. Qed.

Lemma duplicated_rows_zero (rs seen : list Row) :
  sum_bool (XIV.duplicated_rows seen rs) = 0 <->
  Forall (fun r => existsb (XIV.row_eqb r) seen = false) rs /\
  ForallOrdPairs (fun a b => XIV.row_eqb b a = false) rs.
Proof.
  revert seen. induction rs as [|r rs IH]; intros seen.
  - split; [intros _; split; constructor|reflexivity].
  - cbn [XIV.duplicated_rows].
    destruct (existsb (XIV.row_eqb r) seen) eqn:Hr.
    + split; [discriminate|]. intros [Hall _].
      inversion Hall; subst. congruence.
    + change (sum_bool (false :: XIV.duplicated_rows (r :: seen) rs))
        with (sum_bool (XIV.duplicated_rows (r :: seen) rs)).
      rewrite IH. split.
      * intros [Hall Hp]. split.
        -- constructor; [exact Hr|]. eapply Forall_impl; [|exact Hall].
           intros x Hx. simpl in Hx. now apply orb_false_iff in Hx.
        -- constructor; [|exact Hp]. eapply Forall_impl; [|exact Hall].
           intros x Hx. simpl in Hx. now apply orb_false_iff in Hx.
      * intros [Hall Hp]. inversion Hall as [|? ? _ Hall']; subst.
        inversion Hp as [|? ? Hr' Hp']; subst. split; [|exact Hp'].
        rewrite Forall_forall in *. intros x Hx. simpl.
        apply orb_false_iff. split; [now apply Hr'|now apply Hall'].
Qed.

(** The duplicates report counts the rows equal to an earlier row: it is
    zero exactly when no row equals an earlier one, and on a table with rows
    it is less than the number of rows. *)
Theorem XIV_duplicates_info :
  forall (df : DataFrame),
    (XIV.duplicates_info df = 0 <->
     ForallOrdPairs (fun a b => XIV.row_eqb b a = false) (rows df)) /\
    (rows df <> [] -> XIV.duplicates_info df < len df).
Proof.
  intros df. unfold XIV.duplicates_info. split.
  - rewrite duplicated_rows_zero. split; [tauto|].
    intros Hp. split; [|exact Hp]. apply Forall_forall. reflexivity.
  - unfold len. destruct (rows df) as [|r rs]; [congruence|]. intros _.
    cbn [XIV.duplicated_rows existsb].
    change (sum_bool (false :: XIV.duplicated_rows [r] rs))
      with (sum_bool (XIV.duplicated_rows [r] rs)).
    pose proof (sum_bool_le (XIV.duplicated_rows [r] rs)) as Hle.
    rewrite duplicated_rows_length in Hle. simpl. lia.
Qed.

Lemma XIV_duplicates_info_witness :
  XIV.duplicates_info stations_frame < len stations_frame.
Proof.
  apply (proj2 (XIV_duplicates_info stations_frame)). discriminate.
Defined.

(* ================================================================== *)
(** ** Item xiv: numeric dtypes and the range table *)





(* ================================================================== *)
(** ** Item xiv: figures, failures and the metadata *)

Lemma histograms_count (H : Host) (out : string) (cols : list string) (w : world) :
  exists logs w',
    XIV.histograms H out cols w = (Ok (hist_names H cols, logs), w') /\
    trace w' =
      trace w ++ map EvWrite (map (joinpath out) (hist_names H cols)) /\
    List.length (hist_names H cols) + List.length logs = List.length cols.
Proof.
  revert w. induction cols as [|c cols IH]; intros w.
  - exists [], w. split; [reflexivity|]. split; [|reflexivity].
    simpl. now rewrite app_nil_r.
  - cbn [XIV.histograms]. unfold hist_names. cbn [map filter].
    fold (hist_names H cols).
    destruct (plot_ok H ("hist_" ++ c ++ ".png")).
    + set (p := out // ("hist_" ++ c ++ ".png")%string).
      destruct (IH (mkWorld ((p, Png c) :: files w) (trace w ++ [EvWrite p])))
        as (logs & w' & Hrun & Hw & Hn).
      exists logs, w'. unfold bind, write_file. fold p. rewrite Hrun.
      split; [reflexivity|]. split.
      * rewrite Hw. cbn [trace map]. now rewrite <- app_assoc.
      * simpl. now rewrite Hn.
    + destruct (IH w) as (logs & w' & Hrun & Hw & Hn).
      exists (LogPlotFailed c :: logs), w'. unfold bind. rewrite Hrun.
      split; [reflexivity|]. split; [exact Hw|].
      simpl. rewrite Nat.add_succ_r. now rewrite Hn.
Qed.

(** [save_figures] returns whatever the plots do: a plot that fails costs
    one log line and the next one is tried.  It writes one file per name it
    returns, under the figures directory, at most five; on a table with
    numeric columns the names returned and the log lines added number one
    per histogram attempted (the first four numeric columns) plus one for
    the box plot. *)
Theorem save_figures_never_raises :
  forall (H : Host) (df : DataFrame) (out : string) (w : world),
    exists logs w',
      XIV.save_figures H df out w = (Ok (figure_names H df, logs), w') /\
      written (trace w') =
        written (trace w) ++ map (joinpath out) (figure_names H df) /\
      List.length (figure_names H df) <= 5 /\
      (XIV.num_cols df = [] -> w' = w /\ logs = [LogNoNumericFigures]) /\
      (XIV.num_cols df <> [] ->
       List.length (figure_names H df) + List.length logs
       = Nat.min 4 (List.length (XIV.num_cols df)) + 1).
Proof.
  intros H df out w. unfold XIV.save_figures, figure_names.
  destruct (XIV.num_cols df) as [|c cols] eqn:Hn.
  - exists [LogNoNumericFigures], w. split; [reflexivity|].
    split; [simpl; now rewrite app_nil_r|]. split; [simpl; lia|].
    split; [now split|congruence].
  - destruct (histograms_count H out (firstn 4 (c :: cols)) w)
      as (logs & w1 & Hrun & Hw & Hcount).
    assert (Hlen : List.length (firstn 4 (c :: cols))
                   = Nat.min 4 (List.length (c :: cols)))
      by apply length_firstn.
    pose proof (Nat.le_min_l 4 (List.length (c :: cols))) as Hmin4.
    assert (H4 : List.length (hist_names H (firstn 4 (c :: cols))) <= 4).
    { eapply Nat.le_trans; [|exact Hmin4].
      rewrite <- Hlen, <- Hcount. apply Nat.le_add_r. }
    unfold bind at 1. rewrite Hrun. cbn [fst snd].
    destruct (plot_ok H "boxplot_primeiras_colunas.png").
    + eexists logs, _. split; [reflexivity|]. split.
      { cbn [trace]. rewrite written_app, Hw, written_app, written_writes.
        rewrite map_app. cbn [written map]. now rewrite <- app_assoc. }
      rewrite length_app. cbn [List.length] in Hlen |- *.
      split; [lia|]. split; [discriminate|]. intros _. lia.
    + rewrite app_nil_r. eexists _, w1. split; [reflexivity|]. split.
      { rewrite Hw, written_app, written_writes. reflexivity. }
      rewrite length_app. cbn [List.length] in Hlen |- *.
      split; [lia|]. split; [discriminate|]. intros _. lia.
Qed.

(** With no plot succeeding: nothing is written and four lines are
    logged, for the three numeric columns and the box plot. *)
Lemma save_figures_never_raises_witness :
  exists logs w',
    XIV.save_figures plotless_host stations_frame "xiv/figuras" stations_world
    = (Ok ([], logs), w') /\
    List.length logs = 4.
Proof.
  destruct (save_figures_never_raises plotless_host stations_frame
                                      "xiv/figuras" stations_world)
    as (logs & w' & Hrun & _ & _ & _ & Hcount).
  exists logs, w'. split; [exact Hrun|].
  assert (Hn : XIV.num_cols stations_frame <> []) by discriminate.
  exact (Hcount Hn).
Defined.

Lemma keyed_paths_nodup (o r : string) : NoDup (keyed_paths o r).
Proof.
  rewrite keyed_paths_shape.
  repeat (constructor;
          [cbn [In]; intros Hin;
           repeat match goal with
                  | H : _ \/ _ |- _ => destruct H as [H|H]
                  | H : False |- _ => destruct H
                  end;
           apply append_inj_l in Hin; simpl in Hin; discriminate Hin|]).
  constructor.
Qed.

Lemma log_is_not_meta (o r : string) : meta_path o r <> log_path o r.
Proof.
  pose proof (keyed_paths_nodup o r) as Hnd. unfold keyed_paths in Hnd.
  inversion Hnd as [|? ? Hnot _]; subst. intros Heq. apply Hnot.
  rewrite <- Heq. now left.
Qed.

(** The world a run of item xiv leaves when it ends well. *)
Lemma xiv_main_meta (S : Stats) (H : Host) (cfg : XIV.Config) (now : datetime)
      (w : world) (df desc qdf : DataFrame) :
  lookup (XIV.parquet_path cfg) (files w) = Some (Parquet df) ->
  XIV.numeric_describe S df = Ok desc ->
  XIV.numeric_quantiles S df XIV.default_qs = Ok qdf ->
  exists flog fs,
    XIV.main S H cfg now w =
    (Ok 0,
     mkWorld
       ((log_path (XIV.outdir cfg) (strftime_run_id now),
         LogText (run_log S H cfg (strftime_run_id now) df desc qdf flog))
          :: (meta_path (XIV.outdir cfg) (strftime_run_id now),
              MetaJson (run_metadata S H cfg (strftime_run_id now) w df desc qdf))
          :: fs)
       (trace w ++ map EvWrite (run_paths S H (XIV.outdir cfg)
                                          (strftime_run_id now) df desc qdf))).
Proof.
  intros Hf Hd Hq.
  destruct (XIV.main S H cfg now w) as [r w'] eqn:Hmain.
  unfold XIV.main in Hmain. cbv zeta in Hmain.
  rewrite !bind_path_exists in Hmain.
  assert (Hp : present w (XIV.parquet_path cfg) = true)
    by (unfold present; now rewrite Hf).
  unfold run_metadata. rewrite Hp in Hmain |- *. cbn [negb] in Hmain.
  rewrite (bind_read_parquet _ _ _ Hf) in Hmain.
  rewrite !bind_write_file in Hmain.
  rewrite Hd, bind_lift_ok, bind_write_if_rows in Hmain.
  unfold run_paths, run_log, if_rows, absent_or, opt_rows.
  destruct (0 <? len desc);
    rewrite Hq, bind_lift_ok, bind_write_if_rows in Hmain;
    destruct (0 <? len qdf);
    rewrite bind_write_if_rows in Hmain;
    destruct (0 <? len (XIV.range_flags S df));
    unfold bind at 1 in Hmain;
    match type of Hmain with
    | context [XIV.save_figures H df ?o ?W] =>
        destruct (save_figures_ok H df o W) as (flog & w1 & Hsf & Ht & Hl);
        rewrite Hsf in Hmain
    end;
    rewrite !bind_write_file in Hmain;
    unfold ret in Hmain; injection Hmain as <- <-;
    exists flog; eexists;
    (apply (f_equal (pair (Ok 0))); apply (f_equal2 mkWorld);
     [cbn [files fst snd]; reflexivity
     |cbn [trace fst snd]; rewrite Ht; cbn [trace];
      fold (figure_path (XIV.outdir cfg));
      rewrite ?map_app; cbn [map app];
      rewrite <- ?app_assoc; cbn [app]; reflexivity]).
Qed.

(** The metadata record of a run of item xiv that ends well names the run
    and lists what the run wrote: the paths recorded in it, the figure names
    under the figures directory, the metadata file itself and the log are,
    in this order, exactly the paths written. *)
Theorem XIV_metadata_lists_what_was_written :
  forall (S : Stats) (H : Host) (cfg : XIV.Config) (now : datetime)
         (w : world) (df desc qdf : DataFrame),
    lookup (XIV.parquet_path cfg) (files w) = Some (Parquet df) ->
    XIV.numeric_describe S df = Ok desc ->
    XIV.numeric_quantiles S df XIV.default_qs = Ok qdf ->
    exists m w',
      XIV.main S H cfg now w = (Ok 0, w') /\
      lookup (meta_path (XIV.outdir cfg) (strftime_run_id now)) (files w')
      = Some (MetaJson m) /\
      meta_run_id m = strftime_run_id now /\
      meta_n_linhas m = len df /\
      meta_n_colunas m = List.length (columns df) /\
      written (trace w') = written (trace w) ++ listed (XIV.outdir cfg) m.
Proof.
  intros S H cfg now w df desc qdf Hf Hd Hq.
  destruct (xiv_main_meta S H cfg now w Hf Hd Hq) as (flog & fs & Hrun).
  eexists. eexists. split; [exact Hrun|]. split.
  { cbn [files]. rewrite lookup_other by apply log_is_not_meta.
    apply lookup_head. }
  split; [reflexivity|]. split; [reflexivity|]. split; [reflexivity|].
  cbn [trace]. rewrite written_app, written_writes. f_equal.
  unfold listed, run_metadata, run_paths, if_rows, opt_rows.
  cbn [meta_outputs meta_run_id schema_csv duplicatas_json describe_csv
       quantis_csv ranges_csv figuras log_file_path].
  destruct (0 <? len desc), (0 <? len qdf), (0 <? len (XIV.range_flags S df));
    reflexivity.
Qed.

Lemma XIV_metadata_lists_what_was_written_witness :
  exists m w',
    XIV.main exact_stats quiet_host labels_config
             (mkDatetime 2025 3 9 14 5 7 0) stations_world = (Ok 0, w') /\
    lookup "xiv/metadata/run_20250309_140507.json" (files w')
    = Some (MetaJson m) /\
    written (trace w') = listed "xiv" m.
Proof.
  destruct (@XIV_metadata_lists_what_was_written
              exact_stats quiet_host labels_config
              (mkDatetime 2025 3 9 14 5 7 0) stations_world
              stations_frame _ _ eq_refl eq_refl eq_refl)
    as (m & w' & Hrun & Hm & _ & _ & _ & Hw).
  exists m, w'. split; [exact Hrun|]. split; [exact Hm|exact Hw].
Defined.

(** The failures of item xiv.  A missing Parquet input is raised with
    nothing written.  When [describe] raises, the schema and the duplicates
    report have been written and nothing else; when the quantile call
    raises, the describe table, if it has rows, has been written as well.
    In both cases the exception leaves the run with neither log nor metadata
    file. *)
Theorem XIV_failures :
  forall (S : Stats) (H : Host) (cfg : XIV.Config) (now : datetime) (w : world),
    (lookup (XIV.parquet_path cfg) (files w) = None ->
     XIV.main S H cfg now w =
     (Raise (FileNotFoundError (ParquetNotFound (XIV.parquet_path cfg))), w))
    /\
    (forall df e,
        lookup (XIV.parquet_path cfg) (files w) = Some (Parquet df) ->
        XIV.numeric_describe S df = Raise e ->
        exists w',
          XIV.main S H cfg now w = (Raise e, w') /\
          written (trace w') =
            written (trace w) ++
            [ schema_path (XIV.outdir cfg) (strftime_run_id now);
              dup_path (XIV.outdir cfg) (strftime_run_id now) ])
    /\
    (forall df desc e,
        lookup (XIV.parquet_path cfg) (files w) = Some (Parquet df) ->
        XIV.numeric_describe S df = Ok desc ->
        XIV.numeric_quantiles S df XIV.default_qs = Raise e ->
        exists w',
          XIV.main S H cfg now w = (Raise e, w') /\
          written (trace w') =
            written (trace w) ++
            [ schema_path (XIV.outdir cfg) (strftime_run_id now);
              dup_path (XIV.outdir cfg) (strftime_run_id now) ]
            ++ if_rows desc (describe_path (XIV.outdir cfg) (strftime_run_id now)))
    /\
    (forall p,
        In p [ schema_path (XIV.outdir cfg) (strftime_run_id now);
               dup_path (XIV.outdir cfg) (strftime_run_id now);
               describe_path (XIV.outdir cfg) (strftime_run_id now) ] ->
        p <> log_path (XIV.outdir cfg) (strftime_run_id now) /\
        p <> meta_path (XIV.outdir cfg) (strftime_run_id now)).
Proof.
  intros S H cfg now w. split; [|split; [|split]].
  - intros Hf. unfold XIV.main. cbv zeta. rewrite !bind_path_exists.
    unfold present. rewrite Hf. reflexivity.
  - intros df e Hf Hd.
    assert (Hp : present w (XIV.parquet_path cfg) = true)
      by (unfold present; now rewrite Hf).
    eexists. unfold XIV.main. cbv zeta. rewrite !bind_path_exists, Hp.
    cbn [negb]. rewrite (bind_read_parquet _ _ _ Hf), !bind_write_file, Hd.
    split; [reflexivity|]. cbn [trace]. rewrite !written_app. cbn [written].
    rewrite <- app_assoc. reflexivity.
  - intros df desc e Hf Hd Hq.
    assert (Hp : present w (XIV.parquet_path cfg) = true)
      by (unfold present; now rewrite Hf).
    unfold XIV.main. cbv zeta. rewrite !bind_path_exists, Hp.
    cbn [negb]. rewrite (bind_read_parquet _ _ _ Hf), !bind_write_file, Hd.
    rewrite bind_lift_ok, bind_write_if_rows. unfold if_rows.
    destruct (0 <? len desc); rewrite Hq; eexists;
      (split; [reflexivity|]); cbn [trace]; rewrite !written_app;
      cbn [written app]; rewrite <- ?app_assoc; cbn [app];
      rewrite ?app_nil_r; reflexivity.
  - intros p Hin.
    pose proof (keyed_paths_nodup (XIV.outdir cfg) (strftime_run_id now)) as Hnd.
    unfold keyed_paths in Hnd.
    inversion Hnd as [|? ? Hlog Hnd1]; subst.
    inversion Hnd1 as [|? ? Hmeta _]; subst.
    split; intros ->.
    + apply Hlog. cbn [In] in Hin |- *.
      repeat match goal with
             | H : _ \/ _ |- _ => destruct H as [H|H]
             | H : False |- _ => destruct H
             end; rewrite <- Hin; find_in.
    + apply Hmeta. cbn [In] in Hin |- *.
      repeat match goal with
             | H : _ \/ _ |- _ => destruct H as [H|H]
             | H : False |- _ => destruct H
             end; rewrite <- Hin; find_in.
Qed.

(** The stations table on an engine without [describe]: the schema and the
    duplicates report are written, then the run raises. *)
Lemma XIV_failures_witness :
  exists w',
    XIV.main describeless_stats quiet_host labels_config
             (mkDatetime 2025 3 9 14 5 7 0) stations_world
    = (Raise (OtherError (EngineFailure "describe")), w') /\
    written (trace w') =
      [ "xiv/tabelas/schema_nulos_20250309_140507.csv";
        "xiv/tabelas/duplicatas_20250309_140507.json" ].
Proof.
  destruct (proj1 (proj2 (XIV_failures describeless_stats quiet_host
                            labels_config (mkDatetime 2025 3 9 14 5 7 0)
                            stations_world))
                  stations_frame (OtherError (EngineFailure "describe"))
                  eq_refl eq_refl)
    as (w' & Hrun & Hw).
  exists w'. split; [exact Hrun|exact Hw].
Defined.

(* ================================================================== *)
(** ** The run identifier *)

(** The run identifier has fifteen characters, and for readings of the
    clock within the calendar it is the same for two readings exactly when
    they fall in the same second. *)
Theorem run_id_per_second :
  forall (a b : datetime),
    String.length (strftime_run_id a) = 15 /\
    (calendar a -> calendar b ->
     (strftime_run_id a = strftime_run_id b <-> same_second a b)).
Proof.
  intros a b. split.
  - unfold strftime_run_id. rewrite !length_append, !pad_length. reflexivity.
  - intros Ha Hb. split.
    + now apply strftime_run_id_inj.
    + apply same_second_run_id.
Qed.

Lemma run_id_per_second_witness :
  calendar (mkDatetime 2025 3 9 14 5 7 0) /\
  calendar (mkDatetime 2025 3 9 14 5 8 0) /\
  (strftime_run_id (mkDatetime 2025 3 9 14 5 7 0)
   = strftime_run_id (mkDatetime 2025 3 9 14 5 8 0)
   <-> same_second (mkDatetime 2025 3 9 14 5 7 0)
                   (mkDatetime 2025 3 9 14 5 8 0)).
Proof.
  assert (H7 : calendar (mkDatetime 2025 3 9 14 5 7 0))
    by (unfold calendar; cbn [year month day hour minute second]; lia).
  assert (H8 : calendar (mkDatetime 2025 3 9 14 5 8 0))
    by (unfold calendar; cbn [year month day hour minute second]; lia).
  split; [exact H7|]. split; [exact H8|].
  exact (proj2 (run_id_per_second _ _) H7 H8).
Defined.

(* ================================================================== *)
(** ** Item xiv: reading the paths file *)

Lemma splitlines_from_line (l rest cur : string) :
  one_line l ->
  Env.splitlines_from cur (l ++ String line_feed rest) =
  (cur ++ l)%string :: Env.splitlines_from "" rest.
Proof.
  unfold one_line. revert cur. induction l as [|c l IH]; intros cur Hl.
  - cbn [append Env.splitlines_from].
    change (Env.is_linebreak line_feed) with true. cbv iota.
    replace (cur ++ "")%string with cur
      by (clear; induction cur; simpl; congruence).
    f_equal. destruct rest as [|c2 rest]; reflexivity.
  - simpl in Hl. inversion Hl as [|? ? Hc Hl']; subst.
    cbn [append Env.splitlines_from]. rewrite Hc, (IH _ Hl').
    f_equal. rewrite append_assoc. reflexivity.
Qed.

Lemma one_line_append (a b : string) :
  one_line a -> one_line b -> one_line (a ++ b).
Proof.
  unfold one_line. rewrite list_of_append. intros Ha Hb.
  apply Forall_app. now split.
Qed.

Lemma splitlines_render (kvs : list (string * string)) :
  Forall (fun kv => one_line (fst kv) /\ one_line (snd kv)) kvs ->
  Env.splitlines (render_env kvs) =
  map (fun kv => (fst kv ++ "=" ++ snd kv)%string) kvs.
Proof.
  unfold Env.splitlines. induction 1 as [|[k v] kvs [Hk Hv] _ IH];
    [reflexivity|].
  cbn [render_env map fst snd] in *.
  fold line_feed.
  replace (k ++ "=" ++ v ++ String line_feed (render_env kvs))%string
    with ((k ++ "=" ++ v) ++ String line_feed (render_env kvs))%string
    by (now rewrite !append_assoc).
  rewrite splitlines_from_line, IH; [reflexivity|].
  apply one_line_append; [exact Hk|].
  apply one_line_append; [|exact Hv].
  repeat constructor.
Qed.

Lemma lstrip_length (s : string) :
  String.length (Env.lstrip s) <= String.length s.
Proof.
  induction s as [|c s IH]; simpl; [lia|].
  destruct (Env.is_space c); simpl; lia.
Qed.

Lemma lstrip_fixed (c : ascii) (s : string) :
  Env.lstrip (String c s) = String c s -> Env.is_space c = false.
Proof.
  simpl. destruct (Env.is_space c); [|reflexivity]. intros H.
  pose proof (lstrip_length s) as Hl. rewrite H in Hl. simpl in Hl. lia.
Qed.

Lemma rstrip_app (a b : string) :
  Env.is_empty (Env.rstrip b) = false ->
  Env.rstrip (a ++ b) = (a ++ Env.rstrip b)%string.
Proof.
  intros Hb. induction a as [|c a IH]; [reflexivity|].
  cbn [append Env.rstrip]. rewrite IH.
  assert (He : Env.is_empty (a ++ Env.rstrip b) = false).
  { destruct a; [exact Hb|reflexivity]. }
  rewrite He, andb_false_r. reflexivity.
Qed.

Lemma strip_line (k v : string) :
  trimmed k -> trimmed v ->
  Env.strip (k ++ "=" ++ v) = (k ++ "=" ++ v)%string.
Proof.
  intros [Hk _] [_ Hv]. unfold Env.strip.
  assert (Hl : Env.lstrip (k ++ "=" ++ v) = (k ++ "=" ++ v)%string).
  { destruct k as [|c k]; [reflexivity|].
    cbn [append Env.lstrip]. now rewrite (lstrip_fixed Hk). }
  rewrite Hl. rewrite rstrip_app.
  - f_equal. cbn [append Env.rstrip]. now rewrite Hv.
  - reflexivity.
Qed.

Lemma split_eq_line (k v : string) :
  Env.split_eq k = None -> Env.split_eq (k ++ "=" ++ v) = Some (k, v).
Proof.
  induction k as [|c k IH]; [reflexivity|].
  cbn [append Env.split_eq] in IH |- *.
  destruct (Ascii.eqb c "="); [discriminate|].
  destruct (Env.split_eq k) as [[k1 v1]|]; [discriminate|].
  intros _. now rewrite IH.
Qed.

Lemma read_line_entry (out : Env.dict) (k v : string) :
  plain_key k -> plain_value v ->
  Env.read_line out (k ++ "=" ++ v) = Env.dict_set k v out.
Proof.
  intros (_ & Hk & Hsplit & Hhash) (_ & Hv). unfold Env.read_line.
  rewrite (strip_line Hk Hv).
  assert (He : Env.is_empty (k ++ "=" ++ v) = false) by (destruct k; reflexivity).
  assert (Hh : Env.startswith_hash (k ++ "=" ++ v) = false).
  { destruct k as [|c k]; [reflexivity|exact Hhash]. }
  rewrite He, Hh, (@split_eq_line k v Hsplit). cbn [orb].
  unfold Env.strip. destruct Hk as [Hk1 Hk2], Hv as [Hv1 Hv2].
  now rewrite Hk1, Hk2, Hv1, Hv2.
Qed.

Lemma dict_set_new (k v : string) (d : Env.dict) :
  ~ In k (map fst d) -> Env.dict_set k v d = d ++ [(k, v)].
Proof.
  induction d as [|[k' v'] d IH]; [reflexivity|]. intros Hnot.
  cbn [Env.dict_set app]. destruct (String.eqb_spec k k') as [->|_].
  - exfalso. apply Hnot. now left.
  - rewrite IH; [reflexivity|]. intros Hin. apply Hnot. now right.
Qed.

Lemma read_lines_entries (kvs : list (string * string)) (acc : Env.dict) :
  Forall (fun kv => plain_key (fst kv) /\ plain_value (snd kv)) kvs ->
  NoDup (map fst (acc ++ kvs)) ->
  fold_left Env.read_line
            (map (fun kv => (fst kv ++ "=" ++ snd kv)%string) kvs) acc
  = acc ++ kvs.
Proof.
  intros Hall. revert acc. induction Hall as [|[k v] kvs [Hk Hv] _ IH];
    intros acc Hnd.
  - simpl. now rewrite app_nil_r.
  - cbn [map fold_left fst snd]. rewrite (read_line_entry _ Hk Hv).
    rewrite dict_set_new.
    + rewrite IH; rewrite <- app_assoc; [reflexivity|exact Hnd].
    + rewrite map_app in Hnd. cbn [map fst] in Hnd.
      apply NoDup_remove_2 in Hnd. intros Hin. apply Hnd.
      apply in_or_app. now left.
Qed.

Lemma plain_entries_one_line (kvs : list (string * string)) :
  Forall (fun kv => plain_key (fst kv) /\ plain_value (snd kv)) kvs ->
  Forall (fun kv => one_line (fst kv) /\ one_line (snd kv)) kvs.
Proof.
  intros Hall. eapply Forall_impl; [|exact Hall].
  intros [k v] [(Hk & _) (Hv & _)]. now split.
Qed.

(** Reading back a paths file: when the file has one [KEY=value] line per
    entry, the keys are distinct, contain no [=] and do not begin with [#],
    and keys and values have no line boundary inside and no white space at
    either end, [read_env_file] returns the entries, in order. *)
Theorem read_env_file_round_trip :
  forall (env_path : string) (kvs : list (string * string)),
    Forall (fun kv => plain_key (fst kv) /\ plain_value (snd kv)) kvs ->
    NoDup (map fst kvs) ->
    Env.read_env_file env_path (Some (render_env kvs)) = inr kvs.
Proof.
  intros env_path kvs Hall Hnd. unfold Env.read_env_file.
  rewrite splitlines_render by now apply plain_entries_one_line.
  now rewrite (read_lines_entries [] Hall Hnd).
Qed.

Ltac plain_entries :=
  repeat (constructor;
          [unfold plain_key, plain_value, one_line, trimmed; cbn [fst snd];
           repeat split; try reflexivity; repeat constructor|]);
  try constructor.

Lemma read_env_file_round_trip_witness :
  Env.read_env_file "configs/cap5_paths.env" (Some paths_text)
  = inr [ ("CAP5_METEO_PARQUET", "data/meteo.parquet");
          ("CAP5_METEO_CSV", "data/meteo.csv");
          ("CAP5_XIV_OUTDIR", "resultados/xiv") ].
Proof.
  apply read_env_file_round_trip.
  - plain_entries.
  - repeat (constructor; [cbn [In map fst]; intros Hin;
                          repeat (destruct Hin as [Hin|Hin];
                                  [discriminate Hin|]); exact Hin|]).
    constructor.
Defined.

(** The head of [main] of item xiv.  Without the paths file the run stops
    with FileNotFoundError before anything else.  With a paths file as in
    [read_env_file_round_trip], the three paths are taken from the entries
    [CAP5_METEO_PARQUET], [CAP5_METEO_CSV] and [CAP5_XIV_OUTDIR]; the first
    of them that is missing, in this order, is the KeyError raised; when
    all are there the run is that of the rest of [main] on those paths. *)
Theorem Env_main_paths :
  forall (S : Stats) (H : Host) (env_path : string) (now : datetime) (w : world),
    Env.main S H env_path None now w = inl (Env.EnvFileNotFound env_path)
    /\
    forall (kvs : list (string * string)),
      Forall (fun kv => plain_key (fst kv) /\ plain_value (snd kv)) kvs ->
      NoDup (map fst kvs) ->
      Env.main S H env_path (Some (render_env kvs)) now w =
      match Env.dict_get "CAP5_METEO_PARQUET" kvs with
      | None => inl (Env.EnvKeyError "CAP5_METEO_PARQUET")
      | Some p =>
          match Env.dict_get "CAP5_METEO_CSV" kvs with
          | None => inl (Env.EnvKeyError "CAP5_METEO_CSV")
          | Some c =>
              match Env.dict_get "CAP5_XIV_OUTDIR" kvs with
              | None => inl (Env.EnvKeyError "CAP5_XIV_OUTDIR")
              | Some o => inr (XIV.main S H (XIV.mkConfig p c o) now w)
              end
          end
      end.
Proof.
  intros S H env_path now w. split; [reflexivity|].
  intros kvs Hall Hnd. unfold Env.main, Env.load_config.
  unfold Env.read_env_file.
  rewrite splitlines_render by now apply plain_entries_one_line.
  rewrite (read_lines_entries [] Hall Hnd). cbn [app]. unfold Env.item.
  destruct (Env.dict_get "CAP5_METEO_PARQUET" kvs); [|reflexivity].
  destruct (Env.dict_get "CAP5_METEO_CSV" kvs); [|reflexivity].
  destruct (Env.dict_get "CAP5_XIV_OUTDIR" kvs); reflexivity.
Qed.

Lemma Env_main_paths_witness :
  Env.main raising_stats quiet_host "configs/cap5_paths.env" (Some paths_text)
           (mkDatetime 2025 3 9 14 5 7 0) labels_world
  = inr (XIV.main raising_stats quiet_host
                  (XIV.mkConfig "data/meteo.parquet" "data/meteo.csv"
                                "resultados/xiv")
                  (mkDatetime 2025 3 9 14 5 7 0) labels_world).
Proof.
  apply (proj2 (Env_main_paths raising_stats quiet_host "configs/cap5_paths.env"
                               (mkDatetime 2025 3 9 14 5 7 0) labels_world)
               [ ("CAP5_METEO_PARQUET", "data/meteo.parquet");
                 ("CAP5_METEO_CSV", "data/meteo.csv");
                 ("CAP5_XIV_OUTDIR", "resultados/xiv") ]).
  - plain_entries.
  - repeat (constructor; [cbn [In map fst]; intros Hin;
                          repeat (destruct Hin as [Hin|Hin];
                                  [discriminate Hin|]); exact Hin|]).
    constructor.
Defined.

(* ================================================================== *)
(** ** The classification of the project files *)

(** Takes the first test of a chain of rules. *)
Ltac first_rule :=
  match goal with
  | |- (if ?b then _ else _) = _ -> _ => destruct b eqn:?
  end.

Lemma prefix_shorter (a b s : string) :
  String.prefix (a ++ b) s = true -> String.prefix a s = true.
Proof.
  rewrite !prefix_spec. intros [post ->]. exists (b ++ post)%string.
  apply append_assoc.
Qed.

Lemma classify_categories (lower : string -> string)
      (path_rel ext : option string) (cat why : string) :
  Classificar.classify lower path_rel ext = Some (cat, why) ->
  In cat categories.
Proof.
  unfold Classificar.classify, categories. cbv zeta.
  repeat first_rule; try discriminate; intros [= <- _]; cbn; tauto.
Qed.

Lemma rows_of_app (cat : string) (a b : list Classificar.OutRow) :
  rows_of cat (a ++ b) = rows_of cat a + rows_of cat b.
Proof.
  unfold rows_of. now rewrite filter_app, length_app.
Qed.

Lemma bump_tese (n1 n2 n3 n4 : nat) :
  Classificar.bump Classificar.TESE_PROVAVEL
    [ (Classificar.TESE_PROVAVEL, n1); (Classificar.DADOS_EXTERNOS, n2);
      (Classificar.ACERVO_LIVROS, n3); (Classificar.INDETERMINADO, n4) ]
  = Some [ (Classificar.TESE_PROVAVEL, S n1); (Classificar.DADOS_EXTERNOS, n2);
           (Classificar.ACERVO_LIVROS, n3); (Classificar.INDETERMINADO, n4) ].
Proof. reflexivity. Qed.

Lemma bump_dados (n1 n2 n3 n4 : nat) :
  Classificar.bump Classificar.DADOS_EXTERNOS
    [ (Classificar.TESE_PROVAVEL, n1); (Classificar.DADOS_EXTERNOS, n2);
      (Classificar.ACERVO_LIVROS, n3); (Classificar.INDETERMINADO, n4) ]
  = Some [ (Classificar.TESE_PROVAVEL, n1); (Classificar.DADOS_EXTERNOS, S n2);
           (Classificar.ACERVO_LIVROS, n3); (Classificar.INDETERMINADO, n4) ].
Proof. reflexivity. Qed.

Lemma bump_acervo (n1 n2 n3 n4 : nat) :
  Classificar.bump Classificar.ACERVO_LIVROS
    [ (Classificar.TESE_PROVAVEL, n1); (Classificar.DADOS_EXTERNOS, n2);
      (Classificar.ACERVO_LIVROS, n3); (Classificar.INDETERMINADO, n4) ]
  = Some [ (Classificar.TESE_PROVAVEL, n1); (Classificar.DADOS_EXTERNOS, n2);
           (Classificar.ACERVO_LIVROS, S n3); (Classificar.INDETERMINADO, n4) ].
Proof. reflexivity. Qed.

Lemma bump_indeterminado (n1 n2 n3 n4 : nat) :
  Classificar.bump Classificar.INDETERMINADO
    [ (Classificar.TESE_PROVAVEL, n1); (Classificar.DADOS_EXTERNOS, n2);
      (Classificar.ACERVO_LIVROS, n3); (Classificar.INDETERMINADO, n4) ]
  = Some [ (Classificar.TESE_PROVAVEL, n1); (Classificar.DADOS_EXTERNOS, n2);
           (Classificar.ACERVO_LIVROS, n3); (Classificar.INDETERMINADO, S n4) ].
Proof. reflexivity. Qed.

Lemma loop_counts (lower : string -> string) (rs : list Classificar.row) :
  forall (rows : list Classificar.OutRow) (n1 n2 n3 n4 ig : nat),
  exists m1 m2 m3 m4,
    Classificar.loop lower
      (Classificar.mkAcc rows
         [ (Classificar.TESE_PROVAVEL, n1); (Classificar.DADOS_EXTERNOS, n2);
           (Classificar.ACERVO_LIVROS, n3); (Classificar.INDETERMINADO, n4) ]
         ig) rs
    = inr (Classificar.mkAcc
             (rows ++ flat_map (out_row lower) rs)
             [ (Classificar.TESE_PROVAVEL, m1); (Classificar.DADOS_EXTERNOS, m2);
               (Classificar.ACERVO_LIVROS, m3); (Classificar.INDETERMINADO, m4) ]
             (ig + List.length
                     (filter (fun r => negb (considered lower r)) rs))) /\
    m1 = n1 + rows_of Classificar.TESE_PROVAVEL (flat_map (out_row lower) rs) /\
    m2 = n2 + rows_of Classificar.DADOS_EXTERNOS (flat_map (out_row lower) rs) /\
    m3 = n3 + rows_of Classificar.ACERVO_LIVROS (flat_map (out_row lower) rs) /\
    m4 = n4 + rows_of Classificar.INDETERMINADO (flat_map (out_row lower) rs) /\
    m1 + m2 + m3 + m4
    = n1 + n2 + n3 + n4 + List.length (flat_map (out_row lower) rs).
Proof.
  induction rs as [|r rs IH]; intros rows n1 n2 n3 n4 ig.
  - exists n1, n2, n3, n4. cbn [Classificar.loop flat_map filter List.length].
    rewrite app_nil_r, !Nat.add_0_r. unfold rows_of. cbn. repeat split; lia.
  - cbn [Classificar.loop flat_map filter]. unfold Classificar.step.
    unfold out_row at 1 3 5 7 9 11, considered at 1.
    destruct (Classificar.classify lower (Classificar.get r "path" "")
                                   (Classificar.get r "extension" ""))
      as [[cat why]|] eqn:Hc.
    + cbn [negb]. rewrite !rows_of_app, length_app.
      pose proof (classify_categories _ _ _ Hc) as Hin.
      unfold categories in Hin. cbn [In] in Hin.
      set (o := Classificar.mkOutRow _ _ _ _ _ _).
      cbn [Classificar.rows_out Classificar.counts Classificar.ignored].
      destruct Hin as [Hcat|[Hcat|[Hcat|[Hcat|[]]]]]; subst cat.
      * rewrite bump_tese. cbn [Classificar.rows_out Classificar.ignored].
        destruct (IH (rows ++ [o]) (S n1) n2 n3 n4 ig)
          as (m1 & m2 & m3 & m4 & Hl & H1 & H2 & H3 & H4 & Hs).
        exists m1, m2, m3, m4. rewrite Hl, <- app_assoc.
        split; [reflexivity|]. unfold rows_of at 1 3 5 7. cbn. lia.
      * rewrite bump_dados. cbn [Classificar.rows_out Classificar.ignored].
        destruct (IH (rows ++ [o]) n1 (S n2) n3 n4 ig)
          as (m1 & m2 & m3 & m4 & Hl & H1 & H2 & H3 & H4 & Hs).
        exists m1, m2, m3, m4. rewrite Hl, <- app_assoc.
        split; [reflexivity|]. unfold rows_of at 1 3 5 7. cbn. lia.
      * rewrite bump_acervo. cbn [Classificar.rows_out Classificar.ignored].
        destruct (IH (rows ++ [o]) n1 n2 (S n3) n4 ig)
          as (m1 & m2 & m3 & m4 & Hl & H1 & H2 & H3 & H4 & Hs).
        exists m1, m2, m3, m4. rewrite Hl, <- app_assoc.
        split; [reflexivity|]. unfold rows_of at 1 3 5 7. cbn. lia.
      * rewrite bump_indeterminado.
        cbn [Classificar.rows_out Classificar.ignored].
        destruct (IH (rows ++ [o]) n1 n2 n3 (S n4) ig)
          as (m1 & m2 & m3 & m4 & Hl & H1 & H2 & H3 & H4 & Hs).
        exists m1, m2, m3, m4. rewrite Hl, <- app_assoc.
        split; [reflexivity|]. unfold rows_of at 1 3 5 7. cbn. lia.
    + cbn [negb Classificar.rows_out Classificar.counts Classificar.ignored
           List.length app].
      destruct (IH rows n1 n2 n3 n4 (S ig))
        as (m1 & m2 & m3 & m4 & Hl & H1 & H2 & H3 & H4 & Hs).
      exists m1, m2, m3, m4. rewrite Hl.
      split; [f_equal; f_equal; lia|]. repeat split; assumption.
Qed.

Lemma considered_or_ignored (lower : string -> string)
      (rs : list Classificar.row) :
  List.length (flat_map (out_row lower) rs)
  + List.length (filter (fun r => negb (considered lower r)) rs)
  = List.length rs.
Proof.
  induction rs as [|r rs IH]; [reflexivity|].
  cbn [flat_map filter]. unfold out_row at 1, considered at 1.
  destruct (Classificar.classify lower (Classificar.get r "path" "")
                                 (Classificar.get r "extension" ""))
    as [[cat why]|]; cbn [negb app List.length]; lia.
Qed.

(** A run of the classification.  Without the inventory it raises
    FileNotFoundError; with it, whatever the inventory holds, it ends well:
    no category [classify] returns is missing from [counts].  The output
    table has, in the order of the inventory, one row for each row that is
    not under [.git]; the rows ignored are the others, so rows written and
    rows ignored add up to the rows read.  The total of the summary is the
    number of rows written, and the count of each category is the number of
    rows written with it. *)
Theorem classification_counts :
  forall (lower : string -> string) (rs : list Classificar.row) (now : datetime),
    Classificar.main lower None now
    = inl (Classificar.InventoryNotFound Classificar.INVENTORY)
    /\
    exists a lines,
      Classificar.loop lower Classificar.start rs = inr a /\
      Classificar.summary_lines now a = inr lines /\
      Classificar.main lower (Some rs) now
      = inr (Classificar.mkOutput (Classificar.rows_out a)
                                  (Classificar.join_lines lines)) /\
      Classificar.rows_out a = flat_map (out_row lower) rs /\
      Classificar.ignored a
      = List.length (filter (fun r => negb (considered lower r)) rs) /\
      List.length (Classificar.rows_out a) + Classificar.ignored a
      = List.length rs /\
      Classificar.total (Classificar.counts a)
      = List.length (Classificar.rows_out a) /\
      forall cat,
        In cat categories ->
        Classificar.count_of cat (Classificar.counts a)
        = Some (rows_of cat (Classificar.rows_out a)).
Proof.
  intros lower rs now. split; [reflexivity|].
  destruct (loop_counts lower rs [] 0 0 0 0 0)
    as (m1 & m2 & m3 & m4 & Hl & H1 & H2 & H3 & H4 & Hs).
  cbn [app Nat.add] in Hl, H1, H2, H3, H4, Hs.
  fold Classificar.start in Hl.
  eexists. eexists. split; [exact Hl|].
  unfold Classificar.main. rewrite Hl. unfold Classificar.summary_lines.
  cbn [Classificar.rows_out Classificar.counts Classificar.ignored].
  change (Classificar.count_of Classificar.TESE_PROVAVEL _) with (Some m1).
  change (Classificar.count_of Classificar.DADOS_EXTERNOS _) with (Some m2).
  change (Classificar.count_of Classificar.ACERVO_LIVROS _) with (Some m3).
  change (Classificar.count_of Classificar.INDETERMINADO _) with (Some m4).
  cbv iota beta.
  split; [reflexivity|]. split; [reflexivity|]. split; [reflexivity|].
  split; [reflexivity|]. split; [apply considered_or_ignored|].
  split.
  - unfold Classificar.total. cbn [map snd fold_left]. lia.
  - intros cat Hin. unfold categories in Hin. cbn [In] in Hin.
    destruct Hin as [<-|[<-|[<-|[<-|[]]]]].
    + change (Classificar.count_of Classificar.TESE_PROVAVEL _) with (Some m1).
      now rewrite H1.
    + change (Classificar.count_of Classificar.DADOS_EXTERNOS _) with (Some m2).
      now rewrite H2.
    + change (Classificar.count_of Classificar.ACERVO_LIVROS _) with (Some m3).
      now rewrite H3.
    + change (Classificar.count_of Classificar.INDETERMINADO _) with (Some m4).
      now rewrite H4.
Qed.

(** Nothing outside the thesis trees is classified as thesis material: a
    file [classify] marks TESE_PROVAVEL is not under [.git] and is the
    project README, or lies under [resultados/], [scripts/capitulo_5/] or
    [tese/], or in a folder [03_modelagem/resultados_cap5] (the path as the
    rules see it: separators as [/], lower case). *)
Theorem thesis_material_only_in_thesis_trees :
  forall (lower : string -> string) (path_rel ext : option string) (why : string),
    Classificar.classify lower path_rel ext
    = Some (Classificar.TESE_PROVAVEL, why) ->
    (String.prefix ".git/" (rule_path lower path_rel) = false /\
     XIV.contains "/.git/" (rule_path lower path_rel) = false)
    /\
    (rule_path lower path_rel = "readme.md" \/
     String.prefix "resultados/" (rule_path lower path_rel) = true \/
     String.prefix "scripts/capitulo_5/" (rule_path lower path_rel) = true \/
     String.prefix "tese/" (rule_path lower path_rel) = true \/
     XIV.contains "/03_modelagem/resultados_cap5/" (rule_path lower path_rel)
     = true).
Proof.
  intros lower path_rel ext why. unfold rule_path.
  set (p := Classificar.norm lower path_rel).
  match goal with |- _ -> ?G => remember G as claim eqn:Hclaim end.
  unfold Classificar.classify. cbv zeta.
  change (Classificar.norm lower path_rel) with p.
  first_rule; [discriminate|]. apply orb_false_iff in Heqb.
  first_rule; [intros _; subst claim; split; [exact Heqb|];
               left; now apply String.eqb_eq|].
  first_rule;
    [intros _; subst claim; split; [exact Heqb|]; right; left;
     exact (prefix_shorter "resultados/" "capitulo_5/" p Heqb1)|].
  repeat first_rule; try discriminate; intros _; subst claim;
    (split; [exact Heqb|]); auto 7.
  apply orb_true_iff in Heqb13. destruct Heqb13 as [Ht|Hr]; auto 7.
Qed.

Lemma thesis_material_only_in_thesis_trees_witness :
  (String.prefix ".git/" (rule_path ascii_lower (Some "Tese\Cap1.QMD")) = false /\
   XIV.contains "/.git/" (rule_path ascii_lower (Some "Tese\Cap1.QMD")) = false)
  /\
  (rule_path ascii_lower (Some "Tese\Cap1.QMD") = "readme.md" \/
   String.prefix "resultados/" (rule_path ascii_lower (Some "Tese\Cap1.QMD"))
   = true \/
   String.prefix "scripts/capitulo_5/"
                 (rule_path ascii_lower (Some "Tese\Cap1.QMD")) = true \/
   String.prefix "tese/" (rule_path ascii_lower (Some "Tese\Cap1.QMD")) = true \/
   XIV.contains "/03_modelagem/resultados_cap5/"
                (rule_path ascii_lower (Some "Tese\Cap1.QMD")) = true).
Proof.
  apply (@thesis_material_only_in_thesis_trees
           ascii_lower (Some "Tese\Cap1.QMD") (Some ".QMD")
           "Documento de escrita em tese/").
  reflexivity.
Defined.

Lemma mem_known (e : string) :
  Classificar.mem e Classificar.TABULAR_EXT = false ->
  Classificar.mem e Classificar.DATA_HEAVY_EXT = false ->
  String.eqb e ".qmd" = false ->
  Classificar.mem e Classificar.CODE_EXT = false ->
  Classificar.mem e Classificar.DOC_EXT = false ->
  Classificar.mem e Classificar.MEDIA_EXT = false ->
  Classificar.mem e Classificar.OTHER_EXT = false ->
  Classificar.mem e known_ext = false.
Proof.
  unfold Classificar.mem, known_ext. intros H1 H2 H3 H4 H5 H6 H7.
  rewrite !existsb_app, H1, H2, H4, H5, H6, H7.
  cbn [existsb]. now rewrite H3.
Qed.

(** What is left for manual review.  A file [classify] marks INDETERMINADO
    has no extension and lies in none of the data folders, or is code under
    [scripts/] outside [scripts/capitulo_5/], or has an extension the rules
    do not know: a file with a known extension that is not code is never
    left undetermined. *)
Theorem indeterminate_cases :
  forall (lower : string -> string) (path_rel ext : option string) (why : string),
    Classificar.classify lower path_rel ext
    = Some (Classificar.INDETERMINADO, why) ->
    (rule_ext lower ext = "" /\
     Classificar.any_in data_folders (rule_path lower path_rel) = false)
    \/
    (Classificar.mem (rule_ext lower ext) Classificar.CODE_EXT = true /\
     String.prefix "scripts/" (rule_path lower path_rel) = true /\
     String.prefix "scripts/capitulo_5/" (rule_path lower path_rel) = false)
    \/
    (rule_ext lower ext <> "" /\
     Classificar.mem (rule_ext lower ext) known_ext = false).
Proof.
  intros lower path_rel ext why. unfold rule_path, rule_ext, data_folders.
  set (p := Classificar.norm lower path_rel).
  set (e := lower (Classificar.or_empty ext)).
  match goal with |- _ -> ?G => remember G as claim eqn:Hclaim end.
  unfold Classificar.classify. cbv zeta.
  change (Classificar.norm lower path_rel) with p.
  change (lower (Classificar.or_empty ext)) with e.
  repeat first_rule; try discriminate; intros _; subst claim.
  - left. split; [now apply String.eqb_eq|reflexivity].
  - right; left. repeat split; assumption.
  - right; right. split.
    + now apply String.eqb_neq.
    + now apply mem_known.
Qed.

Lemma indeterminate_cases_witness :
  (rule_ext ascii_lower (Some ".PY") = "" /\
   Classificar.any_in data_folders (rule_path ascii_lower (Some "Scripts\util.py"))
   = false)
  \/
  (Classificar.mem (rule_ext ascii_lower (Some ".PY")) Classificar.CODE_EXT = true /\
   String.prefix "scripts/" (rule_path ascii_lower (Some "Scripts\util.py")) = true /\
   String.prefix "scripts/capitulo_5/"
                 (rule_path ascii_lower (Some "Scripts\util.py")) = false)
  \/
  (rule_ext ascii_lower (Some ".PY") <> "" /\
   Classificar.mem (rule_ext ascii_lower (Some ".PY")) known_ext = false).
Proof.
  apply (@indeterminate_cases
           ascii_lower (Some "Scripts\util.py") (Some ".PY")
           "Código em scripts/ fora do núcleo (revisão mínima)").
  reflexivity.
Defined.
